(** * Shadow-model output extraction for a membership-inference attack

    A shallow embedding of [shadow_models/cifar_models/extract_output.py]
    and [shadow_models/synthetic_cifar_models/extract_output.py].

    Both scripts share [extract_probabilities] (evaluation, softmax
    extraction, the duplicate filter, saving one archive per shadow model)
    and the driver loop over the shadow-model ids 1..30; the CIFAR script
    adds [combine_attack_data].  The only difference inside
    [extract_probabilities] is the language of the conflict message.

    The tensor library (the network's forward pass, softmax, argmax, the
    [np.allclose] row-sum test) and scikit-learn's [train_test_split] are
    external: they are Section variables.  Everything the scripts themselves
    do (loops, the dictionary, array stacking, files, prints, exceptions) is
    modelled as written.

    Boundaries of the model.  Files that exist are well formed: a checkpoint
    loads, a sample archive holds two parallel arrays of one length.  The
    network is applied row by row.  A two-dimensional array is the list of
    its rows; all rows have the network's ten classes, so the column check of
    [np.vstack] is not modelled, its failure on an empty list of arrays is.
    Statements executed at import time (creating [OUTPUT_DIR], printing the
    device) are left out: the model starts at the [__main__] block. *)

From Stdlib Require Import List ZArith Bool Lia String Permutation.
From Stdlib Require Import DecimalString.
From Stdlib Require DecimalZ DecimalPos.
From Stdlib Require Import Floats.SpecFloat.
Import ListNotations.

Set Implicit Arguments.
Local Open Scope Z_scope.

(** ** NumPy scalars and Python tuples of them *)

Module NumPy.

(** An [np.float32] / [np.float64] scalar: IEEE-754 value without NaN
    payload.  [SFeqb] is IEEE equality, which is what Python's [==] is on
    these scalars: NaN differs from everything, [+0.0 == -0.0]. *)
Definition float := spec_float.

(** [tuple(prob)]: a tuple of freshly boxed scalars. *)
Definition tuple := list float.

(** Python's [==] on two tuples: same length and element-wise equal.
    CPython short-cuts on object identity, but the scalars of
    [tuple(prob)] are boxed anew at each iteration, so two different
    tuples never share an element object. *)
Fixpoint tuple_eq (a b : tuple) : bool :=
  match a, b with
  | [], [] => true
  | x :: a', y :: b' => SFeqb x y && tuple_eq a' b'
  | _, _ => false
  end.

(** The class of a scalar under [==]: NaN has none, the two zeros share
    one. *)
Definition float_key (x : float) : option float :=
  match x with
  | S754_nan => None
  | S754_zero _ => Some (S754_zero false)
  | _ => Some x
  end.

Fixpoint tuple_key (a : tuple) : option tuple :=
  match a with
  | [] => Some []
  | x :: a' =>
      match float_key x, tuple_key a' with
      | Some k, Some ks => Some (k :: ks)
      | _, _ => None
      end
  end.

(** binary32 and binary64 parameters of [SpecFloat]. *)
Definition prec32 : Z := 24.
Definition emax32 : Z := 128.
Definition prec64 : Z := 53.
Definition emax64 : Z := 1024.

(** Type promotion [float32 -> float64] (exact). *)
Definition to_float64 (x : float) : float :=
  match x with
  | S754_finite s m e => binary_normalize prec64 emax64 (cond_Zopp s (Zpos m)) e s
  | _ => x
  end.

(** Type promotion [int64 -> float64] (round to nearest even). *)
Definition int_to_float64 (n : Z) : float :=
  binary_normalize prec64 emax64 n 0 false.

(** A binary32 scalar in canonical form. *)
Definition binary32 (x : float) : Prop := valid_binary prec32 emax32 x = true.

(** [y] is the same number as [x]: the same special value, or the same sign
    with the mantissa of [x] written [d] bits further to the left and the
    exponent lowered by [d]. *)
Definition same_number (x y : float) : Prop :=
  match x, y with
  | S754_zero s, S754_zero s' => s = s'
  | S754_infinity s, S754_infinity s' => s = s'
  | S754_nan, S754_nan => True
  | S754_finite s m e, S754_finite s' m' e' =>
      s = s' /\ exists d, 0 <= d /\ e' = e - d /\ Zpos m' = Zpos m * 2 ^ d
  | _, _ => False
  end.

(** [x] is the integer [n]. *)
Definition holds_integer (n : Z) (x : float) : Prop :=
  match x with
  | S754_zero _ => n = 0
  | S754_finite s m e =>
      exists d, 0 <= d /\ e = - d /\ cond_Zopp s (Zpos m) = n * 2 ^ d
  | _ => False
  end.

End NumPy.
Import NumPy.

(** ** Exceptions, console output *)

Inductive exn : Type :=
| AssertionError (msg : string)
| ZeroDivisionError
| ValueError (msg : string)
| KeyError (key : string).

Inductive result (A : Type) : Type :=
| Ok (a : A)
| Raise (e : exn).
Arguments Ok {A} a.
Arguments Raise {A} e.

Definition bind {A B} (r : result A) (k : A -> result B) : result B :=
  match r with
  | Ok a => k a
  | Raise e => Raise e
  end.

Notation "'do' x <- r ; k" := (bind r (fun x => k))
  (at level 10, x pattern, r at level 100, k at level 200).

(** One constructor per [print] call of the scripts; the arguments are the
    values interpolated into the f-string. *)
Inductive message : Type :=
| DataNotFound (shadow_id : Z)
| ExtractingAttackData (shadow_id : Z)
| ModelNotFound (shadow_id : Z)
| EvaluatingShadowModel (shadow_id : Z)
| TestAccuracy (correct total : nat)
| ConflictFound (prob_tuple : tuple) (stored member : Z)
| FinalProbabilitiesShape (rows : nat)
| FinalLabelsShape (rows : nat)
| FinalMembersShape (rows : nat)
| AttackDataSaved (shadow_id : Z) (output_path : string)
| LoadDataFrom (shadow_file : string)
| CollectedDataPoints (n : nat)
| CombinedDataPath (path : string)
| TrainTestShapes (train_rows test_rows : nat).

(** ** The duplicate filter of [extract_probabilities] *)

Module Dedup.

(** [unique_data]: a Python dict from probability tuples to membership
    flags, in insertion order.  Keys are compared with [tuple_eq], so the
    dict is an association list rather than a map with Leibniz keys. *)
Definition dict := list (tuple * Z).

(** [prob_tuple in unique_data] / [unique_data[prob_tuple]]. *)
Fixpoint lookup (d : dict) (prob_tuple : tuple) : option Z :=
  match d with
  | [] => None
  | (k, v) :: d' => if tuple_eq k prob_tuple then Some v else lookup d' prob_tuple
  end.

(** [unique_data[prob_tuple] = member] for a key that is not present. *)
Definition insert_new (d : dict) (prob_tuple : tuple) (member : Z) : dict :=
  d ++ [(prob_tuple, member)].

(** The variables the loop reads and writes. *)
Record state : Type := mkState {
  unique_data : dict;
  filtered_probs : list tuple;
  filtered_labels : list Z;
  filtered_members : list Z;
  printed : list message
}.

Definition init : state := mkState [] [] [] [] [].

(** One (prob, label, member) element of [zip(probabilities, labels, members)]. *)
Abbreviation row := (tuple * Z * Z)%type.

Definition zip3 (probabilities : list tuple) (labels members : list Z) : list row :=
  combine (combine probabilities labels) members.

(** The loop body. *)
Definition step (s : state) (r : row) : state :=
  let '(prob, label, member) := r in
  let prob_tuple := prob in
  match lookup (unique_data s) prob_tuple with
  | None =>
      mkState (insert_new (unique_data s) prob_tuple member)
              (filtered_probs s ++ [prob])
              (filtered_labels s ++ [label])
              (filtered_members s ++ [member])
              (printed s)
  | Some stored =>
      if negb (stored =? member)
      then mkState (unique_data s) (filtered_probs s) (filtered_labels s)
                   (filtered_members s)
                   (printed s ++ [ConflictFound prob_tuple stored member])
      else s
  end.

Definition loop (rows : list row) (s : state) : state := fold_left step rows s.

(** The "Delete duplicates" block: from the stacked arrays to the loop's
    final variables. *)
Definition delete_duplicates (probabilities : list tuple) (labels members : list Z) : state :=
  loop (zip3 probabilities labels members) init.

(** The rows of the three filtered arrays, side by side. *)
Definition filtered (s : state) : list row :=
  zip3 (filtered_probs s) (filtered_labels s) (filtered_members s).

(** *** A recursive reading of the loop, used in the proofs *)

Definition entry (r : row) : tuple * Z := (fst (fst r), snd r).

Fixpoint kept (d : dict) (rows : list row) : list row :=
  match rows with
  | [] => []
  | r :: rows' =>
      match lookup d (fst (fst r)) with
      | None => r :: kept (d ++ [entry r]) rows'
      | Some _ => kept d rows'
      end
  end.

Fixpoint conflicts (d : dict) (rows : list row) : list message :=
  match rows with
  | [] => []
  | r :: rows' =>
      match lookup d (fst (fst r)) with
      | None => conflicts (d ++ [entry r]) rows'
      | Some stored =>
          if negb (stored =? snd r)
          then ConflictFound (fst (fst r)) stored (snd r) :: conflicts d rows'
          else conflicts d rows'
      end
  end.

(** Rows whose vectors are pairwise different under [==]. *)
Fixpoint distinct (rows : list row) : Prop :=
  match rows with
  | [] => True
  | r :: rows' =>
      (forall q, In q rows' -> tuple_eq (fst (fst r)) (fst (fst q)) = false)
      /\ distinct rows'
  end.

(** [l] is [l'] with some rows left out, order kept. *)
Inductive subseq : list row -> list row -> Prop :=
| subseq_nil : subseq [] []
| subseq_keep r l l' : subseq l l' -> subseq (r :: l) (r :: l')
| subseq_drop r l l' : subseq l l' -> subseq l (r :: l').

(** Number of rows whose vector equals [p]. *)
Definition occurrences (p : tuple) (rows : list row) : nat :=
  List.length (filter (fun q => tuple_eq (fst (fst q)) p) rows).

End Dedup.

(** ** Python strings and paths *)

Module Py.
Local Open Scope string_scope.

(** [f"{n}"] for an [int]. *)
Definition str (n : Z) : string := NilZero.string_of_int (Z.to_int n).

Definition startswith (s pre : string) : bool := String.prefix pre s.

Definition endswith (s suf : string) : bool :=
  let n := String.length suf in
  (n <=? String.length s)%nat
  && String.eqb (String.substring (String.length s - n) n s) suf.

(** [os.path.join(a, b)] for a relative [b]. *)
Definition join (a b : string) : string := a ++ "/" ++ b.

(** [range(lo, hi)]. *)
Definition range (lo hi : Z) : list Z :=
  map (fun k => lo + Z.of_nat k) (seq 0 (Z.to_nat (hi - lo))).
End Py.

(** ** Constants of the scripts *)

Inductive script : Type := Cifar | SyntheticCifar.

Module Config.
Local Open Scope string_scope.

Definition BASE_DIR (sc : script) : string :=
  match sc with
  | Cifar => "/home/lab24inference/amelie/shadow_models/cifar_models"
  | SyntheticCifar => "/home/lab24inference/amelie/shadow_models/synthetic_cifar_models"
  end.
Definition SHADOW_DATA_DIR : string :=
  "/home/lab24inference/amelie/shadow_models_data/fake_cifar/shadow_data".
Definition MODEL_SAVE_DIR (sc : script) : string := Py.join (BASE_DIR sc) "models".
Definition OUTPUT_DIR (sc : script) : string := Py.join (BASE_DIR sc) "attack_data".

Definition model_path (sc : script) (shadow_id : Z) : string :=
  Py.join (MODEL_SAVE_DIR sc) ("shadow_model_" ++ Py.str shadow_id ++ ".pth").
Definition train_data_path (shadow_id : Z) : string :=
  Py.join SHADOW_DATA_DIR ("shadow_model_" ++ Py.str shadow_id ++ "/train/train_data.npz").
Definition test_data_path (shadow_id : Z) : string :=
  Py.join SHADOW_DATA_DIR ("shadow_model_" ++ Py.str shadow_id ++ "/test/test_data.npz").
(** File name of a per-model archive inside [OUTPUT_DIR]. *)
Definition attack_data_name (shadow_id : Z) : string :=
  "shadow_model_" ++ Py.str shadow_id ++ "_attack_data.npz".
Definition combined_name : string := "combined_attack_data.npz".

Definition batch_size : nat := 256.
(** [test_size=0.3] as the binary64 literal, [random_state=42]. *)
Definition test_size : float := S754_finite false 5404319552844595 (-54).
Definition random_state : Z := 42.
End Config.

(** ** Files *)

(** A sample archive [train_data.npz] / [test_data.npz]: the parallel arrays
    ["images"] and ["labels"], read as a sequence of samples. *)
Definition dataset (image : Type) : Type := list (image * Z).

(** An [.npz] archive found in, or written to, [OUTPUT_DIR]. *)
Inductive npz : Type :=
| AttackData (probabilities : list tuple) (labels members : list Z)
| CombinedData (X_train : list tuple) (y_train : list Z)
               (X_test : list tuple) (y_test : list Z).

(** A directory: file names with their contents, in [os.listdir] order. *)
Definition directory : Type := list (string * npz).

(** [np.savez(os.path.join(dir, name), ...)]: an existing file is replaced,
    a new one is added to the listing. *)
Fixpoint savez (dir : directory) (name : string) (content : npz) : directory :=
  match dir with
  | [] => [(name, content)]
  | (n, c) :: dir' =>
      if String.eqb n name then (n, content) :: dir'
      else (n, c) :: savez dir' name content
  end.

(** The file of that name, if any. *)
Fixpoint find_file (dir : directory) (name : string) : option npz :=
  match dir with
  | [] => None
  | (n, c) :: dir' => if String.eqb n name then Some c else find_file dir' name
  end.

(** The records of the per-model archives of a listing, in listing order. *)
Fixpoint all_rows (files : directory) : list Dedup.row :=
  match files with
  | [] => []
  | (_, AttackData P L M) :: files' => Dedup.zip3 P L M ++ all_rows files'
  | (_, CombinedData _ _ _ _) :: files' => all_rows files'
  end.

(** Every file is a per-model archive whose three arrays have one length. *)
Fixpoint archives_aligned (files : directory) : Prop :=
  match files with
  | [] => True
  | (_, AttackData P L M) :: files' =>
      List.length P = List.length L /\ List.length L = List.length M
      /\ archives_aligned files'
  | (_, CombinedData _ _ _ _) :: _ => False
  end.

(** The four arrays returned by [train_test_split]. *)
Record split : Type := mkSplit {
  X_train : list tuple;
  X_test : list tuple;
  y_train : list Z;
  y_test : list Z
}.

(** The rows of an array at the given positions, in that order. *)
Definition select {A : Type} (l : list A) (idx : list nat) : list A :=
  flat_map (fun i => match nth_error l i with
                     | Some a => [a]
                     | None => []
                     end) idx.

(** What scikit-learn's [train_test_split(X, y, test_size=, stratify=)]
    does when it returns, for a float [test_size] below one: it draws a
    permutation of the row positions and cuts it in two; all four arrays are
    taken at these positions; the test part has [ceil(test_size * n)] rows,
    the product taken exactly; and in each part every class of [stratify]
    has its proportional share, up to rounding to a whole number of rows. *)
Definition stratified_split (test_size : float) (X : list tuple) (y stratify : list Z)
    (r : split) : Prop :=
  exists train_idx test_idx : list nat,
    let n := Z.of_nat (List.length y) in
    let n_train := Z.of_nat (List.length train_idx) in
    let n_test := Z.of_nat (List.length test_idx) in
    Permutation (train_idx ++ test_idx) (seq 0 (List.length y))
    /\ X_train r = select X train_idx /\ X_test r = select X test_idx
    /\ y_train r = select y train_idx /\ y_test r = select y test_idx
    /\ match test_size with
       | S754_finite false m (Zneg e) =>
           (n_test - 1) * 2 ^ Zpos e < Zpos m * n <= n_test * 2 ^ Zpos e
       | _ => False
       end
    /\ forall c : Z,
         Z.abs (Z.of_nat (count_occ Z.eq_dec (select stratify test_idx) c) * n
                - Z.of_nat (count_occ Z.eq_dec stratify c) * n_test) < n
         /\ Z.abs (Z.of_nat (count_occ Z.eq_dec (select stratify train_idx) c) * n
                   - Z.of_nat (count_occ Z.eq_dec stratify c) * n_train) < n.

(** [DataLoader(dataset, batch_size, shuffle=False)]: consecutive batches,
    the last one possibly shorter. *)
Fixpoint batches {A : Type} (fuel : nat) (batch_size : nat) (l : list A) : list (list A) :=
  match fuel with
  | O => []
  | S fuel' =>
      match l with
      | [] => []
      | _ => firstn batch_size l :: batches fuel' batch_size (skipn batch_size l)
      end
  end.

Definition DataLoader {A : Type} (ds : list A) (batch_size : nat) : list (list A) :=
  batches (List.length ds) batch_size ds.

Section Pipeline.

(** *** The external libraries *)

(** A stored image array and a checkpoint's state dict. *)
Variable image : Type.
Variable weights : Type.
(** [model(inputs)] on the transformed image: one row of raw class scores. *)
Variable forward : weights -> image -> tuple.
(** [F.softmax(outputs, dim=1)], one row. *)
Variable softmax : tuple -> tuple.
(** [outputs.max(1)], the index of one row. *)
Variable argmax : tuple -> Z.
(** [np.allclose(row.sum(), 1.0)] for one row of [probs]. *)
Variable sums_to_one : tuple -> bool.
(** A NumPy random generator state; [np.random.RandomState(seed)]. *)
Variable rng : Type.
Variable RandomState : Z -> rng.
(** scikit-learn's [train_test_split(X, y, test_size=, stratify=)] drawing
    from a given generator. *)
Variable split_with : rng -> list tuple -> list Z -> float -> list Z -> result split.

(** *** The world the scripts run in *)

Record world : Type := mkWorld {
  model_files : string -> option weights;       (* checkpoints by path *)
  data_files : string -> option (dataset image); (* sample archives by path *)
  output_dir : directory;                        (* the script's OUTPUT_DIR *)
  np_random : rng;                               (* NumPy's global generator *)
  stdout : list message
}.

Definition print (m : message) (w : world) : world :=
  mkWorld (model_files w) (data_files w) (output_dir w) (np_random w) (stdout w ++ [m]).

Definition print_all (ms : list message) (w : world) : world :=
  mkWorld (model_files w) (data_files w) (output_dir w) (np_random w) (stdout w ++ ms).

Definition write (name : string) (content : npz) (w : world) : world :=
  mkWorld (model_files w) (data_files w) (savez (output_dir w) name content)
          (np_random w) (stdout w).

(** How a statement sequence ends: normally, or with an exception that
    nothing catches (the scripts have no [try]). *)
Inductive outcome : Type :=
| Done (w : world)
| Raised (e : exn) (w : world).

Definition os_path_exists_model (w : world) (path : string) : bool :=
  match model_files w path with Some _ => true | None => false end.
Definition os_path_exists_data (w : world) (path : string) : bool :=
  match data_files w path with Some _ => true | None => false end.

(** [train_test_split(..., random_state=seed)]: an integer seed makes a
    fresh generator; [None] would draw from the global one. *)
Definition train_test_split (w : world) (X : list tuple) (y : list Z)
    (test_size : float) (random_state : option Z) (stratify : list Z) : result split :=
  split_with (match random_state with
              | Some seed => RandomState seed
              | None => np_random w
              end) X y test_size stratify.

(** *** [evaluate_model] *)

Definition count_correct (model : weights) (batch : list (image * Z)) : nat :=
  List.length (filter (fun s => argmax (forward model (fst s)) =? snd s) batch).

Definition evaluate_model (model : weights) (test_loader : list (list (image * Z)))
    (w : world) : outcome :=
  let '(correct, total) :=
    fold_left (fun ct batch =>
                 (fst ct + count_correct model batch, snd ct + List.length batch)%nat)
              test_loader (O, O) in
  match total with
  | O => Raised ZeroDivisionError w
  | _ => Done (print (TestAccuracy correct total) w)
  end.

(** *** [get_outputs] *)

(** The body of the [for inputs, targets in loader] loop. *)
Definition get_outputs_batch (model : weights) (member_label : Z)
    (acc : list (list tuple) * list (list Z) * list Z)
    (batch : list (image * Z)) : result (list (list tuple) * list (list Z) * list Z) :=
  let '(probabilities, labels, member_labels) := acc in
  let outputs := map (fun s => forward model (fst s)) batch in
  let probs := map softmax outputs in
  if forallb sums_to_one probs
  then Ok (probabilities ++ [probs],
           labels ++ [map snd batch],
           member_labels ++ repeat member_label (List.length batch))
  else Raise (AssertionError "Probabilities do not sum up to 1!").

Fixpoint get_outputs_loop (model : weights) (member_label : Z)
    (loader : list (list (image * Z)))
    (acc : list (list tuple) * list (list Z) * list Z)
    : result (list (list tuple) * list (list Z) * list Z) :=
  match loader with
  | [] => Ok acc
  | batch :: loader' =>
      do acc' <- get_outputs_batch model member_label acc batch;
      get_outputs_loop model member_label loader' acc'
  end.

(** [np.vstack] / [np.hstack] of a list of arrays. *)
Definition stack {A : Type} (arrays : list (list A)) : result (list A) :=
  match arrays with
  | [] => Raise (ValueError "need at least one array to concatenate")
  | _ => Ok (List.concat arrays)
  end.

Definition get_outputs (model : weights) (loader : list (list (image * Z)))
    (member_label : Z) : result (list tuple * list Z * list Z) :=
  do acc <- get_outputs_loop model member_label loader ([], [], []);
  let '(probabilities, labels, member_labels) := acc in
  do P <- stack probabilities;
  do L <- stack labels;
  Ok (P, L, member_labels).

(** The probability vector computed for one sample, and the row-sum test
    on it (the loop above, read sample by sample). *)
Definition prob_of (model : weights) (s : image * Z) : tuple :=
  softmax (forward model (fst s)).
Definition row_ok (model : weights) (s : image * Z) : bool :=
  sums_to_one (prob_of model s).

(** The rows one partition contributes: vector, class label, flag. *)
Definition labelled (model : weights) (member : Z) (ds : dataset image)
    : list Dedup.row :=
  map (fun s => (prob_of model s, snd s, member)) ds.

(** *** [extract_probabilities] *)

(** The stacked arrays right before the "Delete duplicates" block. *)
Definition stacked_outputs (model : weights)
    (train_loader test_loader : list (list (image * Z)))
    : result (list tuple * list Z * list Z) :=
  do tr <- get_outputs model train_loader 1;
  do te <- get_outputs model test_loader 0;
  let '(train_probs, train_labels, train_members) := tr in
  let '(test_probs, test_labels, test_members) := te in
  Ok (train_probs ++ test_probs, train_labels ++ test_labels,
      train_members ++ test_members).

Definition extract_probabilities (sc : script) (shadow_id : Z)
    (train_loader test_loader : list (list (image * Z))) (w : world) : outcome :=
  match model_files w (Config.model_path sc shadow_id) with
  | None => Done (print (ModelNotFound shadow_id) w)
  | Some model =>
      let w := print (EvaluatingShadowModel shadow_id) w in
      match evaluate_model model test_loader w with
      | Raised e w => Raised e w
      | Done w =>
          match stacked_outputs model train_loader test_loader with
          | Raise e => Raised e w
          | Ok (probabilities, labels, members) =>
              let s := Dedup.delete_duplicates probabilities labels members in
              let w := print_all (Dedup.printed s) w in
              let probabilities := Dedup.filtered_probs s in
              let labels := Dedup.filtered_labels s in
              let members := Dedup.filtered_members s in
              let w := print (FinalProbabilitiesShape (List.length probabilities)) w in
              let w := print (FinalLabelsShape (List.length labels)) w in
              let w := print (FinalMembersShape (List.length members)) w in
              let w := write (Config.attack_data_name shadow_id)
                             (AttackData probabilities labels members) w in
              Done (print (AttackDataSaved shadow_id
                             (Py.join (Config.OUTPUT_DIR sc)
                                      (Config.attack_data_name shadow_id))) w)
          end
      end
  end.

(** The world after a successful extraction. *)
Definition extracted (sc : script) (shadow_id : Z) (model : weights)
    (train test : dataset image) (w : world) : world :=
  let s := Dedup.delete_duplicates
             (map (prob_of model) train ++ map (prob_of model) test)
             (map snd train ++ map snd test)
             (repeat 1 (List.length train) ++ repeat 0 (List.length test)) in
  let w := print (EvaluatingShadowModel shadow_id) w in
  let w := print (TestAccuracy (count_correct model test)
                               (List.length test)) w in
  let w := print_all (Dedup.printed s) w in
  let w := print (FinalProbabilitiesShape (List.length (Dedup.filtered_probs s))) w in
  let w := print (FinalLabelsShape (List.length (Dedup.filtered_labels s))) w in
  let w := print (FinalMembersShape (List.length (Dedup.filtered_members s))) w in
  let w := write (Config.attack_data_name shadow_id)
                 (AttackData (Dedup.filtered_probs s) (Dedup.filtered_labels s) (Dedup.filtered_members s)) w in
  print (AttackDataSaved shadow_id
           (Py.join (Config.OUTPUT_DIR sc) (Config.attack_data_name shadow_id))) w.

(** *** [combine_attack_data] (CIFAR script only) *)

Definition is_attack_data_name (f : string) : bool :=
  Py.startswith f "shadow_model_" && Py.endswith f "_attack_data.npz".

Definition shadow_files (w : world) : directory :=
  filter (fun entry => is_attack_data_name (fst entry)) (output_dir w).

(** The loading loop: one print and three appends per file. *)
Fixpoint load_all (files : directory)
    (acc : list (list tuple) * list (list Z) * list (list Z)) (w : world)
    : result (list (list tuple) * list (list Z) * list (list Z)) * world :=
  match files with
  | [] => (Ok acc, w)
  | (f, data) :: files' =>
      let w := print (LoadDataFrom (Py.join (Config.OUTPUT_DIR Cifar) f)) w in
      match data with
      | AttackData P L M =>
          let '(all_probabilities, all_labels, all_members) := acc in
          load_all files'
            (all_probabilities ++ [P], all_labels ++ [L], all_members ++ [M]) w
      | CombinedData _ _ _ _ => (Raise (KeyError "probabilities"), w)
      end
  end.

(** [np.hstack((all_probabilities, all_labels.reshape(-1, 1)))]: the
    result is a float64 array, one row per record. *)
Definition feature_row (prob : tuple) (label : Z) : tuple :=
  map to_float64 prob ++ [int_to_float64 label].

Definition features (all_probabilities : list tuple) (all_labels : list Z)
    : result (list tuple) :=
  if (List.length all_probabilities =? List.length all_labels)%nat
  then Ok (map (fun pl => feature_row (fst pl) (snd pl))
               (combine all_probabilities all_labels))
  else Raise (ValueError "all the input array dimensions except for the concatenation axis must match exactly").

(** The combined dataset handed to the splitter. *)
Definition combined_dataset (w : world)
    : result (list tuple * list Z) * world :=
  match load_all (shadow_files w) ([], [], []) w with
  | (Raise e, w) => (Raise e, w)
  | (Ok (all_probabilities, all_labels, all_members), w) =>
      match stack all_probabilities with
      | Raise e => (Raise e, w)
      | Ok all_probabilities =>
      match stack all_labels with
      | Raise e => (Raise e, w)
      | Ok all_labels =>
      match stack all_members with
      | Raise e => (Raise e, w)
      | Ok all_members =>
          let w := print (CollectedDataPoints (List.length all_members)) w in
          match features all_probabilities all_labels with
          | Raise e => (Raise e, w)
          | Ok X => (Ok (X, all_members), w)
          end
      end end end
  end.

Definition combine_attack_data (w : world) : outcome :=
  match combined_dataset w with
  | (Raise e, w) => Raised e w
  | (Ok (X, all_members), w) =>
      match train_test_split w X all_members Config.test_size
              (Some Config.random_state) all_members with
      | Raise e => Raised e w
      | Ok r =>
          let w := write Config.combined_name
                     (CombinedData (X_train r) (y_train r) (X_test r) (y_test r)) w in
          let w := print (CombinedDataPath
                            (Py.join (Config.OUTPUT_DIR Cifar) Config.combined_name)) w in
          Done (print (TrainTestShapes (List.length (X_train r))
                                       (List.length (X_test r))) w)
      end
  end.

(** What a run of [combine_attack_data] leaves as the combined archive, or
    the exception it ends with. *)
Definition combined_archive (o : outcome) : result (option npz) :=
  match o with
  | Done w => Ok (find_file (output_dir w) Config.combined_name)
  | Raised e _ => Raise e
  end.

(** *** The [__main__] block *)

(** The body of [for shadow_id in range(1, 31)]. *)
Definition process_shadow_model (sc : script) (shadow_id : Z) (w : world) : outcome :=
  let train_data_path := Config.train_data_path shadow_id in
  let test_data_path := Config.test_data_path shadow_id in
  match data_files w train_data_path, data_files w test_data_path with
  | Some train_dataset, Some test_dataset =>
      let train_loader := DataLoader train_dataset Config.batch_size in
      let test_loader := DataLoader test_dataset Config.batch_size in
      let w := print (ExtractingAttackData shadow_id) w in
      extract_probabilities sc shadow_id train_loader test_loader w
  | _, _ => Done (print (DataNotFound shadow_id) w)
  end.

(** A [for] loop whose body may raise. *)
Fixpoint for_each (ids : list Z) (body : Z -> world -> outcome) (w : world) : outcome :=
  match ids with
  | [] => Done w
  | shadow_id :: ids' =>
      match body shadow_id w with
      | Done w' => for_each ids' body w'
      | Raised e w' => Raised e w'
      end
  end.

Definition shadow_ids : list Z := Py.range 1 31.

Definition main (sc : script) (w : world) : outcome :=
  match for_each shadow_ids (process_shadow_model sc) w with
  | Raised e w => Raised e w
  | Done w =>
      match sc with
      | Cifar => combine_attack_data w
      | SyntheticCifar => Done w
      end
  end.

(** *** Disjointness of the two partitions *)





(** *** Reading an outcome *)

(** The world a run ends in, however it ends. *)
Definition world_of (o : outcome) : world :=
  match o with
  | Done w => w
  | Raised _ w => w
  end.

(** The archive a successful extraction saves for a shadow model. *)
Definition attack_archive (model : weights) (train test : dataset image) : npz :=
  let s := Dedup.loop (labelled model 1 train ++ labelled model 0 test) Dedup.init in
  AttackData (Dedup.filtered_probs s) (Dedup.filtered_labels s) (Dedup.filtered_members s).

(** [w'] differs from [w] at most in the console, which has only grown, and
    in the files of the output directory called one of [names]. *)
Definition evolves (names : list string) (w w' : world) : Prop :=
  model_files w' = model_files w
  /\ data_files w' = data_files w
  /\ np_random w' = np_random w
  /\ (exists msgs, stdout w' = stdout w ++ msgs)
  /\ forall n, ~ In n names -> find_file (output_dir w') n = find_file (output_dir w) n.

End Pipeline.

(** ** A small instance, for running the definitions *)

Module Toy.

(** binary32 constants. *)
Definition zero : float := S754_zero false.
Definition quarter : float := S754_finite false 8388608 (-25).
Definition half : float := S754_finite false 8388608 (-24).
Definition one : float := S754_finite false 8388608 (-23).

(** The vector (0.5, 0.5, 0, ..., 0) over the ten classes. *)
Definition half_half : tuple :=
  [half; half; zero; zero; zero; zero; zero; zero; zero; zero].
Definition first_class : tuple :=
  [one; zero; zero; zero; zero; zero; zero; zero; zero; zero].
Definition second_class : tuple :=
  [zero; one; zero; zero; zero; zero; zero; zero; zero; zero].
(** A row that sums to 0.75. *)
Definition leaking : tuple :=
  [half; quarter; zero; zero; zero; zero; zero; zero; zero; zero].

Definition image : Type := Z.
Definition weights : Type := unit.

(** A "network" that already returns normalised scores. *)
Definition forward (_ : weights) (x : image) : tuple :=
  if x =? 0 then half_half
  else if x =? 1 then first_class
  else if x =? 2 then second_class
  else leaking.
Definition softmax (t : tuple) : tuple := t.
Definition argmax (t : tuple) : Z := 0.
(** Exact binary32 row sum, compared with 1. *)
Definition sums_to_one (t : tuple) : bool :=
  SFeqb (fold_left (SFadd prec32 emax32) t zero) one.

(** A generator that is just a number; the splitter rotates the records by
    it and cuts off the first [ceil(0.3 n)] as the test part. *)
Definition rng : Type := nat.
Definition RandomState (seed : Z) : rng := Z.to_nat seed.
Definition rotate {A : Type} (g : nat) (l : list A) : list A :=
  skipn (g mod List.length l) l ++ firstn (g mod List.length l) l.
Definition split_with (g : rng) (X : list tuple) (y : list Z) (test_size : float)
    (stratify : list Z) : result split :=
  let k := ((3 * List.length y + 9) / 10)%nat in
  Ok (mkSplit (skipn k (rotate g X)) (firstn k (rotate g X))
              (skipn k (rotate g y)) (firstn k (rotate g y))).

Definition no_models : string -> option weights := fun _ => None.
Definition model_1 : string -> option weights :=
  fun path => if String.eqb path (Config.model_path Cifar 1) then Some tt else None.

Definition no_data : string -> option (dataset image) := fun _ => None.
(** Shadow model 1 with a sample (image 0, class 3) in both partitions. *)
Definition overlapping_data : string -> option (dataset image) :=
  fun path =>
    if String.eqb path (Config.train_data_path 1) then Some [(0, 3); (1, 5)]
    else if String.eqb path (Config.test_data_path 1) then Some [(0, 3); (2, 7)]
    else None.
(** Shadow model 1 with a test image whose row does not sum to one. *)
Definition leaking_data : string -> option (dataset image) :=
  fun path =>
    if String.eqb path (Config.train_data_path 1) then Some [(1, 5)]
    else if String.eqb path (Config.test_data_path 1) then Some [(2, 7); (9, 4)]
    else None.

Definition empty_world : world image weights rng :=
  mkWorld no_models no_data [] O [].
Definition data_only_world : world image weights rng :=
  mkWorld no_models overlapping_data [] O [].
Definition overlapping_world : world image weights rng :=
  mkWorld model_1 overlapping_data [] O [].
Definition leaking_world : world image weights rng :=
  mkWorld model_1 leaking_data [] O [].

(** Two per-model archives, as two earlier extractions left them. *)
Definition archives : directory :=
  [ (Config.attack_data_name 1,
     AttackData [half_half; first_class] [3; 5] [1; 0]);
    (Config.attack_data_name 2,
     AttackData [second_class; half_half] [7; 3] [1; 0]) ].
Definition archive_world : world image weights rng :=
  mkWorld no_models no_data archives O [].
(** The same directory seen by a process whose global generator and console
    are in another state. *)
Definition archive_world' : world image weights rng :=
  mkWorld model_1 no_data archives 7%nat [DataNotFound 1].


(** A vector with a NaN entry. *)
Definition with_nan : tuple :=
  [S754_nan; half; zero; zero; zero; zero; zero; zero; zero; zero].

(** A world in which every path holds a checkpoint and a sample archive. *)
Definition all_models : string -> option weights := fun _ => Some tt.
Definition all_data : string -> option (dataset image) :=
  fun _ => Some [(1, 5); (2, 7)].
Definition ready_world : world image weights rng :=
  mkWorld all_models all_data [] O [].

(** An output directory with a well-formed archive, and one in which a file
    named like a per-model archive holds something else. *)
Definition stale_world : world image weights rng :=
  mkWorld no_models no_data
    [ (Config.attack_data_name 1, AttackData [half_half] [3] [1]);
      ("shadow_model_old_attack_data.npz"%string, CombinedData [] [] [] []) ] O [].


End Toy.

(** * Properties *)

Unset Implicit Arguments.

(** ** Equality of scalars and tuples *)

Lemma SFcompare_finite_Eq s1 m1 e1 s2 m2 e2 :
  SFcompare (S754_finite s1 m1 e1) (S754_finite s2 m2 e2) = Some Eq
  <-> s1 = s2 /\ m1 = m2 /\ e1 = e2.
Proof.
  simpl. destruct s1, s2; try (split; [discriminate | intros (H & _); discriminate H]).
  - destruct (Z.compare_spec e1 e2) as [He | He | He];
      try (split; [discriminate | intros (_ & _ & H); lia]).
    change (Pos.compare_cont Eq m1 m2) with (Pos.compare m1 m2).
    destruct (Pos.compare_spec m1 m2) as [Hm | Hm | Hm]; simpl;
      try (split; [discriminate | intros (_ & H & _); lia]).
    subst; tauto.
  - destruct (Z.compare_spec e1 e2) as [He | He | He];
      try (split; [discriminate | intros (_ & _ & H); lia]).
    change (Pos.compare_cont Eq m1 m2) with (Pos.compare m1 m2).
    destruct (Pos.compare_spec m1 m2) as [Hm | Hm | Hm]; simpl;
      try (split; [discriminate | intros (_ & H & _); lia]).
    subst; tauto.
Qed.

(** [==] holds exactly between scalars of one class. *)
Lemma SFeqb_key (x y : float) :
  SFeqb x y = true <-> float_key x = float_key y /\ float_key x <> None.
Proof.
  unfold SFeqb.
  destruct x as [sx | sx | | sx mx ex], y as [sy | sy | | sy my ey];
    try (pose proof (SFcompare_finite_Eq sx mx ex sy my ey) as HF;
         destruct (SFcompare (S754_finite sx mx ex) (S754_finite sy my ey)) as [[ | | ] |];
         simpl float_key;
         (split; [ intros H; try discriminate H; destruct HF as [HF _];
                   destruct (HF eq_refl) as (-> & -> & ->); split; congruence
                 | intros [H _]; injection H as -> -> ->;
                   destruct HF as [_ HF]; try reflexivity;
                   specialize (HF (conj eq_refl (conj eq_refl eq_refl))); discriminate HF ]));
    simpl; try destruct sx; try destruct sy; simpl;
    (split; [ intros H; try discriminate H; split; congruence
            | intros [H H']; try reflexivity; try congruence ]).
Qed.

Lemma tuple_eq_key (a b : tuple) :
  tuple_eq a b = true <-> tuple_key a = tuple_key b /\ tuple_key a <> None.
Proof.
  revert b; induction a as [| x a IH]; intros [| y b]; simpl.
  - split; [intros _; split; congruence | reflexivity].
  - split; [discriminate |].
    intros [H _]. destruct (float_key y), (tuple_key b); discriminate H.
  - split; [discriminate |].
    intros [H _]. destruct (float_key x), (tuple_key a); discriminate H.
  - rewrite andb_true_iff, SFeqb_key, IH.
    destruct (float_key x) as [kx |], (float_key y) as [ky |],
             (tuple_key a) as [ka |], (tuple_key b) as [kb |];
      split; intros H; try (destruct H as [[H1 H2] [H3 H4]]); try (destruct H as [H1 H2]);
      try congruence;
      repeat split; try congruence.
Qed.

Lemma tuple_eq_sym (a b : tuple) : tuple_eq a b = tuple_eq b a.
Proof.
  apply eq_true_iff_eq. rewrite !tuple_eq_key.
  split; intros [H1 H2]; split; congruence.
Qed.

Lemma tuple_eq_trans (a b c : tuple) :
  tuple_eq a b = true -> tuple_eq b c = true -> tuple_eq a c = true.
Proof.
  rewrite !tuple_eq_key. intros [H1 H2] [H3 H4]. split; congruence.
Qed.

(** Equal tuples compare alike against any third one. *)
Lemma tuple_eq_congr (a b c : tuple) :
  tuple_eq a b = true -> tuple_eq a c = tuple_eq b c.
Proof.
  intros H. apply eq_true_iff_eq. rewrite tuple_eq_key in H.
  rewrite !tuple_eq_key. destruct H as [H1 H2].
  split; intros [H3 H4]; split; congruence.
Qed.

Lemma tuple_eq_refl_l (a b : tuple) : tuple_eq a b = true -> tuple_eq a a = true.
Proof.
  intros H. rewrite (tuple_eq_congr a b a H). rewrite tuple_eq_sym. exact H.
Qed.

(** ** Type promotion is exact *)

Lemma digits2_pos_shift (d m : positive) :
  digits2_pos (Pos.iter xO m d) = (digits2_pos m + d)%positive.
Proof.
  induction d as [| d IH] using Pos.peano_ind.
  - cbn. lia.
  - rewrite Pos.iter_succ. cbn [digits2_pos]. rewrite IH. lia.
Qed.

Lemma Zpos_shift (d m : positive) :
  Zpos (Pos.iter xO m d) = Zpos m * 2 ^ Zpos d.
Proof.
  induction d as [| d IH] using Pos.peano_ind.
  - cbn. lia.
  - rewrite Pos.iter_succ, Pos2Z.inj_xO, IH, Pos2Z.inj_succ, Z.pow_succ_r by lia. lia.
Qed.

Lemma digits2_pos_le (p : positive) :
  forall k, 0 <= k -> Zpos p < 2 ^ k -> Zpos (digits2_pos p) <= k.
Proof.
  induction p as [p IH | p IH |]; intros k Hk Hp; cbn [digits2_pos].
  - assert (0 < k) by (destruct (Z.eq_dec k 0) as [-> | ]; [cbn in Hp; lia | lia]).
    replace k with (Z.succ (k - 1)) in Hp by lia. rewrite Z.pow_succ_r in Hp by lia.
    specialize (IH (k - 1) ltac:(lia) ltac:(lia)). lia.
  - assert (0 < k) by (destruct (Z.eq_dec k 0) as [-> | ]; [cbn in Hp; lia | lia]).
    replace k with (Z.succ (k - 1)) in Hp by lia. rewrite Z.pow_succ_r in Hp by lia.
    specialize (IH (k - 1) ltac:(lia) ltac:(lia)). lia.
  - destruct (Z.eq_dec k 0) as [-> | ]; [cbn in Hp; lia | lia].
Qed.

(** A mantissa of exactly [prec] digits at an exponent in range is kept. *)
Lemma binary_round_aux_exact (prec emax : Z) (s : bool) (m : positive) (e : Z) :
  Zpos (digits2_pos m) = prec ->
  3 - emax - prec <= e <= emax - prec ->
  binary_round_aux prec emax s (Zpos m) e loc_Exact = S754_finite s m e.
Proof.
  intros Hd He. unfold binary_round_aux, shr_fexp, fexp, emin.
  cbn [Zdigits2 shr_record_of_loc]. rewrite Hd.
  replace (Z.max (prec + e - prec) (3 - emax - prec) - e) with 0 by lia.
  cbn [shr shr_m loc_of_shr_record round_nearest_even Zdigits2].
  rewrite Hd.
  replace (Z.max (prec + e - prec) (3 - emax - prec) - e) with 0 by lia.
  cbn [shr shr_m].
  destruct (Z.leb_spec e (emax - prec)); [reflexivity | lia].
Qed.

(** Rounding a mantissa that fits is a shift to the left, nothing is lost. *)
Lemma binary_round_exact (prec emax : Z) (s : bool) (m : positive) (e : Z) :
  Zpos (digits2_pos m) <= prec ->
  3 - emax - prec <= Zpos (digits2_pos m) + e - prec <= emax - prec ->
  exists m' d,
    binary_round prec emax s m e = S754_finite s m' (e - d)
    /\ 0 <= d /\ Zpos m' = Zpos m * 2 ^ d.
Proof.
  intros Hd He. unfold binary_round, shl_align, fexp, emin.
  replace (Z.max (Z.pos (digits2_pos m) + e - prec) (3 - emax - prec))
    with (Z.pos (digits2_pos m) + e - prec) by lia.
  destruct (Z.pos (digits2_pos m) + e - prec - e) as [| p | p] eqn:E; try lia.
  - exists m, 0. rewrite binary_round_aux_exact by lia. rewrite Z.sub_0_r.
    repeat split; lia.
  - exists (Pos.iter xO m p), (Zpos p).
    assert (Hdig : Zpos (digits2_pos (Pos.iter xO m p)) = prec)
      by (rewrite digits2_pos_shift; lia).
    rewrite binary_round_aux_exact by lia.
    replace (Z.pos (digits2_pos m) + e - prec) with (e - Zpos p) by lia.
    repeat split; [lia | apply Zpos_shift].
Qed.

(** Promoting a binary32 scalar to binary64 keeps the number. *)
Lemma to_float64_exact (x : float) : binary32 x -> same_number x (to_float64 x).
Proof.
  unfold binary32. destruct x as [s | s | | s m e]; cbn [valid_binary to_float64 same_number];
    try (intros _; reflexivity); try (intros _; exact I).
  unfold bounded, canonical_mantissa, fexp, emin, prec32, emax32.
  intros H. apply andb_true_iff in H. destruct H as [H1 H2].
  apply Z.eqb_eq in H1. apply Z.leb_le in H2.
  destruct (binary_round_exact prec64 emax64 s m e) as (m' & d & Hr & Hd & Hm);
    [unfold prec64; lia | unfold prec64, emax64; lia |].
  assert (E : binary_normalize prec64 emax64 (cond_Zopp s (Zpos m)) e s
              = binary_round prec64 emax64 s m e) by (destruct s; reflexivity).
  rewrite E, Hr. split; [reflexivity |]. exists d. repeat split; assumption.
Qed.

(** Promoting an integer below [2^53] in size to binary64 keeps it. *)
Lemma int_to_float64_exact (n : Z) :
  - 2 ^ 53 < n < 2 ^ 53 -> holds_integer n (int_to_float64 n).
Proof.
  intros Hn. unfold int_to_float64. destruct n as [| p | p]; cbn [binary_normalize].
  - reflexivity.
  - pose proof (digits2_pos_le p 53 ltac:(lia) ltac:(lia)) as Hd.
    pose proof (Pos2Z.is_pos (digits2_pos p)) as Hpos.
    destruct (binary_round_exact prec64 emax64 false p 0) as (m' & d & Hr & Hd' & Hm);
      [unfold prec64; lia | unfold prec64, emax64; lia |].
    rewrite Hr. cbn [holds_integer cond_Zopp]. exists d. repeat split; lia.
  - pose proof (digits2_pos_le p 53 ltac:(lia) ltac:(lia)) as Hd.
    pose proof (Pos2Z.is_pos (digits2_pos p)) as Hpos.
    destruct (binary_round_exact prec64 emax64 true p 0) as (m' & d & Hr & Hd' & Hm);
      [unfold prec64; lia | unfold prec64, emax64; lia |].
    rewrite Hr. cbn [holds_integer cond_Zopp]. exists d. repeat split; lia.
Qed.

(** ** The dictionary *)

Import Dedup.

Lemma lookup_app (d d' : dict) (p : tuple) :
  lookup (d ++ d') p = match lookup d p with
                       | Some v => Some v
                       | None => lookup d' p
                       end.
Proof.
  induction d as [| [k v] d IH]; simpl; [reflexivity |].
  destruct (tuple_eq k p); [reflexivity | exact IH].
Qed.

Lemma lookup_congr (d : dict) (p q : tuple) :
  tuple_eq p q = true -> lookup d p = lookup d q.
Proof.
  intros H. induction d as [| [k v] d IH]; simpl; [reflexivity |].
  rewrite (tuple_eq_sym k p), (tuple_eq_sym k q), (tuple_eq_congr p q k H), IH.
  reflexivity.
Qed.

(** A key is absent exactly when no stored key equals it. *)
Lemma lookup_None (d : dict) (p : tuple) :
  lookup d p = None <-> forall k v, In (k, v) d -> tuple_eq k p = false.
Proof.
  induction d as [| [k v] d IH]; simpl.
  - split; [intros _ k v [] | reflexivity].
  - destruct (tuple_eq k p) eqn:E.
    + split; [discriminate |]. intros H. rewrite (H k v) in E; [discriminate | now left].
    + rewrite IH. split.
      * intros H k' v' [Heq | Hin]; [injection Heq as <- <-; exact E | eauto].
      * intros H k' v' Hin. eauto.
Qed.

(** ** The loop and its recursive reading *)

Lemma zip3_cons p l m P L M :
  zip3 (p :: P) (l :: L) (m :: M) = (p, l, m) :: zip3 P L M.
Proof. reflexivity. Qed.

Lemma zip3_unzip (rows : list row) :
  zip3 (map (fun r => fst (fst r)) rows) (map (fun r => snd (fst r)) rows) (map snd rows)
  = rows.
Proof.
  induction rows as [| [[p l] m] rows IH]; [reflexivity |].
  simpl map. rewrite zip3_cons, IH. reflexivity.
Qed.

Lemma loop_app (l1 l2 : list row) (s : state) :
  loop (l1 ++ l2) s = loop l2 (loop l1 s).
Proof. unfold loop. apply fold_left_app. Qed.

(** The loop's final variables, in terms of [kept] and [conflicts]. *)
Lemma loop_spec (rows : list row) (s : state) :
  loop rows s =
  mkState (unique_data s ++ map entry (kept (unique_data s) rows))
          (filtered_probs s ++ map (fun r => fst (fst r)) (kept (unique_data s) rows))
          (filtered_labels s ++ map (fun r => snd (fst r)) (kept (unique_data s) rows))
          (filtered_members s ++ map snd (kept (unique_data s) rows))
          (printed s ++ conflicts (unique_data s) rows).
Proof.
  revert s; induction rows as [| [[p l] m] rows IH]; intros s.
  - simpl. rewrite !app_nil_r. destruct s; reflexivity.
  - unfold loop in *. simpl fold_left. rewrite IH. unfold step. simpl kept. simpl conflicts.
    simpl fst; simpl snd.
    destruct (lookup (unique_data s) p) as [stored |] eqn:E.
    + destruct (negb (stored =? m)); simpl; rewrite ?E; try reflexivity.
      rewrite <- app_assoc. reflexivity.
    + simpl. unfold insert_new, entry. simpl. rewrite <- !app_assoc. reflexivity.
Qed.

Lemma delete_duplicates_spec (P : list tuple) (L M : list Z) :
  let rows := zip3 P L M in
  delete_duplicates P L M =
  mkState (map entry (kept [] rows))
          (map (fun r => fst (fst r)) (kept [] rows))
          (map (fun r => snd (fst r)) (kept [] rows))
          (map snd (kept [] rows))
          (conflicts [] rows).
Proof. unfold delete_duplicates. rewrite loop_spec. reflexivity. Qed.

Lemma filtered_loop (rows : list row) :
  filtered (loop rows init) = kept [] rows.
Proof. rewrite loop_spec. unfold filtered. simpl. apply zip3_unzip. Qed.

Lemma unique_data_loop (rows : list row) :
  unique_data (loop rows init) = map entry (kept [] rows).
Proof. rewrite loop_spec. reflexivity. Qed.

Lemma kept_app (d : dict) (l1 l2 : list row) :
  kept d (l1 ++ l2) = kept d l1 ++ kept (d ++ map entry (kept d l1)) l2.
Proof.
  revert d; induction l1 as [| r l1 IH]; intros d; simpl.
  - rewrite app_nil_r. reflexivity.
  - destruct (lookup d (fst (fst r))); [apply IH |].
    simpl. rewrite IH, <- app_assoc. reflexivity.
Qed.

Lemma kept_In (d : dict) (rows : list row) (q : row) :
  In q (kept d rows) -> In q rows.
Proof.
  revert d; induction rows as [| r rows IH]; intros d; simpl; [tauto |].
  destruct (lookup d (fst (fst r))).
  - intros H. right. exact (IH _ H).
  - intros [H | H]; [now left | right; exact (IH _ H)].
Qed.

Lemma kept_subseq (d : dict) (rows : list row) : subseq (kept d rows) rows.
Proof.
  revert d; induction rows as [| r rows IH]; intros d; simpl.
  - constructor.
  - destruct (lookup d (fst (fst r))); constructor; apply IH.
Qed.

(** A retained row was not in the dictionary the scan started from. *)
Lemma kept_absent (d : dict) (rows : list row) (q : row) :
  In q (kept d rows) -> lookup d (fst (fst q)) = None.
Proof.
  revert d; induction rows as [| r rows IH]; intros d; simpl; [tauto |].
  destruct (lookup d (fst (fst r))) eqn:E.
  - apply IH.
  - intros [<- | H]; [exact E |].
    apply IH in H. rewrite lookup_app in H.
    destruct (lookup d (fst (fst q))); [discriminate | reflexivity].
Qed.

Lemma kept_distinct (d : dict) (rows : list row) : distinct (kept d rows).
Proof.
  revert d; induction rows as [| r rows IH]; intros d; simpl; [exact I |].
  destruct (lookup d (fst (fst r))) eqn:E; [apply IH |].
  simpl; split; [| apply IH].
  intros q Hq. apply kept_absent in Hq. rewrite lookup_app in Hq.
  destruct (lookup d (fst (fst q))); [discriminate |].
  simpl in Hq. destruct (tuple_eq (fst (fst r)) (fst (fst q))); [discriminate | reflexivity].
Qed.

(** Rows with pairwise different vectors, none of them in the dictionary,
    all pass the filter, silently. *)
Lemma kept_fixed (d : dict) (rows : list row) :
  distinct rows ->
  (forall q, In q rows -> lookup d (fst (fst q)) = None) ->
  kept d rows = rows /\ conflicts d rows = [].
Proof.
  revert d; induction rows as [| r rows IH]; intros d Hd Hn; simpl; [split; reflexivity |].
  rewrite (Hn r (or_introl eq_refl)).
  destruct Hd as [Hr Hd].
  destruct (IH (d ++ [entry r]) Hd) as [H1 H2].
  - intros q Hq. rewrite lookup_app, (Hn q (or_intror Hq)). simpl.
    rewrite (Hr q Hq). reflexivity.
  - rewrite H1, H2. split; reflexivity.
Qed.

(** After scanning [rows], a vector is in the dictionary exactly when it was
    there before or equals the vector of a scanned row. *)
Lemma lookup_after_scan (d : dict) (rows : list row) (p : tuple) :
  lookup (d ++ map entry (kept d rows)) p = None
  <-> lookup d p = None /\ forall q, In q rows -> tuple_eq (fst (fst q)) p = false.
Proof.
  revert d; induction rows as [| r rows IH]; intros d; simpl.
  - rewrite app_nil_r. split; [intros H; split; [exact H | intros q []] | tauto].
  - destruct (lookup d (fst (fst r))) as [v |] eqn:E.
    + rewrite IH. split.
      * intros [H1 H2]. split; [exact H1 |].
        intros q [<- | Hq]; [| exact (H2 q Hq)].
        destruct (tuple_eq (fst (fst r)) p) eqn:Er; [| reflexivity].
        rewrite (lookup_congr d _ _ Er) in E. congruence.
      * intros [H1 H2]. split; [exact H1 | intros q Hq; apply H2; now right].
    + simpl. change (entry r :: map entry (kept (d ++ [entry r]) rows))
        with ([entry r] ++ map entry (kept (d ++ [entry r]) rows)).
      rewrite app_assoc, IH, lookup_app. simpl.
      destruct (lookup d p) as [v |] eqn:Ep.
      * split; intros [H _]; discriminate H.
      * destruct (tuple_eq (fst (fst r)) p) eqn:Er.
        -- split; [intros [H _]; discriminate H |].
           intros [_ H]. rewrite (H r (or_introl eq_refl)) in Er. discriminate Er.
        -- split.
           ++ intros [_ H]. split; [reflexivity |].
              intros q [<- | Hq]; [exact Er | exact (H q Hq)].
           ++ intros [_ H]. split; [reflexivity | intros q Hq; apply H; now right].
Qed.

(** Two retained rows with equal vectors are one row. *)
Lemma distinct_In_eq (rows : list row) (a b : row) :
  distinct rows -> In a rows -> In b rows ->
  tuple_eq (fst (fst a)) (fst (fst b)) = true -> a = b.
Proof.
  induction rows as [| r rows IH]; simpl; [tauto |].
  intros [Hr Hd] [<- | Ha] [<- | Hb] E.
  - reflexivity.
  - rewrite (Hr b Hb) in E. discriminate E.
  - rewrite tuple_eq_sym, (Hr a Ha) in E. discriminate E.
  - exact (IH Hd Ha Hb E).
Qed.

Lemma occurrences_none (p : tuple) (rows : list row) :
  (forall q, In q rows -> tuple_eq (fst (fst q)) p = false) -> occurrences p rows = O.
Proof.
  unfold occurrences. induction rows as [| r rows IH]; simpl; [reflexivity |].
  intros H. rewrite (H r (or_introl eq_refl)). apply IH. intros q Hq. apply H. now right.
Qed.

Lemma distinct_occurrences (p : tuple) (rows : list row) (q : row) :
  distinct rows -> In q rows -> tuple_eq (fst (fst q)) p = true ->
  occurrences p rows = 1%nat.
Proof.
  induction rows as [| r rows IH]; simpl; [tauto |].
  intros [Hr Hd] Hin E. unfold occurrences in *. simpl.
  destruct (tuple_eq (fst (fst r)) p) eqn:Er.
  - simpl. f_equal. apply occurrences_none. intros q' Hq'.
    destruct (tuple_eq (fst (fst q')) p) eqn:Eq'; [| reflexivity].
    rewrite <- (Hr q' Hq'). symmetry.
    apply tuple_eq_trans with (b := p); [exact Er | rewrite tuple_eq_sym; exact Eq'].
  - destruct Hin as [<- | Hin]; [congruence |]. exact (IH Hd Hin E).
Qed.

(** The first row carrying a vector enters the dictionary with its own
    membership flag, and stays. *)
Lemma first_seen_entry (l1 l2 : list row) (r1 : row) (p : tuple) :
  (forall q, In q l1 -> tuple_eq (fst (fst q)) (fst (fst r1)) = false) ->
  tuple_eq (fst (fst r1)) p = true ->
  lookup (unique_data (loop (l1 ++ r1 :: l2) init)) p = Some (snd r1)
  /\ In r1 (filtered (loop (l1 ++ r1 :: l2) init)).
Proof.
  intros Hfirst Ep.
  assert (Hself : tuple_eq (fst (fst r1)) (fst (fst r1)) = true)
    by exact (tuple_eq_refl_l _ _ Ep).
  assert (Habs : lookup ([] ++ map entry (kept [] l1)) (fst (fst r1)) = None).
  { apply lookup_after_scan. split; [reflexivity | exact Hfirst]. }
  simpl in Habs.
  rewrite unique_data_loop, filtered_loop, kept_app. simpl.
  rewrite Habs. split.
  - rewrite map_app, lookup_app.
    rewrite <- (lookup_congr _ _ _ Ep), Habs. simpl.
    rewrite Ep. reflexivity.
  - apply in_or_app. right. now left.
Qed.

Lemma loop_mid (l : list row) (r : row) (l' : list row) (s : state) :
  loop (l ++ r :: l') s = loop l' (step (loop l s) r).
Proof. rewrite loop_app. reflexivity. Qed.

Lemma app_mid {A : Type} (l1 l2 l3 : list A) (x : A) :
  l1 ++ x :: l2 ++ l3 = (l1 ++ x :: l2) ++ l3.
Proof. rewrite <- app_assoc. reflexivity. Qed.

(** What the loop body does with a row whose vector is already stored. *)
Lemma step_seen (s : state) (p : tuple) (l m stored : Z) :
  lookup (unique_data s) p = Some stored ->
  step s (p, l, m) =
  if negb (stored =? m)
  then mkState (unique_data s) (filtered_probs s) (filtered_labels s) (filtered_members s)
               (printed s ++ [ConflictFound p stored m])
  else s.
Proof. intros H. unfold step. rewrite H. reflexivity. Qed.

Lemma first_match {A : Type} (f : A -> bool) (l : list A) :
  (exists x, In x l /\ f x = true) ->
  exists l1 r l2, l = l1 ++ r :: l2 /\ f r = true /\ forall q, In q l1 -> f q = false.
Proof.
  induction l as [| a l IH]; intros (x & Hin & Hx); [destruct Hin |].
  destruct (f a) eqn:Ea.
  - exists [], a, l. split; [reflexivity |]. split; [exact Ea | intros q []].
  - destruct Hin as [-> | Hin]; [congruence |].
    destruct IH as (l1 & r & l2 & -> & Hr & Hl1); [exists x; split; assumption |].
    exists (a :: l1), r, l2. split; [reflexivity |]. split; [exact Hr |].
    intros q [<- | Hq]; [exact Ea | exact (Hl1 q Hq)].
Qed.

(** The first row carrying a vector is the one output row with that vector. *)
Lemma retained_of_first (l1 l2 : list row) (r : row) (p : tuple) :
  (forall q, In q l1 -> tuple_eq (fst (fst q)) (fst (fst r)) = false) ->
  tuple_eq (fst (fst r)) p = true ->
  let out := filtered (loop (l1 ++ r :: l2) init) in
  In r out
  /\ occurrences p out = 1%nat
  /\ forall q, In q out -> tuple_eq (fst (fst q)) p = true -> q = r.
Proof.
  intros Hfirst Ep out.
  destruct (first_seen_entry l1 l2 r p Hfirst Ep) as [_ Hin]. fold out in Hin.
  assert (Hd : distinct out) by (unfold out; rewrite filtered_loop; apply kept_distinct).
  split; [exact Hin |]. split.
  - exact (distinct_occurrences p out r Hd Hin Ep).
  - intros q Hq Eq. apply (distinct_In_eq out); try assumption.
    apply tuple_eq_trans with (b := p); [exact Eq | rewrite tuple_eq_sym; exact Ep].
Qed.

(** A later row with the vector of a first occurrence and another flag is
    reported on the console. *)
Lemma conflict_reported (l1 l2 l3 : list row) (r1 r2 : row) :
  (forall q, In q l1 -> tuple_eq (fst (fst q)) (fst (fst r1)) = false) ->
  tuple_eq (fst (fst r1)) (fst (fst r2)) = true ->
  snd r1 <> snd r2 ->
  In (ConflictFound (fst (fst r2)) (snd r1) (snd r2))
     (printed (loop (l1 ++ r1 :: l2 ++ r2 :: l3) init)).
Proof.
  intros Hfirst Ep Hm.
  destruct (first_seen_entry l1 l2 r1 (fst (fst r2)) Hfirst Ep) as [Hlook _].
  rewrite app_mid, loop_mid, loop_spec. cbn [printed].
  apply in_or_app. left.
  destruct r2 as [[p2 lab2] m2]. cbn [fst snd] in *.
  rewrite (step_seen _ p2 lab2 m2 (snd r1) Hlook).
  destruct (Z.eqb_spec (snd r1) m2) as [E | _]; [contradiction |].
  cbn [negb printed]. apply in_or_app. right. now left.
Qed.

(** Whether the row at a position is appended depends exactly on the rows
    before it. *)
Lemma appended_iff_unseen (l1 : list row) (r : row) :
  filtered (loop (l1 ++ [r]) init)
  = filtered (loop l1 init)
    ++ (if existsb (fun q => tuple_eq (fst (fst q)) (fst (fst r))) l1 then [] else [r]).
Proof.
  rewrite !filtered_loop, kept_app. f_equal. cbn [app kept].
  destruct (existsb (fun q => tuple_eq (fst (fst q)) (fst (fst r))) l1) eqn:E.
  - destruct (lookup (map entry (kept [] l1)) (fst (fst r))) eqn:El; [reflexivity |].
    change (map entry (kept [] l1)) with ([] ++ map entry (kept [] l1)) in El.
    apply lookup_after_scan in El. destruct El as [_ El].
    apply existsb_exists in E. destruct E as (q & Hq & Eq).
    rewrite (El q Hq) in Eq. discriminate Eq.
  - assert (El : lookup ([] ++ map entry (kept [] l1)) (fst (fst r)) = None).
    { apply lookup_after_scan. split; [reflexivity |].
      intros q Hq. destruct (tuple_eq (fst (fst q)) (fst (fst r))) eqn:Eq; [| reflexivity].
      rewrite <- E. symmetry. apply existsb_exists. exists q. split; assumption. }
    cbn [app] in El. rewrite El. reflexivity.
Qed.

Lemma filtered_lengths (rows : list row) :
  let s := loop rows init in
  List.length (filtered_probs s) = List.length (filtered_labels s)
  /\ List.length (filtered_labels s) = List.length (filtered_members s).
Proof. intros s. unfold s. rewrite loop_spec. cbn. rewrite !length_map. split; reflexivity. Qed.

Lemma zip3_labelled {A : Type} (f : A -> tuple) (g : A -> Z) (m m' : Z) (a b : list A) :
  zip3 (map f a ++ map f b) (map g a ++ map g b)
       (repeat m (List.length a) ++ repeat m' (List.length b))
  = map (fun s => (f s, g s, m)) a ++ map (fun s => (f s, g s, m')) b.
Proof.
  induction a as [| x a IH]; cbn [map app List.length repeat].
  - induction b as [| y b IHb]; cbn [map app List.length repeat]; [reflexivity |].
    rewrite zip3_cons, IHb. reflexivity.
  - rewrite zip3_cons, IH. reflexivity.
Qed.

(** ** Claims about the duplicate filter *)

(** C1. First-seen membership label wins.  When the stacked rows contain a
    first occurrence [(p1, lab1, m1)] of a vector and, later, a row
    [(p2, lab2, m2)] with an equal vector and a different membership flag,
    the loop body leaves the dictionary and the three filtered arrays as they
    are and prints one conflict message (the later row is dropped and
    reported, nothing is merged or averaged, no exception exists in the
    loop); the first row is in the output, it is the only output row with
    that vector, and the output is the one obtained without the later row. *)
Theorem first_seen_membership_wins :
  forall (P : list tuple) (L M : list Z) (l1 l2 l3 : list row)
         (p1 p2 : tuple) (lab1 lab2 m1 m2 : Z),
    zip3 P L M = l1 ++ (p1, lab1, m1) :: l2 ++ (p2, lab2, m2) :: l3 ->
    (forall q, In q l1 -> tuple_eq (fst (fst q)) p1 = false) ->
    tuple_eq p1 p2 = true ->
    m1 <> m2 ->
    let before := loop (l1 ++ (p1, lab1, m1) :: l2) init in
    let s := delete_duplicates P L M in
    step before (p2, lab2, m2)
    = mkState (unique_data before) (filtered_probs before) (filtered_labels before)
              (filtered_members before)
              (printed before ++ [ConflictFound p2 m1 m2])
    /\ In (p1, lab1, m1) (filtered s)
    /\ (forall q, In q (filtered s) -> tuple_eq (fst (fst q)) p2 = true ->
                  q = (p1, lab1, m1))
    /\ In (ConflictFound p2 m1 m2) (printed s)
    /\ filtered s = filtered (loop (l1 ++ (p1, lab1, m1) :: l2 ++ l3) init).
Proof.
  intros P L M l1 l2 l3 p1 p2 lab1 lab2 m1 m2 Hrows Hfirst Ep Hm before s.
  destruct (first_seen_entry l1 l2 (p1, lab1, m1) p2 Hfirst Ep) as [Hlook _].
  simpl snd in Hlook. fold before in Hlook.
  assert (Hstep : step before (p2, lab2, m2)
                  = mkState (unique_data before) (filtered_probs before)
                            (filtered_labels before) (filtered_members before)
                            (printed before ++ [ConflictFound p2 m1 m2])).
  { rewrite (step_seen before p2 lab2 m2 m1 Hlook).
    destruct (Z.eqb_spec m1 m2) as [E | _]; [contradiction | reflexivity]. }
  assert (Hs : s = loop l3 (step before (p2, lab2, m2))).
  { unfold s, delete_duplicates. rewrite Hrows, app_mid, loop_mid. reflexivity. }
  assert (Hf : filtered s = filtered (loop (l1 ++ (p1, lab1, m1) :: l2 ++ l3) init)).
  { rewrite Hs, Hstep, app_mid, loop_app, !(loop_spec l3). reflexivity. }
  destruct (first_seen_entry l1 (l2 ++ l3) (p1, lab1, m1) p2 Hfirst Ep) as [_ Hin].
  rewrite <- Hf in Hin.
  split; [exact Hstep |]. split; [exact Hin |]. split; [| split; [| exact Hf]].
  - intros q Hq Eq.
    apply (distinct_In_eq (filtered s)); try assumption.
    + unfold s, delete_duplicates. rewrite filtered_loop. apply kept_distinct.
    + simpl. apply tuple_eq_trans with (b := p2); [exact Eq |].
      rewrite tuple_eq_sym. exact Ep.
  - rewrite Hs, Hstep, loop_spec. simpl.
    apply in_or_app. left. apply in_or_app. right. now left.
Qed.

(** C4. The duplicate filter is idempotent: run on its own three output
    arrays it returns the same arrays and the same dictionary, and prints
    nothing. *)
Theorem delete_duplicates_idempotent :
  forall (P : list tuple) (L M : list Z),
    let s := delete_duplicates P L M in
    delete_duplicates (filtered_probs s) (filtered_labels s) (filtered_members s)
    = mkState (unique_data s) (filtered_probs s) (filtered_labels s)
              (filtered_members s) [].
Proof.
  intros P L M s. unfold s.
  rewrite (delete_duplicates_spec P L M). simpl.
  rewrite delete_duplicates_spec. simpl. rewrite zip3_unzip.
  destruct (kept_fixed [] (kept [] (zip3 P L M))) as [H1 H2].
  - apply kept_distinct.
  - reflexivity.
  - rewrite H1, H2. reflexivity.
Qed.

(** C9. After the filter no two output rows have equal vectors; every input
    vector that equals itself (has no NaN entry) occurs exactly once in the
    output; and a later row whose vector equals that of a first occurrence
    with the same membership flag changes nothing at all: no array, not the
    dictionary, and nothing is printed. *)
Theorem each_vector_kept_once :
  forall (P : list tuple) (L M : list Z),
    let rows := zip3 P L M in
    let s := delete_duplicates P L M in
    distinct (filtered s)
    /\ (forall r, In r rows ->
                  tuple_eq (fst (fst r)) (fst (fst r)) = true ->
                  occurrences (fst (fst r)) (filtered s) = 1%nat)
    /\ (forall (l1 l2 l3 : list row) (p1 p2 : tuple) (lab1 lab2 m : Z),
          rows = l1 ++ (p1, lab1, m) :: l2 ++ (p2, lab2, m) :: l3 ->
          (forall q, In q l1 -> tuple_eq (fst (fst q)) p1 = false) ->
          tuple_eq p1 p2 = true ->
          let before := loop (l1 ++ (p1, lab1, m) :: l2) init in
          step before (p2, lab2, m) = before
          /\ s = loop (l1 ++ (p1, lab1, m) :: l2 ++ l3) init).
Proof.
  intros P L M rows s.
  assert (Hd : distinct (filtered s)).
  { unfold s, delete_duplicates. rewrite filtered_loop. apply kept_distinct. }
  split; [exact Hd |]. split.
  - intros r Hr Eself.
    assert (Hseen : lookup ([] ++ map entry (kept [] rows)) (fst (fst r)) <> None).
    { intros Hn. apply lookup_after_scan in Hn. destruct Hn as [_ Hn].
      rewrite (Hn r Hr) in Eself. discriminate Eself. }
    simpl in Hseen.
    destruct (lookup (map entry (kept [] rows)) (fst (fst r))) as [v |] eqn:E;
      [| contradiction].
    assert (Hex : exists q, In q (kept [] rows)
                            /\ tuple_eq (fst (fst q)) (fst (fst r)) = true).
    { clear - E. induction (kept [] rows) as [| q l IH];
        cbn [map lookup entry fst snd] in E; [discriminate |].
      destruct (tuple_eq (fst (fst q)) (fst (fst r))) eqn:Eq.
      - exists q. split; [now left | exact Eq].
      - destruct (IH E) as (q' & Hin & Eq'). exists q'. split; [now right | exact Eq']. }
    destruct Hex as (q & Hq & Eq).
    apply (distinct_occurrences _ _ q Hd); [| exact Eq].
    unfold s, delete_duplicates. rewrite filtered_loop. exact Hq.
  - intros l1 l2 l3 p1 p2 lab1 lab2 m Hrows Hfirst Ep before.
    destruct (first_seen_entry l1 l2 (p1, lab1, m) p2 Hfirst Ep) as [Hlook _].
    simpl snd in Hlook. fold before in Hlook.
    assert (Hstep : step before (p2, lab2, m) = before).
    { rewrite (step_seen before p2 lab2 m m Hlook), Z.eqb_refl. reflexivity. }
    split; [exact Hstep |].
    unfold s, delete_duplicates. fold rows.
    rewrite Hrows, !app_mid, loop_mid, (loop_app (l1 ++ (p1, lab1, m) :: l2) l3).
    change (loop (l1 ++ (p1, lab1, m) :: l2) init) with before.
    rewrite Hstep. reflexivity.
Qed.

(** ** Data loading *)

Lemma batches_concat {A : Type} (fuel bs : nat) (l : list A) :
  (0 < bs)%nat -> (List.length l <= fuel)%nat ->
  List.concat (batches fuel bs l) = l.
Proof.
  revert l; induction fuel as [| fuel IH]; intros l Hbs Hl.
  - destruct l; [reflexivity | simpl in Hl; lia].
  - destruct l as [| x l]; [reflexivity |].
    cbn [batches List.concat].
    rewrite IH; [apply firstn_skipn | exact Hbs |].
    rewrite length_skipn. cbn [List.length] in *. lia.
Qed.

Lemma DataLoader_concat {A : Type} (ds : list A) :
  List.concat (DataLoader ds Config.batch_size) = ds.
Proof. apply batches_concat; [unfold Config.batch_size; lia | lia]. Qed.

Lemma DataLoader_nil {A : Type} (ds : list A) (bs : nat) :
  DataLoader ds bs = [] <-> ds = [].
Proof.
  unfold DataLoader. destruct ds as [| x ds]; simpl; split; congruence.
Qed.

Lemma forallb_map_comp {A B : Type} (f : A -> B) (g : B -> bool) (l : list A) :
  forallb g (map f l) = forallb (fun x => g (f x)) l.
Proof. induction l as [| x l IH]; simpl; [reflexivity | rewrite IH; reflexivity]. Qed.

Lemma stack_nonempty {A : Type} (arrays : list (list A)) :
  arrays <> [] -> stack arrays = Ok (List.concat arrays).
Proof. destruct arrays; [congruence | reflexivity]. Qed.

Section PipelineProofs.

Variable image : Type.
Variable weights : Type.
Variable forward : weights -> image -> tuple.
Variable softmax : tuple -> tuple.
Variable argmax : tuple -> Z.
Variable sums_to_one : tuple -> bool.
Variable rng : Type.
Variable RandomState : Z -> rng.
Variable split_with : rng -> list tuple -> list Z -> float -> list Z -> result split.

Local Abbreviation prob_of_ := (prob_of forward softmax).
Local Abbreviation row_ok_ := (row_ok forward softmax sums_to_one).
Local Abbreviation assertion := (AssertionError "Probabilities do not sum up to 1!").

(** ** [get_outputs] *)

Lemma get_outputs_batch_spec model member acc (batch : list (image * Z)) :
  get_outputs_batch forward softmax sums_to_one model member acc batch
  = if forallb (row_ok_ model) batch
    then Ok (fst (fst acc) ++ [map (prob_of_ model) batch],
             snd (fst acc) ++ [map snd batch],
             snd acc ++ repeat member (List.length batch))
    else Raise assertion.
Proof.
  destruct acc as [[ps ls] ms]. unfold get_outputs_batch.
  rewrite map_map, forallb_map_comp. reflexivity.
Qed.

Lemma get_outputs_loop_spec model member (loader : list (list (image * Z))) acc :
  get_outputs_loop forward softmax sums_to_one model member loader acc
  = if forallb (row_ok_ model) (List.concat loader)
    then Ok (fst (fst acc) ++ map (map (prob_of_ model)) loader,
             snd (fst acc) ++ map (map snd) loader,
             snd acc ++ repeat member (List.length (List.concat loader)))
    else Raise assertion.
Proof.
  revert acc; induction loader as [| batch loader IH]; intros [[ps ls] ms].
  - simpl. rewrite !app_nil_r. reflexivity.
  - cbn [get_outputs_loop List.concat]. rewrite get_outputs_batch_spec, forallb_app.
    destruct (forallb (row_ok_ model) batch); [| reflexivity].
    cbn [bind andb fst snd]. rewrite IH. cbn [fst snd].
    destruct (forallb (row_ok_ model) (List.concat loader)); [| reflexivity].
    rewrite length_app, repeat_app, <- !app_assoc. reflexivity.
Qed.

(** [get_outputs] on a data loader: the three stacked arrays, or the
    exception it ends with. *)
Lemma get_outputs_spec model (ds : dataset image) member :
  get_outputs forward softmax sums_to_one model (DataLoader ds Config.batch_size) member
  = if forallb (row_ok_ model) ds
    then match ds with
         | [] => Raise (ValueError "need at least one array to concatenate")
         | _ => Ok (map (prob_of_ model) ds, map snd ds, repeat member (List.length ds))
         end
    else Raise assertion.
Proof.
  unfold get_outputs. rewrite get_outputs_loop_spec, DataLoader_concat.
  destruct (forallb (row_ok_ model) ds); [| reflexivity].
  cbn [bind fst snd app].
  destruct ds as [| x ds]; [reflexivity |].
  assert (Hne : DataLoader (x :: ds) Config.batch_size <> []).
  { rewrite DataLoader_nil. discriminate. }
  rewrite !stack_nonempty by (intros E; apply map_eq_nil in E; contradiction).
  cbn [bind]. rewrite <- !concat_map, DataLoader_concat. reflexivity.
Qed.

(** ** [evaluate_model] *)

Lemma evaluate_fold model (loader : list (list (image * Z))) (c t : nat) :
  fold_left (fun ct batch =>
               (fst ct + count_correct forward argmax model batch,
                snd ct + List.length batch)%nat) loader (c, t)
  = ((c + count_correct forward argmax model (List.concat loader))%nat,
     (t + List.length (List.concat loader))%nat).
Proof.
  revert c t; induction loader as [| batch loader IH]; intros c t.
  - simpl. unfold count_correct. simpl. f_equal; lia.
  - cbn [fold_left List.concat fst snd]. rewrite IH.
    unfold count_correct. rewrite filter_app, !length_app. f_equal; lia.
Qed.

Lemma evaluate_model_spec model (ds : dataset image) (w : world image weights rng) :
  evaluate_model forward argmax model (DataLoader ds Config.batch_size) w
  = match ds with
    | [] => Raised ZeroDivisionError w
    | _ => Done (print (TestAccuracy (count_correct forward argmax model ds)
                                     (List.length ds)) w)
    end.
Proof.
  unfold evaluate_model. rewrite evaluate_fold, DataLoader_concat.
  destruct ds as [| x ds]; reflexivity.
Qed.

(** ** [extract_probabilities] *)

Lemma stacked_outputs_spec model (train test : dataset image) :
  stacked_outputs forward softmax sums_to_one model
    (DataLoader train Config.batch_size) (DataLoader test Config.batch_size)
  = if forallb (row_ok_ model) train
    then match train with
         | [] => Raise (ValueError "need at least one array to concatenate")
         | _ =>
             if forallb (row_ok_ model) test
             then match test with
                  | [] => Raise (ValueError "need at least one array to concatenate")
                  | _ => Ok (map (prob_of_ model) train ++ map (prob_of_ model) test,
                             map snd train ++ map snd test,
                             repeat 1 (List.length train) ++ repeat 0 (List.length test))
                  end
             else Raise assertion
         end
    else Raise assertion.
Proof.
  unfold stacked_outputs. rewrite !get_outputs_spec.
  destruct (forallb (row_ok_ model) train); [| reflexivity].
  destruct train as [| x train]; [reflexivity |]. cbn [bind].
  destruct (forallb (row_ok_ model) test); [| reflexivity].
  destruct test as [| y test]; reflexivity.
Qed.

Lemma extract_probabilities_ok sc shadow_id model (train test : dataset image)
    (w : world image weights rng) :
  model_files w (Config.model_path sc shadow_id) = Some model ->
  train <> [] -> test <> [] ->
  forallb (row_ok_ model) (train ++ test) = true ->
  extract_probabilities forward softmax argmax sums_to_one sc shadow_id
    (DataLoader train Config.batch_size) (DataLoader test Config.batch_size) w
  = Done (extracted forward softmax argmax sc shadow_id model train test w).
Proof.
  intros Hmodel Htrain Htest Hok.
  rewrite forallb_app, andb_true_iff in Hok. destruct Hok as [Hok1 Hok2].
  unfold extract_probabilities. rewrite Hmodel, evaluate_model_spec.
  destruct test as [| y test]; [congruence |].
  rewrite stacked_outputs_spec, Hok1, Hok2.
  destruct train as [| x train]; [congruence |]. reflexivity.
Qed.

Lemma extract_probabilities_assert sc shadow_id model (train test : dataset image)
    (w : world image weights rng) :
  model_files w (Config.model_path sc shadow_id) = Some model ->
  train <> [] -> test <> [] ->
  forallb (row_ok_ model) (train ++ test) = false ->
  extract_probabilities forward softmax argmax sums_to_one sc shadow_id
    (DataLoader train Config.batch_size) (DataLoader test Config.batch_size) w
  = Raised assertion
      (print (TestAccuracy (count_correct forward argmax model test) (List.length test))
             (print (EvaluatingShadowModel shadow_id) w)).
Proof.
  intros Hmodel Htrain Htest Hok.
  rewrite forallb_app, andb_false_iff in Hok.
  unfold extract_probabilities. rewrite Hmodel, evaluate_model_spec.
  destruct test as [| y test]; [congruence |].
  rewrite stacked_outputs_spec.
  destruct train as [| x train]; [congruence |].
  destruct (forallb (row_ok_ model) (x :: train)); [| reflexivity].
  destruct Hok as [Hok | Hok]; [discriminate |]. rewrite Hok. reflexivity.
Qed.

Lemma find_file_savez (dir : directory) (name : string) (content : npz) :
  find_file (savez dir name content) name = Some content.
Proof.
  induction dir as [| [n c] dir IH]; simpl.
  - rewrite String.eqb_refl. reflexivity.
  - destruct (String.eqb n name) eqn:E; simpl; rewrite E; [reflexivity | exact IH].
Qed.

Local Abbreviation labelled_ := (labelled forward softmax).
Local Abbreviation extract_ := (extract_probabilities forward softmax argmax sums_to_one).
Local Abbreviation process_ := (process_shadow_model forward softmax argmax sums_to_one).
Local Abbreviation extracted_ := (extracted forward softmax argmax).

Lemma extracted_archive sc shadow_id model (train test : dataset image)
    (w : world image weights rng) :
  let s := loop (labelled_ model 1 train ++ labelled_ model 0 test) init in
  find_file (output_dir (extracted_ sc shadow_id model train test w))
            (Config.attack_data_name shadow_id)
  = Some (AttackData (filtered_probs s) (filtered_labels s) (filtered_members s))
  /\ stdout (extracted_ sc shadow_id model train test w)
     = stdout w
       ++ [EvaluatingShadowModel shadow_id;
           TestAccuracy (count_correct forward argmax model test) (List.length test)]
       ++ printed s
       ++ [FinalProbabilitiesShape (List.length (filtered_probs s));
           FinalLabelsShape (List.length (filtered_labels s));
           FinalMembersShape (List.length (filtered_members s));
           AttackDataSaved shadow_id
             (Py.join (Config.OUTPUT_DIR sc) (Config.attack_data_name shadow_id))].
Proof.
  intros s. unfold extracted. cbn [output_dir stdout print print_all write].
  unfold delete_duplicates. rewrite zip3_labelled. fold s. split.
  - apply find_file_savez.
  - rewrite <- !app_assoc. reflexivity.
Qed.

(** C7. Before the duplicate filter, the stacked arrays are the training
    partition's records followed by the test partition's, and every record of
    the training partition carries membership flag 1, every record of the
    test partition flag 0. *)
Theorem membership_flags_before_dedup :
  forall (model : weights) (train test : dataset image),
    train <> [] -> test <> [] ->
    forallb (row_ok_ model) (train ++ test) = true ->
    exists P L M,
      stacked_outputs forward softmax sums_to_one model
        (DataLoader train Config.batch_size) (DataLoader test Config.batch_size)
      = Ok (P, L, M)
      /\ M = repeat 1 (List.length train) ++ repeat 0 (List.length test)
      /\ zip3 P L M
         = map (fun s => (prob_of_ model s, snd s, 1)) train
           ++ map (fun s => (prob_of_ model s, snd s, 0)) test.
Proof.
  intros model train test Htrain Htest Hok.
  rewrite forallb_app, andb_true_iff in Hok. destruct Hok as [Hok1 Hok2].
  exists (map (prob_of_ model) train ++ map (prob_of_ model) test),
         (map snd train ++ map snd test),
         (repeat 1 (List.length train) ++ repeat 0 (List.length test)).
  rewrite stacked_outputs_spec, Hok1, Hok2.
  destruct train as [| x train]; [congruence |].
  destruct test as [| y test]; [congruence |].
  split; [reflexivity |]. split; [reflexivity |]. apply zip3_labelled.
Qed.

(** C10. A successful extraction saves three arrays of one length; their
    rows are the stacked train-then-test rows with some left out, in the same
    order; the row at a position is retained exactly when no earlier row has
    an equal vector; and a vector produced by both partitions is retained
    once, with membership flag 1. *)
Theorem dedup_keeps_first_in_train_then_test_order :
  forall (sc : script) (shadow_id : Z) (model : weights)
         (train test : dataset image) (w : world image weights rng),
    model_files w (Config.model_path sc shadow_id) = Some model ->
    train <> [] -> test <> [] ->
    forallb (row_ok_ model) (train ++ test) = true ->
    let rows := labelled_ model 1 train ++ labelled_ model 0 test in
    exists w' fp fl fm,
      extract_ sc shadow_id (DataLoader train Config.batch_size)
               (DataLoader test Config.batch_size) w = Done w'
      /\ find_file (output_dir w') (Config.attack_data_name shadow_id)
         = Some (AttackData fp fl fm)
      /\ List.length fp = List.length fl
      /\ List.length fl = List.length fm
      /\ subseq (zip3 fp fl fm) rows
      /\ (forall l1 r l2, rows = l1 ++ r :: l2 ->
            filtered (loop (l1 ++ [r]) init)
            = filtered (loop l1 init)
              ++ (if existsb (fun q => tuple_eq (fst (fst q)) (fst (fst r))) l1
                  then [] else [r]))
      /\ zip3 fp fl fm = filtered (loop rows init)
      /\ (forall a b, In a train -> In b test ->
            tuple_eq (prob_of_ model a) (prob_of_ model b) = true ->
            occurrences (prob_of_ model b) (zip3 fp fl fm) = 1%nat
            /\ forall q, In q (zip3 fp fl fm) ->
                         tuple_eq (fst (fst q)) (prob_of_ model b) = true ->
                         snd q = 1).
Proof.
  intros sc shadow_id model train test w Hmodel Htrain Htest Hok rows.
  set (s := loop rows init).
  exists (extracted_ sc shadow_id model train test w),
         (filtered_probs s), (filtered_labels s), (filtered_members s).
  split; [apply extract_probabilities_ok; assumption |].
  split; [apply extracted_archive |].
  destruct (filtered_lengths rows) as [Hl1 Hl2]. fold s in Hl1, Hl2.
  split; [exact Hl1 |]. split; [exact Hl2 |].
  change (zip3 (filtered_probs s) (filtered_labels s) (filtered_members s))
    with (filtered s).
  split; [unfold s; rewrite filtered_loop; apply kept_subseq |].
  split; [intros l1 r l2 _; apply appended_iff_unseen |].
  split; [reflexivity |].
  intros a b Ha Hb Eab.
  destruct (first_match (fun q : row => tuple_eq (fst (fst q)) (prob_of_ model b))
                        (labelled_ model 1 train)) as (l1 & r & l2 & Hsplit & Hr & Hl1').
  { exists (prob_of_ model a, snd a, 1). split; [| exact Eab].
    unfold labelled. apply (in_map (fun s => (prob_of_ model s, snd s, 1))). exact Ha. }
  assert (Hflag : snd r = 1).
  { assert (Hin : In r (labelled_ model 1 train))
      by (rewrite Hsplit; apply in_or_app; right; now left).
    unfold labelled in Hin. apply in_map_iff in Hin.
    destruct Hin as (x & <- & _). reflexivity. }
  assert (Hfirst : forall q, In q l1 -> tuple_eq (fst (fst q)) (fst (fst r)) = false).
  { intros q Hq. rewrite tuple_eq_sym, (tuple_eq_congr _ _ (fst (fst q)) Hr).
    rewrite tuple_eq_sym. exact (Hl1' q Hq). }
  destruct (retained_of_first l1 (l2 ++ labelled_ model 0 test) r (prob_of_ model b)
              Hfirst Hr) as (_ & Hocc & Huniq).
  assert (Hrows : l1 ++ r :: l2 ++ labelled_ model 0 test = rows).
  { unfold rows. rewrite Hsplit, <- app_assoc. reflexivity. }
  rewrite Hrows in Hocc, Huniq. fold s in Hocc, Huniq.
  split; [exact Hocc |].
  intros q Hq Eq. rewrite (Huniq q Hq Eq). exact Hflag.
Qed.

(** ** The driver loop *)

Lemma for_each_app (l1 l2 : list Z)
    (body : Z -> world image weights rng -> outcome image weights rng)
    (w : world image weights rng) :
  for_each (l1 ++ l2) body w
  = match for_each l1 body w with
    | Done w' => for_each l2 body w'
    | Raised e w' => Raised e w'
    end.
Proof.
  revert w; induction l1 as [| i l1 IH]; intros w; [reflexivity |].
  cbn [app for_each]. destruct (body i w); [apply IH | reflexivity].
Qed.

Lemma map_seq_from {A : Type} (f : nat -> A) (a n : nat) :
  map f (seq a n) = map (fun j => f (a + j)%nat) (seq 0 n).
Proof.
  revert a f; induction n as [| n IH]; intros a f; [reflexivity |].
  cbn [seq map]. rewrite Nat.add_0_r. f_equal.
  rewrite (IH (S a)), (IH 1%nat). apply map_ext. intros j. f_equal. lia.
Qed.

Lemma range_split (lo mid hi : Z) :
  lo <= mid < hi ->
  Py.range lo hi = Py.range lo mid ++ mid :: Py.range (mid + 1) hi.
Proof.
  intros H. unfold Py.range.
  replace (Z.to_nat (hi - lo))
    with (Z.to_nat (mid - lo) + S (Z.to_nat (hi - (mid + 1))))%nat by lia.
  rewrite seq_app, map_app. f_equal.
  cbn [seq map Nat.add]. f_equal; [lia |].
  rewrite map_seq_from. apply map_ext. intros k. lia.
Qed.

Lemma process_data_missing sc shadow_id (w : world image weights rng) :
  data_files w (Config.train_data_path shadow_id) = None
  \/ data_files w (Config.test_data_path shadow_id) = None ->
  process_ sc shadow_id w = Done (print_all [DataNotFound shadow_id] w).
Proof.
  intros H. unfold process_shadow_model.
  destruct (data_files w (Config.train_data_path shadow_id)) as [tr |];
    destruct (data_files w (Config.test_data_path shadow_id)) as [te |];
    try reflexivity.
  destruct H; discriminate.
Qed.

Lemma process_model_missing sc shadow_id train test (w : world image weights rng) :
  data_files w (Config.train_data_path shadow_id) = Some train ->
  data_files w (Config.test_data_path shadow_id) = Some test ->
  model_files w (Config.model_path sc shadow_id) = None ->
  process_ sc shadow_id w
  = Done (print_all [ExtractingAttackData shadow_id; ModelNotFound shadow_id] w).
Proof.
  intros Htr Hte Hm. unfold process_shadow_model, extract_probabilities.
  rewrite Htr, Hte. cbn [model_files print]. rewrite Hm.
  unfold print, print_all. cbn. rewrite <- app_assoc. reflexivity.
Qed.

(** C2. The row-sum test covers every batch: a batch containing a row that
    fails it makes [get_outputs]'s loop body raise.  When a sample of either
    partition of a shadow model fails the test, processing that model ends
    with the assertion error, nothing is written to the output directory,
    and nothing catches the error: the driver loop ends with it too. *)
Theorem sum_check_violation_is_fatal :
  forall (sc : script) (shadow_id : Z) (model : weights)
         (train test : dataset image) (bad : image * Z)
         (w : world image weights rng),
    data_files w (Config.train_data_path shadow_id) = Some train ->
    data_files w (Config.test_data_path shadow_id) = Some test ->
    model_files w (Config.model_path sc shadow_id) = Some model ->
    train <> [] -> test <> [] ->
    In bad (train ++ test) ->
    sums_to_one (softmax (forward model (fst bad))) = false ->
    (forall member acc batch,
        In bad batch ->
        get_outputs_batch forward softmax sums_to_one model member acc batch
        = Raise assertion)
    /\ exists w',
        process_ sc shadow_id w = Raised assertion w'
        /\ output_dir w' = output_dir w
        /\ forall rest,
            for_each (shadow_id :: rest) (process_ sc) w = Raised assertion w'.
Proof.
  intros sc shadow_id model train test bad w Htr Hte Hmodel Htrain Htest Hbad Hfail.
  assert (Hforall : forall l, In bad l -> forallb (row_ok_ model) l = false).
  { intros l Hin. destruct (forallb (row_ok_ model) l) eqn:E; [| reflexivity].
    rewrite forallb_forall in E. specialize (E bad Hin).
    unfold row_ok, prob_of in E. congruence. }
  split.
  - intros member acc batch Hin.
    rewrite get_outputs_batch_spec, (Hforall batch Hin). reflexivity.
  - assert (Hproc : process_ sc shadow_id w
                    = Raised assertion
                        (print (TestAccuracy (count_correct forward argmax model test)
                                             (List.length test))
                           (print (EvaluatingShadowModel shadow_id)
                              (print (ExtractingAttackData shadow_id) w)))).
    { unfold process_shadow_model. rewrite Htr, Hte.
      apply extract_probabilities_assert; try assumption.
      exact (Hforall _ Hbad). }
    eexists. split; [exact Hproc |]. split; [reflexivity |].
    intros rest. cbn [for_each]. rewrite Hproc. reflexivity.
Qed.

(** C5. For a shadow-model id in 1..30 that the driver loop reaches, a
    missing train or test archive, or a missing checkpoint, ends that id's
    iteration normally: only console messages are added (one skip message,
    preceded by the extraction banner when the data were there), no file and
    no other part of the world changes, and the loop goes on with the ids
    after it. *)
Theorem missing_artifact_is_skipped :
  forall (sc : script) (shadow_id : Z) (w0 w : world image weights rng),
    1 <= shadow_id <= 30 ->
    for_each (Py.range 1 shadow_id) (process_ sc) w0 = Done w ->
    data_files w (Config.train_data_path shadow_id) = None
    \/ data_files w (Config.test_data_path shadow_id) = None
    \/ model_files w (Config.model_path sc shadow_id) = None ->
    exists msgs,
      (msgs = [DataNotFound shadow_id]
       \/ msgs = [ExtractingAttackData shadow_id; ModelNotFound shadow_id])
      /\ process_ sc shadow_id w = Done (print_all msgs w)
      /\ for_each shadow_ids (process_ sc) w0
         = for_each (Py.range (shadow_id + 1) 31) (process_ sc) (print_all msgs w).
Proof.
  intros sc shadow_id w0 w Hid Hbefore Hmissing.
  assert (Hstep : exists msgs,
             (msgs = [DataNotFound shadow_id]
              \/ msgs = [ExtractingAttackData shadow_id; ModelNotFound shadow_id])
             /\ process_ sc shadow_id w = Done (print_all msgs w)).
  { destruct (data_files w (Config.train_data_path shadow_id)) as [tr |] eqn:Etr;
      [| exists [DataNotFound shadow_id]; split;
         [now left | apply process_data_missing; now left]].
    destruct (data_files w (Config.test_data_path shadow_id)) as [te |] eqn:Ete;
      [| exists [DataNotFound shadow_id]; split;
         [now left | apply process_data_missing; now right]].
    destruct Hmissing as [H | [H | H]]; try discriminate.
    exists [ExtractingAttackData shadow_id; ModelNotFound shadow_id].
    split; [now right |]. apply (process_model_missing sc shadow_id tr te); assumption. }
  destruct Hstep as (msgs & Hmsgs & Hproc).
  exists msgs. split; [exact Hmsgs |]. split; [exact Hproc |].
  unfold shadow_ids. rewrite (range_split 1 shadow_id 31) by lia.
  rewrite for_each_app, Hbefore. cbn [for_each]. rewrite Hproc. reflexivity.
Qed.

(** ** A successful iteration *)

Lemma process_ok sc shadow_id model (train test : dataset image)
    (w : world image weights rng) :
  data_files w (Config.train_data_path shadow_id) = Some train ->
  data_files w (Config.test_data_path shadow_id) = Some test ->
  model_files w (Config.model_path sc shadow_id) = Some model ->
  train <> [] -> test <> [] ->
  forallb (row_ok_ model) (train ++ test) = true ->
  process_ sc shadow_id w
  = Done (extracted_ sc shadow_id model train test
            (print (ExtractingAttackData shadow_id) w)).
Proof.
  intros Htr Hte Hmodel Htrain Htest Hok.
  unfold process_shadow_model. rewrite Htr, Hte.
  apply extract_probabilities_ok; assumption.
Qed.

(** ** [combine_attack_data] *)

Lemma zip3_app (P1 P2 : list tuple) (L1 L2 M1 M2 : list Z) :
  List.length P1 = List.length L1 -> List.length L1 = List.length M1 ->
  zip3 (P1 ++ P2) (L1 ++ L2) (M1 ++ M2) = zip3 P1 L1 M1 ++ zip3 P2 L2 M2.
Proof.
  revert L1 M1; induction P1 as [| p P1 IH]; intros [| l L1] [| m M1] H1 H2;
    try discriminate; [reflexivity |].
  cbn [app]. rewrite !zip3_cons, IH by (simpl in *; lia). reflexivity.
Qed.

Lemma zip3_length (P : list tuple) (L M : list Z) :
  List.length P = List.length L -> List.length L = List.length M ->
  List.length (zip3 P L M) = List.length M
  /\ map (fun q : row => (fst (fst q), snd (fst q))) (zip3 P L M) = combine P L
  /\ map snd (zip3 P L M) = M.
Proof.
  revert L M; induction P as [| p P IH]; intros [| l L] [| m M] H1 H2;
    try discriminate; [repeat split |].
  rewrite zip3_cons. cbn [List.length map combine fst snd].
  destruct (IH L M) as (E1 & E2 & E3); [simpl in *; lia | simpl in *; lia |].
  rewrite E1, E2, E3. repeat split.
Qed.

(** The loading loop on well-formed archives. *)
Lemma load_all_spec (files : directory) (ps : list (list tuple)) (ls ms : list (list Z))
    (w : world image weights rng) :
  archives_aligned files ->
  exists Ps Ls Ms w',
    load_all files (ps, ls, ms) w = (Ok (ps ++ Ps, ls ++ Ls, ms ++ Ms), w')
    /\ output_dir w' = output_dir w
    /\ (files <> [] -> Ps <> [] /\ Ls <> [] /\ Ms <> [])
    /\ List.length (List.concat Ps) = List.length (List.concat Ls)
    /\ List.length (List.concat Ls) = List.length (List.concat Ms)
    /\ zip3 (List.concat Ps) (List.concat Ls) (List.concat Ms) = all_rows files.
Proof.
  revert ps ls ms w; induction files as [| [f data] files IH]; intros ps ls ms w Hal.
  - exists [], [], [], w. rewrite !app_nil_r. repeat split; try reflexivity; congruence.
  - destruct data as [P L M | ]; [| destruct Hal].
    destruct Hal as (H1 & H2 & Hal).
    destruct (IH (ps ++ [P]) (ls ++ [L]) (ms ++ [M])
                 (print (LoadDataFrom (Py.join (Config.OUTPUT_DIR Cifar) f)) w) Hal)
      as (Ps & Ls & Ms & w' & Hload & Hdir & _ & Hl1 & Hl2 & Hrows).
    exists (P :: Ps), (L :: Ls), (M :: Ms), w'.
    cbn [load_all]. rewrite Hload, <- !app_assoc. cbn [app List.concat all_rows].
    split; [reflexivity |]. split; [exact Hdir |].
    split; [intros _; repeat split; discriminate |].
    rewrite !length_app. split; [lia |]. split; [lia |].
    rewrite zip3_app, Hrows by assumption. reflexivity.
Qed.

Lemma combined_dataset_spec (w : world image weights rng) :
  shadow_files w <> [] ->
  archives_aligned (shadow_files w) ->
  let rows := all_rows (shadow_files w) in
  exists w',
    combined_dataset w
    = (Ok (map (fun q : row => feature_row (fst (fst q)) (snd (fst q))) rows,
           map snd rows), w')
    /\ output_dir w' = output_dir w.
Proof.
  intros Hne Hal rows.
  destruct (load_all_spec (shadow_files w) [] [] [] w Hal)
    as (Ps & Ls & Ms & w' & Hload & Hdir & Hnon & Hl1 & Hl2 & Hrows).
  destruct (Hnon Hne) as (HP & HL & HM).
  exists (print (CollectedDataPoints (List.length (List.concat Ms))) w').
  unfold combined_dataset. rewrite Hload. cbn [app].
  rewrite !stack_nonempty by assumption.
  unfold features. rewrite Hl1, Nat.eqb_refl.
  destruct (zip3_length _ _ _ Hl1 Hl2) as (_ & E2 & E3).
  unfold rows. rewrite <- Hrows, E3, <- E2, map_map.
  split; [reflexivity | exact Hdir].
Qed.

(** C6. The split does not depend on anything but the combined dataset: two
    runs of [combine_attack_data] in worlds that yield the same combined
    dataset (whatever their global random generator, console or other
    files) leave the same combined archive, or end with the same exception.
    The generator is made anew from the seed 42 at each call. *)
Theorem split_is_reproducible :
  forall (w1 w2 : world image weights rng),
    fst (combined_dataset w1) = fst (combined_dataset w2) ->
    combined_archive (combine_attack_data RandomState split_with w1)
    = combined_archive (combine_attack_data RandomState split_with w2)
    /\ forall w', combine_attack_data RandomState split_with w1 = Done w' ->
                  exists Xtr ytr Xte yte,
                    find_file (output_dir w') Config.combined_name
                    = Some (CombinedData Xtr ytr Xte yte).
Proof.
  intros w1 w2 Hsame. unfold combine_attack_data, train_test_split.
  destruct (combined_dataset w1) as [[[X1 y1] | e1] u1];
    destruct (combined_dataset w2) as [[[X2 y2] | e2] u2];
    cbn [fst] in Hsame; try discriminate Hsame.
  - injection Hsame as <- <-.
    destruct (split_with (RandomState Config.random_state) X1 y1 Config.test_size y1)
      as [r | e].
    + cbn [combined_archive output_dir print write]. rewrite !find_file_savez.
      split; [reflexivity |].
      intros w' Hw'. injection Hw' as <-. cbn [output_dir print write].
      rewrite find_file_savez. eauto.
    + split; [reflexivity | discriminate].
  - injection Hsame as <-. split; [reflexivity | discriminate].
Qed.

End PipelineProofs.

(** * Further properties of the duplicate filter *)

Lemma kept_conflicts_length (d : dict) (rows : list row) :
  (List.length (kept d rows) + List.length (conflicts d rows) <= List.length rows)%nat.
Proof.
  revert d; induction rows as [| r rows IH]; intros d; cbn [kept conflicts List.length];
    [lia |].
  destruct (lookup d (fst (fst r))) as [stored |].
  - destruct (negb (stored =? snd r)); cbn [List.length]; specialize (IH d); lia.
  - cbn [List.length]. specialize (IH (d ++ [entry r])). lia.
Qed.

(** X1.  The filter only ever drops rows: the saved rows and the conflict
    messages together are no more than the input rows, the three filtered
    arrays have the number of saved rows, and the first input row is always
    the first saved row. *)
Theorem filter_only_drops :
  forall (P : list tuple) (L M : list Z),
    let rows := zip3 P L M in
    let s := delete_duplicates P L M in
    (List.length (filtered s) + List.length (printed s) <= List.length rows)%nat
    /\ List.length (filtered_probs s) = List.length (filtered s)
    /\ List.length (filtered_labels s) = List.length (filtered s)
    /\ List.length (filtered_members s) = List.length (filtered s)
    /\ hd_error (filtered s) = hd_error rows.
Proof.
  intros P L M rows s. unfold s.
  rewrite (delete_duplicates_spec P L M). fold rows. unfold filtered.
  cbn [filtered_probs filtered_labels filtered_members printed].
  rewrite zip3_unzip, !length_map.
  split; [apply kept_conflicts_length |].
  repeat (split; [reflexivity |]).
  destruct rows as [| r rows']; reflexivity.
Qed.

(** X2.  On arrays of one length whose vectors are pairwise different the filter
    is the identity: the three arrays come back unchanged, the dictionary
    maps every vector to its flag, and nothing is printed. *)
Theorem distinct_rows_pass_unchanged :
  forall (P : list tuple) (L M : list Z),
    List.length P = List.length L ->
    List.length L = List.length M ->
    distinct (zip3 P L M) ->
    delete_duplicates P L M = mkState (combine P M) P L M [].
Proof.
  intros P L M H1 H2 Hd.
  rewrite delete_duplicates_spec.
  destruct (kept_fixed [] (zip3 P L M) Hd) as [Hk Hc]; [reflexivity |].
  cbn zeta. rewrite Hk, Hc.
  clear Hd Hk Hc. revert L M H1 H2.
  induction P as [| p P IH]; intros [| l L] [| m M] H1 H2; try discriminate;
    [reflexivity |].
  rewrite zip3_cons. cbn [map combine entry fst snd].
  specialize (IH L M ltac:(simpl in *; lia) ltac:(simpl in *; lia)).
  injection IH as E1 E2 E3 E4. rewrite E1, E2, E3, E4. reflexivity.
Qed.

Lemma lookup_Some (d : dict) (p : tuple) (v : Z) :
  lookup d p = Some v -> exists k, In (k, v) d /\ tuple_eq k p = true.
Proof.
  induction d as [| [k v'] d IH]; cbn [lookup]; [discriminate |].
  destruct (tuple_eq k p) eqn:E.
  - intros [= <-]. exists k. split; [now left | exact E].
  - intros H. destruct (IH H) as (k' & Hin & Ek). exists k'. split; [now right | exact Ek].
Qed.

Lemma conflicts_sound (d : dict) (rows : list row) (p : tuple) (a b : Z) :
  In (ConflictFound p a b) (conflicts d rows) ->
  a <> b
  /\ exists l1 lab l2,
       rows = l1 ++ (p, lab, b) :: l2
       /\ lookup (d ++ map entry (kept d l1)) p = Some a.
Proof.
  revert d; induction rows as [| [[p' lab'] m'] rows IH]; intros d; cbn [conflicts fst snd];
    [intros [] |].
  destruct (lookup d p') as [stored |] eqn:E.
  - destruct (Z.eqb_spec stored m') as [Heq | Hne]; cbn [negb].
    + intros H. destruct (IH d H) as (Hab & l1 & lab & l2 & -> & Hl).
      split; [exact Hab |].
      exists ((p', lab', m') :: l1), lab, l2. split; [reflexivity |].
      cbn [kept fst]. rewrite E. exact Hl.
    + intros [H | H].
      * injection H as -> -> ->. split; [exact Hne |].
        exists [], lab', rows. split; [reflexivity |].
        cbn [kept map]. rewrite app_nil_r. exact E.
      * destruct (IH d H) as (Hab & l1 & lab & l2 & -> & Hl).
        split; [exact Hab |].
        exists ((p', lab', m') :: l1), lab, l2. split; [reflexivity |].
        cbn [kept fst]. rewrite E. exact Hl.
  - intros H. destruct (IH _ H) as (Hab & l1 & lab & l2 & -> & Hl).
    split; [exact Hab |].
    exists ((p', lab', m') :: l1), lab, l2. split; [reflexivity |].
    cbn [kept fst]. rewrite E. cbn [map]. rewrite <- app_assoc in Hl. exact Hl.
Qed.

Lemma conflict_inv (rows : list row) (p : tuple) (a b : Z) :
  In (ConflictFound p a b) (printed (loop rows init)) ->
  a <> b
  /\ exists l1 lab l2 q,
       rows = l1 ++ (p, lab, b) :: l2
       /\ In q l1
       /\ In q (filtered (loop rows init))
       /\ tuple_eq (fst (fst q)) p = true
       /\ snd q = a.
Proof.
  intros Hin. rewrite loop_spec in Hin. cbn [printed init app] in Hin.
  destruct (conflicts_sound _ _ _ _ _ Hin) as (Hab & l1 & lab & l2 & Hrows & Hl).
  split; [exact Hab |].
  cbn [app] in Hl. apply lookup_Some in Hl. destruct Hl as (k & Hk & Ek).
  apply in_map_iff in Hk. destruct Hk as (q & Hq & Hkept).
  injection Hq as <- <-.
  exists l1, lab, l2, q.
  split; [exact Hrows |]. split; [exact (kept_In _ _ _ Hkept) |].
  split; [| split; [exact Ek | reflexivity]].
  rewrite filtered_loop, Hrows, kept_app.
  apply in_or_app. left. exact Hkept.
Qed.

(** X3.  Every conflict message is genuine: it names the vector and flag of an
    input row, and an earlier input row with an equal vector and the other
    flag that is among the saved rows. *)
Theorem reported_conflicts_are_genuine :
  forall (P : list tuple) (L M : list Z) (p : tuple) (a b : Z),
    In (ConflictFound p a b) (printed (delete_duplicates P L M)) ->
    a <> b
    /\ exists l1 lab l2 q,
         zip3 P L M = l1 ++ (p, lab, b) :: l2
         /\ In q l1
         /\ In q (filtered (delete_duplicates P L M))
         /\ tuple_eq (fst (fst q)) p = true
         /\ snd q = a.
Proof. intros P L M p a b. apply conflict_inv. Qed.

Lemma tuple_eq_nan (a b : tuple) : In S754_nan b -> tuple_eq a b = false.
Proof.
  intros H. destruct (tuple_eq a b) eqn:E; [| reflexivity].
  rewrite tuple_eq_sym in E. apply tuple_eq_key in E. destruct E as [_ E].
  exfalso. apply E. clear E a.
  induction b as [| x b IH]; [destruct H |].
  cbn [tuple_key]. destruct H as [-> | H]; [reflexivity |].
  rewrite (IH H). destruct (float_key x); reflexivity.
Qed.

(** X4.  A vector with a NaN entry equals no vector, itself included: a row that
    carries one is always appended to the output, whatever came before, and
    nothing is printed for it. *)
Theorem nan_rows_are_never_merged :
  forall (l1 : list row) (r : row),
    In S754_nan (fst (fst r)) ->
    filtered (loop (l1 ++ [r]) init) = filtered (loop l1 init) ++ [r]
    /\ printed (loop (l1 ++ [r]) init) = printed (loop l1 init).
Proof.
  intros l1 r Hnan.
  assert (Hl : lookup (unique_data (loop l1 init)) (fst (fst r)) = None).
  { apply lookup_None. intros k v _. apply tuple_eq_nan. exact Hnan. }
  rewrite loop_mid. cbn [loop fold_left].
  destruct r as [[p lab] m]. cbn [fst] in Hl. unfold step. rewrite Hl.
  unfold filtered. cbn [filtered_probs filtered_labels filtered_members printed].
  split; [| reflexivity].
  destruct (filtered_lengths l1) as [E1 E2].
  rewrite zip3_app by assumption. reflexivity.
Qed.

(** * Further properties of the pipeline *)

(** ** Names and paths *)

Lemma string_app_assoc (a b c : string) :
  ((a ++ b) ++ c)%string = (a ++ (b ++ c))%string.
Proof. induction a as [| x a IH]; cbn; [reflexivity | rewrite IH; reflexivity]. Qed.

Lemma string_length_app (a b : string) :
  String.length (a ++ b) = (String.length a + String.length b)%nat.
Proof. induction a as [| x a IH]; cbn; [reflexivity | rewrite IH; reflexivity]. Qed.

Lemma substring_all (b : string) : String.substring 0 (String.length b) b = b.
Proof. induction b as [| x b IH]; cbn; [reflexivity | rewrite IH; reflexivity]. Qed.

Lemma substring_suffix (a b : string) :
  String.substring (String.length a) (String.length b) (a ++ b) = b.
Proof. induction a as [| x a IH]; cbn; [apply substring_all | exact IH]. Qed.

Lemma endswith_app (a b : string) : Py.endswith (a ++ b) b = true.
Proof.
  unfold Py.endswith. rewrite string_length_app.
  replace (String.length a + String.length b - String.length b)%nat
    with (String.length a) by lia.
  rewrite substring_suffix, String.eqb_refl, andb_true_r.
  apply Nat.leb_le. lia.
Qed.

Lemma startswith_app (a b : string) : Py.startswith (a ++ b) a = true.
Proof.
  unfold Py.startswith. induction a as [| x a IH]; cbn.
  - destruct b; reflexivity.
  - destruct (Ascii.ascii_dec x x); [exact IH | contradiction].
Qed.

Lemma string_app_inv_head (a b c : string) : (a ++ b)%string = (a ++ c)%string -> b = c.
Proof. induction a as [| x a IH]; cbn; [tauto | intros [= H]; exact (IH H)]. Qed.

Lemma list_ascii_app (a b : string) :
  list_ascii_of_string (a ++ b) = list_ascii_of_string a ++ list_ascii_of_string b.
Proof. induction a as [| x a IH]; cbn; [reflexivity | rewrite IH; reflexivity]. Qed.

Lemma string_app_inv_tail (a b c : string) : (a ++ c)%string = (b ++ c)%string -> a = b.
Proof.
  intros H. apply (f_equal list_ascii_of_string) in H.
  rewrite !list_ascii_app in H. apply app_inv_tail in H.
  rewrite <- (string_of_list_ascii_of_string a), <- (string_of_list_ascii_of_string b), H.
  reflexivity.
Qed.

(** [str] of an integer determines the integer. *)
Lemma str_inj (n m : Z) : Py.str n = Py.str m -> n = m.
Proof.
  unfold Py.str. intros H.
  apply DecimalZ.to_int_inj.
  assert (Hs : forall z, NilZero.int_of_string (NilZero.string_of_int (Z.to_int z))
                         = Some (Z.to_int z)).
  { intros z. apply NilZero.isi; destruct z; cbn; try discriminate;
      intros [= E]; exact (DecimalPos.Unsigned.to_uint_nonnil _ E). }
  pose proof (Hs n) as Hn. rewrite H, Hs in Hn. congruence.
Qed.

Lemma attack_data_name_inj (i j : Z) :
  Config.attack_data_name i = Config.attack_data_name j -> i = j.
Proof.
  unfold Config.attack_data_name. intros H.
  apply string_app_inv_head, string_app_inv_tail in H. exact (str_inj _ _ H).
Qed.

Lemma attack_data_name_matches (i : Z) :
  is_attack_data_name (Config.attack_data_name i) = true.
Proof.
  unfold is_attack_data_name, Config.attack_data_name. apply andb_true_iff. split.
  - apply startswith_app.
  - rewrite <- string_app_assoc. apply endswith_app.
Qed.

Lemma attack_data_name_not_combined (i : Z) :
  Config.attack_data_name i <> Config.combined_name.
Proof. unfold Config.attack_data_name, Config.combined_name. cbn. discriminate. Qed.

(** ** The output directory *)

Lemma find_file_savez_other (dir : directory) (name n : string) (content : npz) :
  n <> name -> find_file (savez dir name content) n = find_file dir n.
Proof.
  intros Hn. induction dir as [| [n0 c0] dir IH]; cbn [savez find_file].
  - destruct (String.eqb_spec name n); [congruence | reflexivity].
  - destruct (String.eqb_spec n0 name) as [-> | Hne]; cbn [find_file].
    + destruct (String.eqb_spec name n); [congruence | reflexivity].
    + rewrite IH. reflexivity.
Qed.

Lemma filter_savez_match (p : string -> bool) (dir : directory) (name : string)
    (content : npz) :
  p name = true ->
  filter (fun e => p (fst e)) (savez dir name content)
  = savez (filter (fun e => p (fst e)) dir) name content.
Proof.
  intros Hp. induction dir as [| [n0 c0] dir IH]; cbn [savez filter fst].
  - rewrite Hp. reflexivity.
  - destruct (String.eqb_spec n0 name) as [-> | Hne]; cbn [filter fst].
    + rewrite Hp. cbn [savez]. rewrite String.eqb_refl. reflexivity.
    + destruct (p n0); [| exact IH].
      cbn [savez]. destruct (String.eqb_spec n0 name); [contradiction |].
      rewrite IH. reflexivity.
Qed.

Lemma filter_savez_other (p : string -> bool) (dir : directory) (name : string)
    (content : npz) :
  p name = false ->
  filter (fun e => p (fst e)) (savez dir name content)
  = filter (fun e => p (fst e)) dir.
Proof.
  intros Hp. induction dir as [| [n0 c0] dir IH]; cbn [savez filter fst].
  - rewrite Hp. reflexivity.
  - destruct (String.eqb_spec n0 name) as [-> | Hne]; cbn [filter fst].
    + rewrite Hp. reflexivity.
    + rewrite IH. reflexivity.
Qed.

Lemma archives_aligned_savez (dir : directory) (name : string) (P : list tuple)
    (L M : list Z) :
  archives_aligned dir ->
  List.length P = List.length L -> List.length L = List.length M ->
  archives_aligned (savez dir name (AttackData P L M)).
Proof.
  intros Hd H1 H2. induction dir as [| [n0 c0] dir IH]; cbn [savez].
  - cbn. repeat split; assumption.
  - destruct c0 as [P0 L0 M0 |]; [| destruct Hd].
    destruct Hd as (E1 & E2 & Hd).
    destruct (String.eqb n0 name); cbn [archives_aligned].
    + repeat split; assumption.
    + repeat split; try assumption. exact (IH Hd).
Qed.

(** ** The aggregation's file pattern, and picking rows by position *)

Lemma startswith_iff (s pre : string) :
  Py.startswith s pre = true <-> exists a, s = (pre ++ a)%string.
Proof.
  unfold Py.startswith. revert s; induction pre as [| c pre IH]; intros s.
  - split; [intros _; exists s; reflexivity | intros _; destruct s; reflexivity].
  - destruct s as [| c' s]; cbn.
    + split; [discriminate | intros (a & E); discriminate E].
    + destruct (Ascii.ascii_dec c c') as [<- | Hne].
      * rewrite IH. split; intros (a & E); exists a; congruence.
      * split; [discriminate | intros (a & E); congruence].
Qed.

Lemma substring_split (k : nat) :
  forall s : string,
    (k <= String.length s)%nat ->
    s = (String.substring 0 k s ++ String.substring k (String.length s - k) s)%string.
Proof.
  induction k as [| k IH]; intros s Hk.
  - rewrite Nat.sub_0_r, substring_all. destruct s; reflexivity.
  - destruct s as [| c s]; [cbn in Hk; lia |].
    cbn [String.substring String.length Nat.sub String.append]. f_equal.
    apply IH. cbn in Hk. lia.
Qed.

Lemma endswith_iff (s suf : string) :
  Py.endswith s suf = true <-> exists b, s = (b ++ suf)%string.
Proof.
  split.
  - unfold Py.endswith. intros H. apply andb_true_iff in H. destruct H as [H1 H2].
    apply Nat.leb_le in H1. apply String.eqb_eq in H2.
    exists (String.substring 0 (String.length s - String.length suf) s).
    rewrite <- H2 at 2.
    replace (String.length suf)
      with (String.length s - (String.length s - String.length suf))%nat at 3 by lia.
    apply substring_split. lia.
  - intros (b & ->). apply endswith_app.
Qed.

(** The files [combine_attack_data] selects are those of the output
    directory whose name starts with [shadow_model_] and ends with
    [_attack_data.npz]. *)
Lemma is_attack_data_name_iff (f : string) :
  is_attack_data_name f = true
  <-> (exists a, f = ("shadow_model_" ++ a)%string)
      /\ (exists b, f = (b ++ "_attack_data.npz")%string).
Proof.
  unfold is_attack_data_name. rewrite andb_true_iff, startswith_iff, endswith_iff.
  reflexivity.
Qed.

Lemma select_app {A : Type} (l : list A) (a b : list nat) :
  select l (a ++ b) = select l a ++ select l b.
Proof. apply flat_map_app. Qed.

Lemma select_seq_from {A : Type} (l2 : list A) :
  forall l1 : list A, select (l1 ++ l2) (seq (List.length l1) (List.length l2)) = l2.
Proof.
  induction l2 as [| x l2 IH]; intros l1; [reflexivity |].
  cbn [List.length seq select flat_map].
  rewrite nth_error_app2, Nat.sub_diag by lia. cbn [nth_error app]. f_equal.
  specialize (IH (l1 ++ [x])). rewrite <- app_assoc, length_app in IH.
  cbn [List.length app] in IH. rewrite Nat.add_1_r in IH. exact IH.
Qed.

Lemma select_all {A : Type} (l : list A) : select l (seq 0 (List.length l)) = l.
Proof. exact (select_seq_from l []). Qed.

Lemma select_permutation {A : Type} (l : list A) (idx : list nat) :
  Permutation idx (seq 0 (List.length l)) -> Permutation (select l idx) l.
Proof.
  intros H. rewrite <- (select_all l) at 2.
  unfold select. apply Permutation_flat_map. exact H.
Qed.

Lemma combine_app_same {A B : Type} (a a' : list A) (b b' : list B) :
  List.length a = List.length b ->
  combine (a ++ a') (b ++ b') = combine a b ++ combine a' b'.
Proof.
  revert b; induction a as [| x a IH]; intros [| y b] H; try discriminate; [reflexivity |].
  cbn. f_equal. apply IH. simpl in H. lia.
Qed.

Lemma select_combine {A B : Type} (X : list A) (y : list B) (idx : list nat) :
  List.length X = List.length y ->
  select (combine X y) idx = combine (select X idx) (select y idx)
  /\ List.length (select X idx) = List.length (select y idx).
Proof.
  intros Hlen. induction idx as [| i idx [IH1 IH2]]; [split; reflexivity |].
  assert (Hi : match nth_error X i, nth_error y i with
               | Some a, Some b => nth_error (combine X y) i = Some (a, b)
               | None, None => nth_error (combine X y) i = None
               | _, _ => False
               end).
  { clear - Hlen. revert y i Hlen.
    induction X as [| a X IH]; intros [| b y] i Hlen; try discriminate.
    - destruct i; exact eq_refl.
    - destruct i as [| i]; [reflexivity |]. cbn [nth_error combine].
      apply IH. simpl in Hlen. lia. }
  cbn [select flat_map]. fold (select (combine X y) idx) (select X idx) (select y idx).
  destruct (nth_error X i) as [a |], (nth_error y i) as [b |]; try contradiction;
    rewrite Hi; cbn [app combine List.length]; rewrite IH1, IH2; split; reflexivity.
Qed.

Section MoreProperties.

Variable image : Type.
Variable weights : Type.
Variable forward : weights -> image -> tuple.
Variable softmax : tuple -> tuple.
Variable argmax : tuple -> Z.
Variable sums_to_one : tuple -> bool.
Variable rng : Type.
Variable RandomState : Z -> rng.
Variable split_with : rng -> list tuple -> list Z -> float -> list Z -> result split.

Local Abbreviation prob_of_ := (prob_of forward softmax).
Local Abbreviation row_ok_ := (row_ok forward softmax sums_to_one).
Local Abbreviation labelled_ := (labelled forward softmax).
Local Abbreviation extract_ := (extract_probabilities forward softmax argmax sums_to_one).
Local Abbreviation process_ := (process_shadow_model forward softmax argmax sums_to_one).
Local Abbreviation extracted_ := (extracted forward softmax argmax).
Local Abbreviation archive_ := (attack_archive forward softmax).
Local Abbreviation combine_ := (combine_attack_data RandomState split_with).
Local Abbreviation main_ :=
  (main forward softmax argmax sums_to_one RandomState split_with).
Local Abbreviation assertion := (AssertionError "Probabilities do not sum up to 1!").
Local Abbreviation nothing_to_stack :=
  (ValueError "need at least one array to concatenate").
Local Abbreviation World := (world image weights rng).

(** ** [get_outputs] and [evaluate_model] on any loader *)

(** X5.  [get_outputs] in closed form, for any sequence of batches: it raises the
    assertion error exactly when some row of some batch fails the sum test;
    otherwise it raises [ValueError] when there is no batch at all, and else
    returns one vector, one label and one flag per sample, in loader order,
    every flag being [member_label]. *)
Theorem get_outputs_outcome :
  forall (model : weights) (loader : list (list (image * Z))) (member_label : Z),
    get_outputs forward softmax sums_to_one model loader member_label
    = if forallb (row_ok_ model) (List.concat loader)
      then match loader with
           | [] => Raise nothing_to_stack
           | _ => Ok (map (prob_of_ model) (List.concat loader),
                      map snd (List.concat loader),
                      repeat member_label (List.length (List.concat loader)))
           end
      else Raise assertion.
Proof.
  intros model loader member_label.
  unfold get_outputs.
  rewrite (get_outputs_loop_spec image weights forward softmax sums_to_one).
  destruct (forallb (row_ok_ model) (List.concat loader)); [| reflexivity].
  cbn [bind fst snd app].
  destruct loader as [| b loader]; [reflexivity |].
  rewrite !stack_nonempty by discriminate.
  cbn [bind]. rewrite <- !concat_map. reflexivity.
Qed.

Lemma evaluate_model_closed (model : weights) (test_loader : list (list (image * Z)))
    (w : World) :
  evaluate_model forward argmax model test_loader w
  = match List.concat test_loader with
    | [] => Raised ZeroDivisionError w
    | _ => Done (print (TestAccuracy
                          (count_correct forward argmax model (List.concat test_loader))
                          (List.length (List.concat test_loader))) w)
    end.
Proof.
  unfold evaluate_model.
  rewrite (evaluate_fold image weights forward argmax).
  cbn [Nat.add]. destruct (List.concat test_loader) as [| x l]; reflexivity.
Qed.

(** X6.  [evaluate_model] in closed form, for any sequence of batches: with no
    sample at all it divides by zero; otherwise it prints one accuracy line
    whose counts are the samples predicted right and all samples, and
    changes nothing else. *)
Theorem evaluate_model_outcome :
  forall (model : weights) (test_loader : list (list (image * Z))) (w : World),
    let samples := List.concat test_loader in
    let correct := count_correct forward argmax model samples in
    (correct <= List.length samples)%nat
    /\ evaluate_model forward argmax model test_loader w
       = match samples with
         | [] => Raised ZeroDivisionError w
         | _ => Done (print (TestAccuracy correct (List.length samples)) w)
         end.
Proof.
  intros model test_loader w samples correct. split.
  - unfold correct, count_correct. apply filter_length_le.
  - apply evaluate_model_closed.
Qed.

(** ** Edge cases of [extract_probabilities] *)

(** X7.  A test loader without samples: the extraction ends in the division by
    zero of [evaluate_model], before any probability is computed; only the
    evaluation banner has been printed and no file is written. *)
Theorem empty_test_set_divides_by_zero :
  forall (sc : script) (shadow_id : Z) (model : weights)
         (train_loader test_loader : list (list (image * Z))) (w : World),
    model_files w (Config.model_path sc shadow_id) = Some model ->
    List.concat test_loader = [] ->
    extract_ sc shadow_id train_loader test_loader w
    = Raised ZeroDivisionError (print (EvaluatingShadowModel shadow_id) w).
Proof.
  intros sc shadow_id model train_loader test_loader w Hmodel Hempty.
  unfold extract_probabilities. rewrite Hmodel.
  rewrite evaluate_model_closed, Hempty. reflexivity.
Qed.

(** X8.  A train loader without batches, the test loader having samples: the
    extraction ends in [np.vstack]'s [ValueError] after the accuracy line,
    whatever the test rows are, and no file is written. *)
Theorem empty_train_set_cannot_be_stacked :
  forall (sc : script) (shadow_id : Z) (model : weights)
         (test_loader : list (list (image * Z))) (w : World),
    model_files w (Config.model_path sc shadow_id) = Some model ->
    List.concat test_loader <> [] ->
    extract_ sc shadow_id [] test_loader w
    = Raised nothing_to_stack
        (print (TestAccuracy (count_correct forward argmax model (List.concat test_loader))
                             (List.length (List.concat test_loader)))
           (print (EvaluatingShadowModel shadow_id) w)).
Proof.
  intros sc shadow_id model test_loader w Hmodel Hne.
  unfold extract_probabilities. rewrite Hmodel.
  rewrite evaluate_model_closed.
  destruct (List.concat test_loader) as [| x l]; [congruence |].
  reflexivity.
Qed.

(** ** What one iteration of the driver loop can change *)

Lemma print_as_print_all (m : message) (w : World) : print m w = print_all [m] w.
Proof. reflexivity. Qed.

Lemma print_all_print_all (ms ms' : list message) (w : World) :
  print_all ms' (print_all ms w) = print_all (ms ++ ms') w.
Proof. unfold print_all. cbn. rewrite <- app_assoc. reflexivity. Qed.

Lemma extracted_shape sc shadow_id model (train test : dataset image) (w : World) :
  let w' := extracted_ sc shadow_id model train test w in
  model_files w' = model_files w
  /\ data_files w' = data_files w
  /\ np_random w' = np_random w
  /\ (exists msgs, stdout w' = stdout w ++ msgs)
  /\ output_dir w'
     = savez (output_dir w) (Config.attack_data_name shadow_id) (archive_ model train test).
Proof.
  intros w'.
  destruct (extracted_archive image weights forward softmax argmax rng
              sc shadow_id model train test w) as [_ Hout].
  repeat split; try reflexivity.
  - eexists. exact Hout.
  - unfold w', extracted, attack_archive. cbn [output_dir print print_all write].
    unfold delete_duplicates. rewrite zip3_labelled. reflexivity.
Qed.

(** The two ways an iteration can end: with console output only, or with
    the model's archive saved. *)
Lemma process_shape sc shadow_id (w : World) :
  (exists msgs, world_of (process_ sc shadow_id w) = print_all msgs w)
  \/ (exists model train test,
        data_files w (Config.train_data_path shadow_id) = Some train
        /\ data_files w (Config.test_data_path shadow_id) = Some test
        /\ model_files w (Config.model_path sc shadow_id) = Some model
        /\ process_ sc shadow_id w
           = Done (extracted_ sc shadow_id model train test
                     (print (ExtractingAttackData shadow_id) w))).
Proof.
  unfold process_shadow_model.
  destruct (data_files w (Config.train_data_path shadow_id)) as [train |] eqn:Etr;
    [| left; exists [DataNotFound shadow_id]; reflexivity].
  destruct (data_files w (Config.test_data_path shadow_id)) as [test |] eqn:Ete;
    [| left; exists [DataNotFound shadow_id]; reflexivity].
  unfold extract_probabilities. cbn [model_files print].
  destruct (model_files w (Config.model_path sc shadow_id)) as [model |] eqn:Em.
  - rewrite (evaluate_model_spec image weights forward argmax).
    destruct test as [| y test].
    + left. eexists. cbn [world_of]. rewrite !print_as_print_all, !print_all_print_all.
      reflexivity.
    + rewrite (stacked_outputs_spec image weights forward softmax sums_to_one).
      destruct (forallb (row_ok_ model) train);
        [| left; eexists; cbn [world_of];
           rewrite !print_as_print_all, !print_all_print_all; reflexivity].
      destruct train as [| x train];
        [left; eexists; cbn [world_of];
         rewrite !print_as_print_all, !print_all_print_all; reflexivity |].
      destruct (forallb (row_ok_ model) (y :: test));
        [| left; eexists; cbn [world_of];
           rewrite !print_as_print_all, !print_all_print_all; reflexivity].
      right. exists model, (x :: train), (y :: test).
      repeat split; reflexivity.
  - left. eexists. cbn [world_of]. rewrite !print_as_print_all, !print_all_print_all.
    reflexivity.
Qed.

Lemma evolves_trans (names1 names2 : list string) (w1 w2 w3 : World) :
  evolves names1 w1 w2 -> evolves names2 w2 w3 -> evolves (names1 ++ names2) w1 w3.
Proof.
  intros (A1 & A2 & A3 & (m1 & A4) & A5) (B1 & B2 & B3 & (m2 & B4) & B5).
  repeat split; try congruence.
  - exists (m1 ++ m2). rewrite B4, A4, app_assoc. reflexivity.
  - intros n Hn. rewrite B5, A5; [reflexivity | |];
      intros H; apply Hn; apply in_or_app; tauto.
Qed.

Lemma process_evolves sc shadow_id (w : World) :
  evolves [Config.attack_data_name shadow_id] w (world_of (process_ sc shadow_id w)).
Proof.
  destruct (process_shape sc shadow_id w)
    as [(msgs & ->) | (model & train & test & _ & _ & _ & ->)].
  - repeat split; try reflexivity. exists msgs. reflexivity.
  - cbn [world_of].
    destruct (extracted_shape sc shadow_id model train test
                (print (ExtractingAttackData shadow_id) w))
      as (H1 & H2 & H3 & (msgs & H4) & H5).
    repeat split; try assumption.
    + exists ([ExtractingAttackData shadow_id] ++ msgs).
      rewrite H4. cbn [stdout print]. rewrite <- app_assoc. reflexivity.
    + intros n Hn. rewrite H5. cbn [output_dir print].
      apply find_file_savez_other. intros ->. apply Hn. now left.
Qed.

Lemma for_each_evolves sc (ids : list Z) (w : World) :
  evolves (map Config.attack_data_name ids) w (world_of (for_each ids (process_ sc) w)).
Proof.
  revert w; induction ids as [| i ids IH]; intros w.
  - repeat split; try reflexivity. exists []. cbn. rewrite app_nil_r. reflexivity.
  - cbn [for_each map].
    pose proof (process_evolves sc i w) as Hp.
    destruct (process_ sc i w) as [w1 | e w1]; cbn [world_of] in *.
    + exact (evolves_trans [Config.attack_data_name i] _ w w1 _ Hp (IH w1)).
    + destruct Hp as (A1 & A2 & A3 & A4 & A5).
      repeat split; try assumption.
      intros n Hn. apply A5. intros [<- | []]. apply Hn. now left.
Qed.

(** X9.  The driver loop treats its inputs as read-only and the console as
    append-only: however a run over any list of ids ends, the checkpoints,
    the sample archives and the global random generator are unchanged, the
    console has only grown, and every file of the output directory that is
    not the archive of one of these ids is as it was. *)
Theorem driver_loop_frame :
  forall (sc : script) (ids : list Z) (w : World),
    let w' := world_of (for_each ids (process_ sc) w) in
    model_files w' = model_files w
    /\ data_files w' = data_files w
    /\ np_random w' = np_random w
    /\ (exists msgs, stdout w' = stdout w ++ msgs)
    /\ forall n,
         (forall i, In i ids -> n <> Config.attack_data_name i) ->
         find_file (output_dir w') n = find_file (output_dir w) n.
Proof.
  intros sc ids w w'.
  destruct (for_each_evolves sc ids w) as (A1 & A2 & A3 & A4 & A5).
  repeat split; try assumption.
  intros n Hn. apply A5. intros Hin. apply in_map_iff in Hin.
  destruct Hin as (i & <- & Hi). exact (Hn i Hi eq_refl).
Qed.

(** X10.  Processing one shadow model never changes another model's archive. *)
Theorem other_archives_untouched :
  forall (sc : script) (shadow_id other : Z) (w : World),
    other <> shadow_id ->
    find_file (output_dir (world_of (process_ sc shadow_id w)))
              (Config.attack_data_name other)
    = find_file (output_dir w) (Config.attack_data_name other).
Proof.
  intros sc shadow_id other w Hne.
  destruct (process_evolves sc shadow_id w) as (_ & _ & _ & _ & H).
  apply H. intros [E | []]. apply Hne. symmetry. exact (attack_data_name_inj _ _ E).
Qed.

(** X11.  The synthetic script, which has no aggregation step, never creates
    or changes the combined archive: its extraction loop only writes
    per-model archives. *)
Theorem synthetic_script_leaves_no_combined_archive :
  forall (w : World),
    find_file (output_dir (world_of (main_ SyntheticCifar w))) Config.combined_name
    = find_file (output_dir w) Config.combined_name.
Proof.
  intros w. unfold main.
  destruct (for_each_evolves SyntheticCifar shadow_ids w) as (_ & _ & _ & _ & H).
  assert (Hn : ~ In Config.combined_name (map Config.attack_data_name shadow_ids)).
  { intros Hin. apply in_map_iff in Hin. destruct Hin as (i & E & _).
    exact (attack_data_name_not_combined i E). }
  specialize (H _ Hn).
  destruct (for_each shadow_ids (process_ SyntheticCifar) w); exact H.
Qed.

(** ** The archives the aggregation reads *)

Lemma shadow_files_print_all (msgs : list message) (w : World) :
  shadow_files (print_all msgs w) = shadow_files w.
Proof. reflexivity. Qed.

Lemma shadow_files_extracted sc shadow_id model (train test : dataset image) (w : World) :
  shadow_files (extracted_ sc shadow_id model train test w)
  = savez (shadow_files w) (Config.attack_data_name shadow_id) (archive_ model train test).
Proof.
  destruct (extracted_shape sc shadow_id model train test w) as (_ & _ & _ & _ & H).
  unfold shadow_files. rewrite H.
  apply (filter_savez_match is_attack_data_name), attack_data_name_matches.
Qed.

Lemma archive_aligned model (train test : dataset image) :
  exists P L M,
    archive_ model train test = AttackData P L M
    /\ List.length P = List.length L /\ List.length L = List.length M.
Proof.
  unfold attack_archive. eexists _, _, _. split; [reflexivity |].
  apply filtered_lengths.
Qed.

(** X12.  Every archive an extraction saves is one the aggregation will load: its
    name matches the aggregation's file pattern, so after a successful
    iteration the model's archive is among the files selected for loading. *)
Theorem saved_archive_is_selected :
  forall (sc : script) (shadow_id : Z) (model : weights)
         (train test : dataset image) (w : World),
    data_files w (Config.train_data_path shadow_id) = Some train ->
    data_files w (Config.test_data_path shadow_id) = Some test ->
    model_files w (Config.model_path sc shadow_id) = Some model ->
    train <> [] -> test <> [] ->
    forallb (row_ok_ model) (train ++ test) = true ->
    exists w',
      process_ sc shadow_id w = Done w'
      /\ find_file (shadow_files w') (Config.attack_data_name shadow_id)
         = Some (archive_ model train test).
Proof.
  intros sc shadow_id model train test w Htr Hte Hmodel Htrain Htest Hok.
  eexists. split.
  - apply (process_ok image weights forward softmax argmax sums_to_one rng); eassumption.
  - rewrite shadow_files_extracted. apply find_file_savez.
Qed.

(** X13.  The driver loop keeps the selected archives well formed: if every file
    matching the aggregation's pattern is an archive with three arrays of one
    length before the loop, the same holds after it, however it ends. *)
Theorem driver_loop_keeps_archives_aligned :
  forall (sc : script) (ids : list Z) (w : World),
    archives_aligned (shadow_files w) ->
    archives_aligned (shadow_files (world_of (for_each ids (process_ sc) w))).
Proof.
  intros sc ids. induction ids as [| i ids IH]; intros w Hal; [exact Hal |].
  cbn [for_each].
  assert (Hstep : archives_aligned (shadow_files (world_of (process_ sc i w)))).
  { destruct (process_shape sc i w)
      as [(msgs & ->) | (model & train & test & _ & _ & _ & ->)]; [exact Hal |].
    cbn [world_of]. rewrite shadow_files_extracted.
    destruct (archive_aligned model train test) as (P & L & M & -> & H1 & H2).
    apply archives_aligned_savez; assumption. }
  destruct (process_ sc i w) as [w1 | e w1]; cbn [world_of] in *.
  - exact (IH w1 Hstep).
  - exact Hstep.
Qed.

(** ** Whole runs of the extraction loop *)

Lemma range_cons (lo hi : Z) : lo < hi -> Py.range lo hi = lo :: Py.range (lo + 1) hi.
Proof.
  intros H. rewrite (range_split lo lo hi) by lia.
  unfold Py.range at 1. rewrite Z.sub_diag. reflexivity.
Qed.

Lemma range_nil (lo hi : Z) : hi <= lo -> Py.range lo hi = [].
Proof.
  intros H. unfold Py.range. replace (Z.to_nat (hi - lo)) with O by lia. reflexivity.
Qed.

Lemma in_range (lo hi i : Z) : In i (Py.range lo hi) <-> lo <= i < hi.
Proof.
  unfold Py.range. rewrite in_map_iff. split.
  - intros (k & <- & Hk). apply in_seq in Hk. lia.
  - intros H. exists (Z.to_nat (i - lo)). split; [lia |]. apply in_seq. lia.
Qed.

(** When every id from [lo] on has its data and checkpoint, non-empty
    partitions and rows that pass the sum test, the loop over [lo..hi-1]
    ends normally with every model's archive in place. *)
Lemma loop_over_ready_models sc (n : nat) :
  forall (lo hi : Z) (w : World),
    Z.to_nat (hi - lo) = n ->
    (forall i, lo <= i < hi ->
       exists model train test,
         data_files w (Config.train_data_path i) = Some train
         /\ data_files w (Config.test_data_path i) = Some test
         /\ model_files w (Config.model_path sc i) = Some model
         /\ train <> [] /\ test <> []
         /\ forallb (row_ok_ model) (train ++ test) = true) ->
    exists w',
      for_each (Py.range lo hi) (process_ sc) w = Done w'
      /\ forall i, lo <= i < hi ->
           exists model train test,
             data_files w (Config.train_data_path i) = Some train
             /\ data_files w (Config.test_data_path i) = Some test
             /\ model_files w (Config.model_path sc i) = Some model
             /\ find_file (output_dir w') (Config.attack_data_name i)
                = Some (archive_ model train test).
Proof.
  induction n as [| n IH]; intros lo hi w Hn Hready.
  - exists w. rewrite range_nil by lia. split; [reflexivity |]. intros i Hi. lia.
  - assert (Hlo : lo < hi) by lia.
    destruct (Hready lo ltac:(lia))
      as (model & train & test & Htr & Hte & Hmodel & Htrain & Htest & Hok).
    pose proof (process_ok image weights forward softmax argmax sums_to_one rng
                  sc lo model train test w Htr Hte Hmodel Htrain Htest Hok) as Hproc.
    set (w1 := extracted_ sc lo model train test (print (ExtractingAttackData lo) w))
      in Hproc.
    destruct (extracted_shape sc lo model train test (print (ExtractingAttackData lo) w))
      as (E1 & E2 & _ & _ & E5). fold w1 in E1, E2, E5.
    cbn [model_files data_files output_dir print] in E1, E2, E5.
    destruct (IH (lo + 1) hi w1 ltac:(lia)) as (w' & Hloop & Harch).
    { intros i Hi. rewrite E1, E2. apply Hready. lia. }
    exists w'. rewrite range_cons by exact Hlo. cbn [for_each]. rewrite Hproc.
    split; [exact Hloop |].
    intros i Hi. destruct (Z.eq_dec i lo) as [-> | Hne].
    + exists model, train, test. repeat (split; [assumption |]).
      destruct (for_each_evolves sc (Py.range (lo + 1) hi) w1) as (_ & _ & _ & _ & F).
      rewrite Hloop in F. cbn [world_of] in F. rewrite F.
      * rewrite E5. apply find_file_savez.
      * intros Hin. apply in_map_iff in Hin. destruct Hin as (j & Ej & Hj).
        apply attack_data_name_inj in Ej. apply in_range in Hj. lia.
    + destruct (Harch i ltac:(lia)) as (m' & tr' & te' & A1 & A2 & A3 & A4).
      rewrite E1 in A3. rewrite E2 in A1, A2.
      exists m', tr', te'. repeat (split; [assumption |]). exact A4.
Qed.

(** X14.  A full run: when each of the thirty shadow models has its data and its
    checkpoint, non-empty partitions and rows that pass the sum test, the
    extraction loop ends normally, and for every id the output directory
    holds the archive of that model: the duplicate-filtered train-then-test
    rows.  No iteration overwrites the archive of another. *)
Theorem full_run_saves_thirty_archives :
  forall (sc : script) (w : World),
    (forall i, 1 <= i <= 30 ->
       exists model train test,
         data_files w (Config.train_data_path i) = Some train
         /\ data_files w (Config.test_data_path i) = Some test
         /\ model_files w (Config.model_path sc i) = Some model
         /\ train <> [] /\ test <> []
         /\ forallb (row_ok_ model) (train ++ test) = true) ->
    exists w',
      for_each shadow_ids (process_ sc) w = Done w'
      /\ forall i, 1 <= i <= 30 ->
           exists model train test,
             data_files w (Config.train_data_path i) = Some train
             /\ data_files w (Config.test_data_path i) = Some test
             /\ model_files w (Config.model_path sc i) = Some model
             /\ find_file (output_dir w') (Config.attack_data_name i)
                = Some (archive_ model train test).
Proof.
  intros sc w Hready.
  destruct (loop_over_ready_models sc 30 1 31 w eq_refl) as (w' & Hloop & Harch).
  - intros i Hi. apply Hready. lia.
  - exists w'. split; [exact Hloop |]. intros i Hi. apply Harch. lia.
Qed.

(** ** Edge cases of [combine_attack_data] *)

Lemma nothing_selected_nothing_combined_aux (w : World) :
  shadow_files w = [] -> combine_ w = Raised nothing_to_stack w.
Proof.
  intros H. unfold combine_attack_data, combined_dataset. rewrite H. reflexivity.
Qed.

(** X15.  With no file matching the pattern the aggregation ends in [np.vstack]'s
    [ValueError]; nothing has been printed or written. *)
Theorem nothing_selected_nothing_combined :
  forall (w : World),
    shadow_files w = [] ->
    combine_ w = Raised nothing_to_stack w.
Proof.
  intros w. apply nothing_selected_nothing_combined_aux.
Qed.

(** X16.  A selected file without a ["probabilities"] array stops the aggregation
    with a [KeyError] at that file; the files before it have been announced,
    and nothing is written. *)
Theorem foreign_archive_is_a_key_error :
  forall (w : World) (before after : directory) (f : string)
         (a : list tuple) (b : list Z) (c : list tuple) (d : list Z),
    shadow_files w = before ++ (f, CombinedData a b c d) :: after ->
    (forall e, In e before -> exists P L M, snd e = AttackData P L M) ->
    exists w',
      combine_ w = Raised (KeyError "probabilities") w'
      /\ output_dir w' = output_dir w
      /\ stdout w'
         = stdout w
           ++ map (fun e => LoadDataFrom (Py.join (Config.OUTPUT_DIR Cifar) (fst e)))
                  (before ++ [(f, CombinedData a b c d)]).
Proof.
  intros w before after f a b c d Hfiles Hbefore.
  assert (Hload : forall acc (u : World),
             exists u',
               load_all (before ++ (f, CombinedData a b c d) :: after) acc u
               = (Raise (KeyError "probabilities"), u')
               /\ output_dir u' = output_dir u
               /\ stdout u'
                  = stdout u
                    ++ map (fun e => LoadDataFrom (Py.join (Config.OUTPUT_DIR Cifar) (fst e)))
                           (before ++ [(f, CombinedData a b c d)])).
  { clear Hfiles. induction before as [| [n0 c0] before IH]; intros [[ps ls] ms] u.
    - eexists. cbn [app load_all]. repeat split; reflexivity.
    - destruct (Hbefore (n0, c0) (or_introl eq_refl)) as (P & L & M & HE).
      cbn [snd] in HE. subst c0.
      destruct (IH (fun e He => Hbefore e (or_intror He))
                   (ps ++ [P], ls ++ [L], ms ++ [M])
                   (print (LoadDataFrom (Py.join (Config.OUTPUT_DIR Cifar) n0)) u))
        as (u' & E1 & E2 & E3).
      exists u'. cbn [app load_all]. rewrite E1. repeat split; [exact E2 |].
      rewrite E3. cbn [stdout print map fst]. rewrite <- app_assoc. reflexivity. }
  destruct (Hload ([], [], []) w) as (w' & E1 & E2 & E3).
  exists w'. unfold combine_attack_data, combined_dataset. rewrite Hfiles, E1.
  repeat split; assumption.
Qed.

Lemma load_all_fst (files : directory) acc (w1 w2 : World) :
  fst (load_all files acc w1) = fst (load_all files acc w2).
Proof.
  revert acc w1 w2; induction files as [| [f data] files IH]; intros [[ps ls] ms] w1 w2;
    [reflexivity |].
  cbn [load_all]. destruct data; [apply IH | reflexivity].
Qed.

Lemma combined_dataset_fst (w1 w2 : World) :
  shadow_files w1 = shadow_files w2 ->
  fst (combined_dataset w1) = fst (combined_dataset w2).
Proof.
  intros H. unfold combined_dataset. rewrite H.
  pose proof (load_all_fst (shadow_files w2) ([], [], []) w1 w2) as Hl.
  destruct (load_all (shadow_files w2) ([], [], []) w1) as [r1 u1].
  destruct (load_all (shadow_files w2) ([], [], []) w2) as [r2 u2].
  cbn [fst] in Hl. subst r2.
  destruct r1 as [[[ps ls] ms] | e]; [| reflexivity].
  destruct (stack ps); [| reflexivity].
  destruct (stack ls); [| reflexivity].
  destruct (stack ms); [| reflexivity].
  destruct (features a a0); reflexivity.
Qed.

Lemma combine_by_dataset (w1 w2 : World) :
  fst (combined_dataset w1) = fst (combined_dataset w2) ->
  combined_archive (combine_ w1) = combined_archive (combine_ w2).
Proof.
  intros Hsame. unfold combine_attack_data, train_test_split.
  destruct (combined_dataset w1) as [[[X1 y1] | e1] u1];
    destruct (combined_dataset w2) as [[[X2 y2] | e2] u2];
    cbn [fst] in Hsame; try discriminate Hsame.
  - injection Hsame as <- <-.
    destruct (split_with (RandomState Config.random_state) X1 y1 Config.test_size y1);
      [| reflexivity].
    cbn [combined_archive output_dir print write]. rewrite !find_file_savez. reflexivity.
  - injection Hsame as <-. reflexivity.
Qed.

Lemma load_all_dir (files : directory) acc (w : World) :
  output_dir (snd (load_all files acc w)) = output_dir w.
Proof.
  revert acc w; induction files as [| [f data] files IH]; intros [[ps ls] ms] w;
    [reflexivity |].
  cbn [load_all]. destruct data; [rewrite IH |]; reflexivity.
Qed.

Lemma combined_dataset_dir (w : World) :
  output_dir (snd (combined_dataset w)) = output_dir w.
Proof.
  unfold combined_dataset.
  pose proof (load_all_dir (shadow_files w) ([], [], []) w) as Hl.
  destruct (load_all (shadow_files w) ([], [], []) w) as [r u]. cbn [snd] in Hl.
  destruct r as [[[ps ls] ms] | e]; [| exact Hl].
  destruct (stack ps); [| exact Hl].
  destruct (stack ls); [| exact Hl].
  destruct (stack ms); [| exact Hl].
  destruct (features a a0); exact Hl.
Qed.

Lemma combine_done_files (w w' : World) :
  combine_ w = Done w' -> shadow_files w' = shadow_files w.
Proof.
  unfold combine_attack_data.
  pose proof (combined_dataset_dir w) as Hd.
  destruct (combined_dataset w) as [[[X y] | e] u]; [| discriminate].
  cbn [snd] in Hd.
  destruct (train_test_split RandomState split_with u X y Config.test_size
              (Some Config.random_state) y); [| discriminate].
  intros [= <-]. unfold shadow_files. cbn [output_dir print write].
  rewrite (filter_savez_other is_attack_data_name) by reflexivity.
  rewrite Hd. reflexivity.
Qed.

(** X17.  The aggregation looks at nothing but the files whose names match its
    pattern, and it does not read back what it wrote: a second run right
    after a successful one succeeds too, selects the same files and leaves
    the same combined archive. *)
Theorem combining_twice_changes_nothing :
  forall (w w' : World),
    combine_ w = Done w' ->
    exists w'',
      combine_ w' = Done w''
      /\ shadow_files w'' = shadow_files w
      /\ find_file (output_dir w'') Config.combined_name
         = find_file (output_dir w') Config.combined_name.
Proof.
  intros w w' Hrun.
  pose proof (combine_done_files w w' Hrun) as Hfiles.
  pose proof (combine_by_dataset w' w (combined_dataset_fst w' w Hfiles)) as Hsame.
  rewrite Hrun in Hsame. cbn [combined_archive] in Hsame.
  destruct (combine_ w') as [w'' | e u] eqn:Hrun'; [| discriminate Hsame].
  exists w''. split; [reflexivity |].
  split; [rewrite (combine_done_files w' w'' Hrun'); exact Hfiles |].
  cbn [combined_archive] in Hsame. congruence.
Qed.

(** ** A run in which every shadow model is skipped *)

Lemma loop_all_skipped sc (n : nat) :
  forall (lo hi : Z) (w : World),
    Z.to_nat (hi - lo) = n ->
    (forall i, lo <= i < hi ->
       data_files w (Config.train_data_path i) = None
       \/ data_files w (Config.test_data_path i) = None
       \/ model_files w (Config.model_path sc i) = None) ->
    exists msgs, for_each (Py.range lo hi) (process_ sc) w = Done (print_all msgs w).
Proof.
  induction n as [| n IH]; intros lo hi w Hn Hmiss.
  - exists []. rewrite range_nil by lia. cbn [for_each]. f_equal.
    unfold print_all. rewrite app_nil_r. destruct w; reflexivity.
  - rewrite range_cons by lia. cbn [for_each].
    assert (Hstep : exists msgs, process_ sc lo w = Done (print_all msgs w)).
    { destruct (data_files w (Config.train_data_path lo)) as [tr |] eqn:Etr;
        [| eexists; apply (process_data_missing image weights forward softmax argmax
                             sums_to_one rng); now left].
      destruct (data_files w (Config.test_data_path lo)) as [te |] eqn:Ete;
        [| eexists; apply (process_data_missing image weights forward softmax argmax
                             sums_to_one rng); now right].
      destruct (Hmiss lo ltac:(lia)) as [H | [H | H]]; try congruence.
      eexists. apply (process_model_missing image weights forward softmax argmax
                        sums_to_one rng sc lo tr te); assumption. }
    destruct Hstep as (msgs & ->).
    destruct (IH (lo + 1) hi (print_all msgs w) ltac:(lia)) as (msgs' & ->).
    { intros i Hi. apply Hmiss. lia. }
    exists (msgs ++ msgs'). rewrite print_all_print_all. reflexivity.
Qed.

(** X18.  When no shadow model can be processed and the output directory holds no
    archive from an earlier run, the CIFAR script does not end with an empty
    dataset: after thirty skipped iterations its aggregation step raises
    [ValueError], and no file has been written.  The synthetic script, which
    stops after the loop, ends normally. *)
Theorem run_with_nothing_to_process :
  forall (sc : script) (w : World),
    (forall i, 1 <= i <= 30 ->
       data_files w (Config.train_data_path i) = None
       \/ data_files w (Config.test_data_path i) = None
       \/ model_files w (Config.model_path sc i) = None) ->
    shadow_files w = [] ->
    exists msgs,
      main_ sc w
      = match sc with
        | Cifar => Raised nothing_to_stack (print_all msgs w)
        | SyntheticCifar => Done (print_all msgs w)
        end.
Proof.
  intros sc w Hmiss Hnone.
  destruct (loop_all_skipped sc 30 1 31 w eq_refl) as (msgs & Hloop).
  - intros i Hi. apply Hmiss. lia.
  - exists msgs. unfold main, shadow_ids. rewrite Hloop. destruct sc; [| reflexivity].
    apply nothing_selected_nothing_combined_aux. exact Hnone.
Qed.

(** ** Which conflicts an extraction reports *)

Lemma process_done_cases sc shadow_id (w w' : World) :
  process_ sc shadow_id w = Done w' ->
  w' = print_all [DataNotFound shadow_id] w
  \/ w' = print_all [ExtractingAttackData shadow_id; ModelNotFound shadow_id] w
  \/ exists model train test,
       data_files w (Config.train_data_path shadow_id) = Some train
       /\ data_files w (Config.test_data_path shadow_id) = Some test
       /\ model_files w (Config.model_path sc shadow_id) = Some model
       /\ w' = extracted_ sc shadow_id model train test
                 (print (ExtractingAttackData shadow_id) w).
Proof.
  unfold process_shadow_model.
  destruct (data_files w (Config.train_data_path shadow_id)) as [train |] eqn:Etr;
    [| intros [= <-]; left; reflexivity].
  destruct (data_files w (Config.test_data_path shadow_id)) as [test |] eqn:Ete;
    [| intros [= <-]; left; reflexivity].
  unfold extract_probabilities. cbn [model_files print].
  destruct (model_files w (Config.model_path sc shadow_id)) as [model |] eqn:Em.
  - rewrite (evaluate_model_spec image weights forward argmax).
    destruct test as [| y test]; [discriminate |].
    rewrite (stacked_outputs_spec image weights forward softmax sums_to_one).
    destruct (forallb (row_ok_ model) train); [| discriminate].
    destruct train as [| x train]; [discriminate |].
    destruct (forallb (row_ok_ model) (y :: test)); [| discriminate].
    intros [= <-]. right. right. exists model, (x :: train), (y :: test).
    repeat split; reflexivity.
  - intros [= <-]. right. left. unfold print, print_all. cbn.
    rewrite <- app_assoc. reflexivity.
Qed.

(** X19.  Every conflict an extraction prints pairs a training sample with a test
    sample: the stored flag is 1, the dropped flag is 0, the vector is that
    of a test sample, and a training sample produced an equal vector.
    Duplicates inside one partition are never reported. *)
Theorem conflicts_pair_train_with_test :
  forall (sc : script) (shadow_id : Z) (w w' : World) (p : tuple) (a b : Z),
    process_ sc shadow_id w = Done w' ->
    In (ConflictFound p a b) (stdout w') ->
    In (ConflictFound p a b) (stdout w)
    \/ (a = 1 /\ b = 0
        /\ exists model train test x y,
             data_files w (Config.train_data_path shadow_id) = Some train
             /\ data_files w (Config.test_data_path shadow_id) = Some test
             /\ model_files w (Config.model_path sc shadow_id) = Some model
             /\ In x train /\ In y test
             /\ p = prob_of_ model y
             /\ tuple_eq (prob_of_ model x) (prob_of_ model y) = true).
Proof.
  intros sc shadow_id w w' p a b Hrun Hin.
  destruct (process_done_cases sc shadow_id w w' Hrun)
    as [-> | [-> | (model & train & test & Htr & Hte & Hmodel & ->)]].
  - cbn [stdout print_all] in Hin. apply in_app_or in Hin.
    destruct Hin as [Hin | [Hin | []]]; [now left | discriminate].
  - cbn [stdout print_all] in Hin. apply in_app_or in Hin.
    destruct Hin as [Hin | [Hin | [Hin | []]]]; [now left | discriminate | discriminate].
  - destruct (extracted_archive image weights forward softmax argmax rng sc shadow_id
                model train test (print (ExtractingAttackData shadow_id) w)) as [_ Hout].
    rewrite Hout in Hin. cbn [stdout print] in Hin.
    apply in_app_or in Hin. destruct Hin as [Hin | Hin].
    { apply in_app_or in Hin. destruct Hin as [Hin | [Hin | []]];
        [now left | discriminate]. }
    destruct Hin as [Hin | [Hin | Hin]]; [discriminate | discriminate |].
    cbn [app] in Hin. apply in_app_or in Hin.
    destruct Hin as [Hin | [Hin | [Hin | [Hin | [Hin | []]]]]]; try discriminate.
    right.
    destruct (conflict_inv _ _ _ _ Hin)
      as (Hab & l1 & lab & l2 & q & Hrows & Hq & _ & Eq & Hflag).
    assert (Htrain_flag : forall r, In r (labelled_ model 1 train) ->
              snd r = 1 /\ exists x, In x train /\ fst (fst r) = prob_of_ model x).
    { intros r Hr. unfold labelled in Hr. apply in_map_iff in Hr.
      destruct Hr as (x & <- & Hx). split; [reflexivity |]. exists x. split; [exact Hx |].
      reflexivity. }
    assert (Htest_flag : forall r, In r (labelled_ model 0 test) ->
              snd r = 0 /\ exists y, In y test /\ fst (fst r) = prob_of_ model y).
    { intros r Hr. unfold labelled in Hr. apply in_map_iff in Hr.
      destruct Hr as (y & <- & Hy). split; [reflexivity |]. exists y. split; [exact Hy |].
      reflexivity. }
    apply app_eq_app in Hrows. destruct Hrows as (l & [[HA HB] | [HA HB]]).
    + destruct l as [| x0 l].
      * cbn [app] in HB. rewrite app_nil_r in HA. subst l1.
        destruct (Htrain_flag q Hq) as (Fq & x & Hx & Ex).
        destruct (Htest_flag (p, lab, b)) as (Fb & y & Hy & Ey);
          [rewrite <- HB; now left |].
        cbn [fst snd] in Fb, Ey.
        split; [congruence |]. split; [exact Fb |].
        exists model, train, test, x, y.
        repeat (split; [assumption |]).
        rewrite <- Ex, <- Ey. exact Eq.
      * injection HB as <- HB.
        destruct (Htrain_flag q) as (Fq & _); [rewrite HA; apply in_or_app; now left |].
        destruct (Htrain_flag (p, lab, b)) as (Fb & _);
          [rewrite HA; apply in_or_app; right; now left |].
        cbn [snd] in Fb. congruence.
    + destruct (Htest_flag (p, lab, b)) as (Fb & y & Hy & Ey);
        [rewrite HB; apply in_or_app; right; now left |].
      cbn [fst snd] in Fb, Ey.
      rewrite HA in Hq. apply in_app_or in Hq. destruct Hq as [Hq | Hq].
      * destruct (Htrain_flag q Hq) as (Fq & x & Hx & Ex).
        split; [congruence |]. split; [exact Fb |].
        exists model, train, test, x, y.
        repeat (split; [assumption |]).
        rewrite <- Ex, <- Ey. exact Eq.
      * destruct (Htest_flag q) as (Fq & _); [rewrite HB; apply in_or_app; now left |].
        congruence.
Qed.

(** ** Running an extraction again *)

Lemma savez_savez (dir : directory) (name : string) (c c' : npz) :
  savez (savez dir name c) name c' = savez dir name c'.
Proof.
  induction dir as [| [n0 c0] dir IH]; cbn [savez].
  - rewrite String.eqb_refl. reflexivity.
  - destruct (String.eqb n0 name) eqn:E; cbn [savez]; rewrite E; [reflexivity |].
    rewrite IH. reflexivity.
Qed.

(** X20.  Extraction only reads its inputs, so it can be repeated: processing a
    shadow model a second time succeeds again and leaves the output
    directory exactly as the first run left it, the archive being replaced
    by an equal one at the same place in the listing. *)
Theorem extraction_can_be_repeated :
  forall (sc : script) (shadow_id : Z) (model : weights)
         (train test : dataset image) (w : World),
    data_files w (Config.train_data_path shadow_id) = Some train ->
    data_files w (Config.test_data_path shadow_id) = Some test ->
    model_files w (Config.model_path sc shadow_id) = Some model ->
    train <> [] -> test <> [] ->
    forallb (row_ok_ model) (train ++ test) = true ->
    exists w1 w2,
      process_ sc shadow_id w = Done w1
      /\ process_ sc shadow_id w1 = Done w2
      /\ output_dir w2 = output_dir w1
      /\ find_file (output_dir w2) (Config.attack_data_name shadow_id)
         = Some (archive_ model train test).
Proof.
  intros sc shadow_id model train test w Htr Hte Hmodel Htrain Htest Hok.
  pose proof (process_ok image weights forward softmax argmax sums_to_one rng
                sc shadow_id model train test w Htr Hte Hmodel Htrain Htest Hok) as H1.
  set (w1 := extracted_ sc shadow_id model train test
               (print (ExtractingAttackData shadow_id) w)) in H1.
  destruct (extracted_shape sc shadow_id model train test
              (print (ExtractingAttackData shadow_id) w)) as (E1 & E2 & _ & _ & E5).
  fold w1 in E1, E2, E5. cbn [model_files data_files output_dir print] in E1, E2, E5.
  assert (H2 : process_ sc shadow_id w1
               = Done (extracted_ sc shadow_id model train test
                         (print (ExtractingAttackData shadow_id) w1))).
  { apply (process_ok image weights forward softmax argmax sums_to_one rng);
      try assumption; try (rewrite E2; assumption); rewrite E1; assumption. }
  destruct (extracted_shape sc shadow_id model train test
              (print (ExtractingAttackData shadow_id) w1)) as (_ & _ & _ & _ & F5).
  cbn [output_dir print] in F5.
  exists w1, (extracted_ sc shadow_id model train test
                (print (ExtractingAttackData shadow_id) w1)).
  split; [exact H1 |]. split; [exact H2 |].
  rewrite F5, E5, savez_savez. split; [reflexivity | apply find_file_savez].
Qed.


(** ** The aggregation, from the files to the saved split *)

Lemma select_length {A : Type} (l : list A) (idx : list nat) :
  (forall i, In i idx -> (i < List.length l)%nat) ->
  List.length (select l idx) = List.length idx.
Proof.
  induction idx as [| i idx IH]; intros H; [reflexivity |].
  cbn [select flat_map]. fold (select l idx).
  destruct (nth_error l i) as [a |] eqn:E.
  - cbn [app List.length]. rewrite IH; [reflexivity |].
    intros j Hj. apply H. now right.
  - apply nth_error_None in E. specialize (H i (or_introl eq_refl)). lia.
Qed.

Lemma promoted_row (p : tuple) (lab : Z) :
  exists probs entry,
    map to_float64 p ++ [int_to_float64 lab] = probs ++ [entry]
    /\ List.length probs = List.length p
    /\ (Forall binary32 p -> Forall2 same_number p probs)
    /\ (- 2 ^ 53 < lab < 2 ^ 53 -> holds_integer lab entry).
Proof.
  exists (map to_float64 p), (int_to_float64 lab).
  split; [reflexivity |]. split; [apply length_map |]. split.
  - intros H. induction H as [| x l Hx Hl IH]; cbn [map]; constructor;
      [apply to_float64_exact; exact Hx | exact IH].
  - apply int_to_float64_exact.
Qed.

(** C3. With at least one selected file, all selected files well formed,
    [combine_attack_data] reads exactly the files of the output directory
    whose names start with [shadow_model_] and end with [_attack_data.npz];
    it builds one feature row per record, the probabilities followed by the
    class label as one more entry, the numbers unchanged by the promotion to
    binary64; it calls the splitter once, with these rows, the membership
    flags as targets and as strata, the binary64 number nearest to 0.3 as
    test size and the seed 42; and it saves the four returned arrays
    unchanged.  So, scikit-learn's splitter doing what it does for the
    arguments it is given, the saved arrays are a split of all records, each
    row still with its own flag, 30% of them (rounded up) in the test part
    and the rest in the train part, the members and the non-members each
    with their proportional share in both parts, up to one record. *)
Theorem combine_is_one_stratified_split :
  forall (w : World) (r : split),
    shadow_files w <> [] ->
    archives_aligned (shadow_files w) ->
    let rows := all_rows (shadow_files w) in
    let X := map (fun q : row =>
                    map to_float64 (fst (fst q)) ++ [int_to_float64 (snd (fst q))]) rows in
    let y := map snd rows in
    let n := Z.of_nat (List.length rows) in
    let n_train := Z.of_nat (List.length (y_train r)) in
    let n_test := Z.of_nat (List.length (y_test r)) in
    split_with (RandomState 42) X y (S754_finite false 5404319552844595 (-54)) y = Ok r ->
    stratified_split (S754_finite false 5404319552844595 (-54)) X y y r ->
    (forall e,
        In e (shadow_files w)
        <-> In e (output_dir w)
            /\ (exists a, fst e = ("shadow_model_" ++ a)%string)
            /\ (exists b, fst e = (b ++ "_attack_data.npz")%string))
    /\ Forall2 (fun (q : row) (x : tuple) =>
                  exists probs entry,
                    x = probs ++ [entry]
                    /\ List.length probs = List.length (fst (fst q))
                    /\ (Forall binary32 (fst (fst q)) ->
                        Forall2 same_number (fst (fst q)) probs)
                    /\ (- 2 ^ 53 < snd (fst q) < 2 ^ 53 ->
                        holds_integer (snd (fst q)) entry))
               rows X
    /\ exists w',
         combine_ w = Done w'
         /\ output_dir w'
            = savez (output_dir w) Config.combined_name
                (CombinedData (X_train r) (y_train r) (X_test r) (y_test r))
         /\ find_file (output_dir w') Config.combined_name
            = Some (CombinedData (X_train r) (y_train r) (X_test r) (y_test r))
         /\ Permutation (combine X y)
              (combine (X_train r) (y_train r) ++ combine (X_test r) (y_test r))
         /\ n_train + n_test = n
         /\ (n < 2 ^ 53 -> 3 * n <= 10 * n_test < 3 * n + 10)
         /\ forall c : Z,
              Z.abs (Z.of_nat (count_occ Z.eq_dec (y_test r) c) * n
                     - Z.of_nat (count_occ Z.eq_dec y c) * n_test) < n
              /\ Z.abs (Z.of_nat (count_occ Z.eq_dec (y_train r) c) * n
                        - Z.of_nat (count_occ Z.eq_dec y c) * n_train) < n.
Proof.
  intros w r Hne Hal rows X y n n_train n_test Hsplit Hcontract.
  split; [| split].
  - intros e. unfold shadow_files. rewrite filter_In, is_attack_data_name_iff. reflexivity.
  - unfold X. clear. induction rows as [| q rows' IH]; cbn [map]; constructor;
      [apply promoted_row | exact IH].
  - destruct (combined_dataset_spec image weights rng w Hne Hal) as (w1 & Hds & Hdir).
    assert (Hcall : split_with (RandomState Config.random_state)
                      (map (fun q : row => feature_row (fst (fst q)) (snd (fst q)))
                           (all_rows (shadow_files w)))
                      (map snd (all_rows (shadow_files w)))
                      Config.test_size
                      (map snd (all_rows (shadow_files w))) = Ok r) by exact Hsplit.
    eexists. split; [| split; [| split]].
    { unfold combine_attack_data. rewrite Hds. unfold train_test_split.
      rewrite Hcall. reflexivity. }
    { cbn [output_dir print write]. rewrite Hdir. reflexivity. }
    { cbn [output_dir print write]. rewrite Hdir. apply find_file_savez. }
    destruct Hcontract
      as (tr & te & Hperm & Hxtr & Hxte & Hytr & Hyte & Hsize & Hcls).
    assert (Hlen : List.length X = List.length y)
      by (unfold X, y; rewrite !length_map; reflexivity).
    assert (Hny : List.length y = List.length rows) by (unfold y; apply length_map).
    assert (Hvalid : forall i, In i (tr ++ te) -> (i < List.length y)%nat).
    { intros i Hi. apply (Permutation_in _ Hperm) in Hi. apply in_seq in Hi. lia. }
    assert (Htr_len : List.length (y_train r) = List.length tr).
    { rewrite Hytr. apply select_length. intros i Hi. apply Hvalid, in_or_app. now left. }
    assert (Hte_len : List.length (y_test r) = List.length te).
    { rewrite Hyte. apply select_length. intros i Hi. apply Hvalid, in_or_app. now right. }
    assert (Htotal : (List.length tr + List.length te = List.length y)%nat).
    { apply Permutation_length in Hperm. rewrite length_app, length_seq in Hperm.
      exact Hperm. }
    split; [| split; [| split]].
    + assert (Etr : combine (X_train r) (y_train r) = select (combine X y) tr)
        by (rewrite Hxtr, Hytr; symmetry; apply select_combine; exact Hlen).
      assert (Ete : combine (X_test r) (y_test r) = select (combine X y) te)
        by (rewrite Hxte, Hyte; symmetry; apply select_combine; exact Hlen).
      assert (Eall : combine (X_train r) (y_train r) ++ combine (X_test r) (y_test r)
                     = select (combine X y) (tr ++ te)).
      { etransitivity; [| symmetry; apply select_app].
        exact (f_equal2 (@app _) Etr Ete). }
      assert (P : Permutation (select (combine X y) (tr ++ te)) (combine X y)).
      { apply select_permutation.
        rewrite length_combine, Hlen, Nat.min_id. exact Hperm. }
      exact (eq_ind_r (fun l => Permutation (combine X y) l) (Permutation_sym P) Eall).
    + unfold n_train, n_test, n. lia.
    + intros Hn. unfold n_test, n in *. rewrite Hte_len.
      cbn zeta in Hsize. rewrite Hny in Hsize.
      assert (E54 : 2 ^ 54 = 18014398509481984) by reflexivity.
      assert (E53 : 2 ^ 53 = 9007199254740992) by reflexivity.
      rewrite E54 in Hsize. rewrite E53 in Hn. lia.
    + intros c. specialize (Hcls c). cbn zeta in Hcls.
      rewrite <- Hyte, <- Hytr, <- Hte_len, <- Htr_len, Hny in Hcls.
      exact Hcls.
Qed.

(** ** Which shadow models are processed *)



End MoreProperties.

(** * The claims on concrete inputs *)

Import Toy.

(** The scenario of C1: the vector (0.5, 0.5, 0, ..., 0) with membership
    flags 1 then 0.  The second record is dropped, the conflict is printed,
    the first record is the output. *)
Lemma first_seen_membership_wins_witness :
  zip3 [half_half; half_half] [3; 3] [1; 0] = [] ++ (half_half, 3, 1) :: [] ++ (half_half, 3, 0) :: []
  /\ tuple_eq half_half half_half = true
  /\ 1 <> 0
  /\ filtered (delete_duplicates [half_half; half_half] [3; 3] [1; 0]) = [(half_half, 3, 1)]
  /\ In (ConflictFound half_half 1 0)
        (printed (delete_duplicates [half_half; half_half] [3; 3] [1; 0])).
Proof.
  assert (H1 : zip3 [half_half; half_half] [3; 3] [1; 0]
               = [] ++ (half_half, 3, 1) :: [] ++ (half_half, 3, 0) :: []) by reflexivity.
  assert (H2 : tuple_eq half_half half_half = true) by reflexivity.
  assert (H3 : 1 <> 0) by discriminate.
  destruct (first_seen_membership_wins [half_half; half_half] [3; 3] [1; 0]
              [] [] [] half_half half_half 3 3 1 0 H1 (fun q (F : In q []) => match F with end)
              H2 H3) as (_ & _ & _ & Hc & Hf).
  split; [exact H1 |]. split; [exact H2 |]. split; [exact H3 |].
  split; [rewrite Hf; reflexivity | exact Hc].
Defined.

(** C9 on three records: a vector, another one, the first vector again with
    the same flag. *)
Lemma each_vector_kept_once_witness :
  In (half_half, 3, 1) (zip3 [half_half; first_class; half_half] [3; 5; 3] [1; 1; 1])
  /\ tuple_eq half_half half_half = true
  /\ occurrences half_half
       (filtered (delete_duplicates [half_half; first_class; half_half] [3; 5; 3] [1; 1; 1]))
     = 1%nat
  /\ delete_duplicates [half_half; first_class; half_half] [3; 5; 3] [1; 1; 1]
     = loop ([] ++ (half_half, 3, 1) :: [(first_class, 5, 1)] ++ []) init.
Proof.
  destruct (each_vector_kept_once [half_half; first_class; half_half] [3; 5; 3] [1; 1; 1])
    as (_ & Hocc & Hsame).
  assert (Hin : In (half_half, 3, 1)
                   (zip3 [half_half; first_class; half_half] [3; 5; 3] [1; 1; 1]))
    by (left; reflexivity).
  assert (Heq : tuple_eq half_half half_half = true) by reflexivity.
  split; [exact Hin |]. split; [exact Heq |].
  split; [exact (Hocc (half_half, 3, 1) Hin Heq) |].
  destruct (Hsame [] [(first_class, 5, 1)] [] half_half half_half 3 3 1
              eq_refl (fun q (F : In q []) => match F with end) Heq) as (_ & Hs).
  exact Hs.
Defined.

(** C7 on shadow model 1 of the toy world. *)
Lemma membership_flags_before_dedup_witness :
  [(0, 3); (1, 5)] <> ([] : dataset image)
  /\ [(0, 3); (2, 7)] <> ([] : dataset image)
  /\ forallb (row_ok forward softmax sums_to_one tt) ([(0, 3); (1, 5)] ++ [(0, 3); (2, 7)])
     = true
  /\ exists P L M,
       stacked_outputs forward softmax sums_to_one tt
         (DataLoader [(0, 3); (1, 5)] Config.batch_size)
         (DataLoader [(0, 3); (2, 7)] Config.batch_size) = Ok (P, L, M)
       /\ M = [1; 1; 0; 0]
       /\ zip3 P L M = [(half_half, 3, 1); (first_class, 5, 1);
                        (half_half, 3, 0); (second_class, 7, 0)].
Proof.
  assert (H1 : [(0, 3); (1, 5)] <> ([] : dataset image)) by discriminate.
  assert (H2 : [(0, 3); (2, 7)] <> ([] : dataset image)) by discriminate.
  assert (H3 : forallb (row_ok forward softmax sums_to_one tt)
                       ([(0, 3); (1, 5)] ++ [(0, 3); (2, 7)]) = true)
    by (vm_compute; reflexivity).
  split; [exact H1 |]. split; [exact H2 |]. split; [exact H3 |].
  exact (membership_flags_before_dedup image weights forward softmax sums_to_one tt
           [(0, 3); (1, 5)] [(0, 3); (2, 7)] H1 H2 H3).
Defined.

(** C10 on the same shadow model: image 0 is in both partitions. *)
Lemma dedup_keeps_first_in_train_then_test_order_witness :
  model_files overlapping_world (Config.model_path Cifar 1) = Some tt
  /\ [(0, 3); (1, 5)] <> ([] : dataset image)
  /\ [(0, 3); (2, 7)] <> ([] : dataset image)
  /\ forallb (row_ok forward softmax sums_to_one tt) ([(0, 3); (1, 5)] ++ [(0, 3); (2, 7)])
     = true
  /\ exists w' fp fl fm,
       extract_probabilities forward softmax argmax sums_to_one Cifar 1
         (DataLoader [(0, 3); (1, 5)] Config.batch_size)
         (DataLoader [(0, 3); (2, 7)] Config.batch_size) overlapping_world = Done w'
       /\ find_file (output_dir w') (Config.attack_data_name 1) = Some (AttackData fp fl fm)
       /\ zip3 fp fl fm = [(half_half, 3, 1); (first_class, 5, 1); (second_class, 7, 0)].
Proof.
  assert (H0 : model_files overlapping_world (Config.model_path Cifar 1) = Some tt)
    by (vm_compute; reflexivity).
  assert (H1 : [(0, 3); (1, 5)] <> ([] : dataset image)) by discriminate.
  assert (H2 : [(0, 3); (2, 7)] <> ([] : dataset image)) by discriminate.
  assert (H3 : forallb (row_ok forward softmax sums_to_one tt)
                       ([(0, 3); (1, 5)] ++ [(0, 3); (2, 7)]) = true)
    by (vm_compute; reflexivity).
  split; [exact H0 |]. split; [exact H1 |]. split; [exact H2 |]. split; [exact H3 |].
  destruct (dedup_keeps_first_in_train_then_test_order image weights forward softmax
              argmax sums_to_one rng Cifar 1 tt [(0, 3); (1, 5)] [(0, 3); (2, 7)]
              overlapping_world H0 H1 H2 H3)
    as (w' & fp & fl & fm & Hrun & Hfile & _ & _ & _ & _ & Hrows & _).
  exists w', fp, fl, fm.
  split; [exact Hrun |]. split; [exact Hfile |]. rewrite Hrows. reflexivity.
Defined.

(** C2: the second test image of the toy world's shadow model 1 yields a row
    that sums to 0.75. *)
Lemma sum_check_violation_is_fatal_witness :
  data_files leaking_world (Config.train_data_path 1) = Some [(1, 5)]
  /\ data_files leaking_world (Config.test_data_path 1) = Some [(2, 7); (9, 4)]
  /\ model_files leaking_world (Config.model_path Cifar 1) = Some tt
  /\ In (9, 4) ([(1, 5)] ++ [(2, 7); (9, 4)])
  /\ sums_to_one (softmax (forward tt (fst (9, 4)))) = false
  /\ exists w',
       process_shadow_model forward softmax argmax sums_to_one Cifar 1 leaking_world
       = Raised (AssertionError "Probabilities do not sum up to 1!") w'
       /\ output_dir w' = output_dir leaking_world.
Proof.
  assert (H1 : data_files leaking_world (Config.train_data_path 1) = Some [(1, 5)])
    by (vm_compute; reflexivity).
  assert (H2 : data_files leaking_world (Config.test_data_path 1) = Some [(2, 7); (9, 4)])
    by (vm_compute; reflexivity).
  assert (H3 : model_files leaking_world (Config.model_path Cifar 1) = Some tt)
    by (vm_compute; reflexivity).
  assert (H4 : In (9, 4) ([(1, 5)] ++ [(2, 7); (9, 4)]))
    by (right; right; left; reflexivity).
  assert (H5 : sums_to_one (softmax (forward tt (fst (9, 4)))) = false)
    by (vm_compute; reflexivity).
  destruct (sum_check_violation_is_fatal image weights forward softmax argmax sums_to_one
              rng Cifar 1 tt [(1, 5)] [(2, 7); (9, 4)] (9, 4) leaking_world
              H1 H2 H3 ltac:(discriminate) ltac:(discriminate) H4 H5)
    as (_ & w' & Hrun & Hdir & _).
  repeat (split; [assumption |]).
  exists w'. split; assumption.
Defined.

(** C5: in a world without any file, id 1 is skipped and the loop goes on
    with the ids 2..30. *)
Lemma missing_artifact_is_skipped_witness :
  1 <= 1 <= 30
  /\ for_each (Py.range 1 1)
       (process_shadow_model forward softmax argmax sums_to_one Cifar) empty_world
     = Done empty_world
  /\ data_files empty_world (Config.train_data_path 1) = None
  /\ exists msgs,
       (msgs = [DataNotFound 1] \/ msgs = [ExtractingAttackData 1; ModelNotFound 1])
       /\ process_shadow_model forward softmax argmax sums_to_one Cifar 1 empty_world
          = Done (print_all msgs empty_world)
       /\ for_each shadow_ids
            (process_shadow_model forward softmax argmax sums_to_one Cifar) empty_world
          = for_each (Py.range (1 + 1) 31)
              (process_shadow_model forward softmax argmax sums_to_one Cifar)
              (print_all msgs empty_world).
Proof.
  assert (H1 : 1 <= 1 <= 30) by lia.
  assert (H2 : for_each (Py.range 1 1)
                 (process_shadow_model forward softmax argmax sums_to_one Cifar) empty_world
               = Done empty_world) by reflexivity.
  assert (H3 : data_files empty_world (Config.train_data_path 1) = None) by reflexivity.
  exact (conj H1 (conj H2 (conj H3
           (missing_artifact_is_skipped image weights forward softmax argmax sums_to_one
              rng Cifar 1 empty_world empty_world H1 H2 (or_introl H3))))).
Defined.



(** C3 on a directory with two per-model archives of two records each. *)
Lemma combine_is_one_stratified_split_witness :
  shadow_files archive_world <> []
  /\ archives_aligned (shadow_files archive_world)
  /\ exists w',
       combine_attack_data RandomState split_with archive_world = Done w'
       /\ find_file (output_dir w') Config.combined_name
          = Some (CombinedData
                    [feature_row half_half 3; feature_row first_class 5] [1; 0]
                    [feature_row second_class 7; feature_row half_half 3] [1; 0])
       /\ 3 * 4 <= 10 * 2 < 3 * 4 + 10.
Proof.
  assert (H1 : shadow_files archive_world <> []) by (vm_compute; discriminate).
  assert (H2 : archives_aligned (shadow_files archive_world))
    by (vm_compute; repeat split).
  split; [exact H1 |]. split; [exact H2 |].
  set (r := mkSplit [feature_row half_half 3; feature_row first_class 5]
                    [feature_row second_class 7; feature_row half_half 3]
                    [1; 0] [1; 0]).
  set (rows := all_rows (shadow_files archive_world)).
  set (X := map (fun q : row =>
                   map to_float64 (fst (fst q)) ++ [int_to_float64 (snd (fst q))]) rows).
  set (y := map snd rows).
  assert (H3 : split_with (RandomState 42) X y
                 (S754_finite false 5404319552844595 (-54)) y = Ok r)
    by (vm_compute; reflexivity).
  assert (H4 : stratified_split (S754_finite false 5404319552844595 (-54)) X y y r).
  { exists [0%nat; 1%nat], [2%nat; 3%nat].
    change y with [1; 0; 1; 0].
    split; [apply Permutation_refl |].
    split; [vm_compute; reflexivity |]. split; [vm_compute; reflexivity |].
    split; [reflexivity |]. split; [reflexivity |].
    split; [vm_compute; split; [reflexivity | discriminate] |].
    intros c. cbn [select flat_map nth_error app count_occ List.length].
    destruct (Z.eq_dec 1 c), (Z.eq_dec 0 c); try lia; cbn; lia. }
  destruct (combine_is_one_stratified_split image weights rng RandomState split_with
              archive_world r H1 H2 H3 H4)
    as (_ & _ & w' & Hrun & _ & Hfile & _ & _ & Hsize & _).
  exists w'. split; [exact Hrun |]. split.
  - exact Hfile.
  - apply Hsize. reflexivity.
Defined.

(** C6: the same directory, seen with another global generator, another
    console and other checkpoints. *)
Lemma split_is_reproducible_witness :
  fst (combined_dataset archive_world) = fst (combined_dataset archive_world')
  /\ np_random archive_world <> np_random archive_world'
  /\ combined_archive (combine_attack_data RandomState split_with archive_world)
     = combined_archive (combine_attack_data RandomState split_with archive_world').
Proof.
  assert (H : fst (combined_dataset archive_world) = fst (combined_dataset archive_world'))
    by (vm_compute; reflexivity).
  split; [exact H |]. split; [discriminate |].
  exact (proj1 (split_is_reproducible image weights rng RandomState split_with
                  archive_world archive_world' H)).
Defined.

(** Without the seed the toy splitter would follow the global generator: the
    two worlds of the previous lemma would then be split differently. *)
Remark unseeded_split_follows_global_generator :
  train_test_split RandomState split_with archive_world
    [[one]; [half]; [zero]] [1; 0; 1] Config.test_size None [1; 0; 1]
  <> train_test_split RandomState split_with archive_world'
       [[one]; [half]; [zero]] [1; 0; 1] Config.test_size None [1; 0; 1].
Proof. vm_compute. discriminate. Qed.

(** When every shadow model is skipped, no archive exists and the CIFAR
    script ends in [np.vstack]'s exception. *)
Remark nothing_to_combine :
  exists w',
    main forward softmax argmax sums_to_one RandomState split_with Cifar empty_world
    = Raised (ValueError "need at least one array to concatenate") w'
    /\ output_dir w' = [].
Proof. eexists. split; vm_compute; reflexivity. Qed.

(** * Further properties on concrete inputs *)

Lemma distinct_rows_pass_unchanged_witness :
  List.length [half_half; first_class] = List.length [3; 5]
  /\ List.length [3; 5] = List.length [1; 0]
  /\ distinct (zip3 [half_half; first_class] [3; 5] [1; 0])
  /\ delete_duplicates [half_half; first_class] [3; 5] [1; 0]
     = mkState (combine [half_half; first_class] [1; 0]) [half_half; first_class]
               [3; 5] [1; 0] [].
Proof.
  assert (H1 : List.length [half_half; first_class] = List.length [3; 5]) by reflexivity.
  assert (H2 : List.length [3; 5] = List.length [1; 0]) by reflexivity.
  assert (H3 : distinct (zip3 [half_half; first_class] [3; 5] [1; 0])).
  { cbn. split; [| split; [intros q [] | exact I]].
    intros q [<- | []]. reflexivity. }
  exact (conj H1 (conj H2 (conj H3
           (distinct_rows_pass_unchanged [half_half; first_class] [3; 5] [1; 0] H1 H2 H3)))).
Defined.

Lemma reported_conflicts_are_genuine_witness :
  In (ConflictFound half_half 1 0)
     (printed (delete_duplicates [half_half; half_half] [3; 3] [1; 0]))
  /\ 1 <> 0
  /\ exists l1 lab l2 q,
       zip3 [half_half; half_half] [3; 3] [1; 0] = l1 ++ (half_half, lab, 0) :: l2
       /\ In q l1
       /\ In q (filtered (delete_duplicates [half_half; half_half] [3; 3] [1; 0]))
       /\ tuple_eq (fst (fst q)) half_half = true
       /\ snd q = 1.
Proof.
  assert (H : In (ConflictFound half_half 1 0)
                 (printed (delete_duplicates [half_half; half_half] [3; 3] [1; 0])))
    by (left; reflexivity).
  exact (conj H (reported_conflicts_are_genuine [half_half; half_half] [3; 3] [1; 0]
                   half_half 1 0 H)).
Defined.

(** The same NaN vector twice: both rows are saved. *)
Lemma nan_rows_are_never_merged_witness :
  In S754_nan (fst (fst (with_nan, 3, 1)))
  /\ filtered (loop ([(with_nan, 3, 1)] ++ [(with_nan, 3, 1)]) init)
     = filtered (loop [(with_nan, 3, 1)] init) ++ [(with_nan, 3, 1)]
  /\ printed (loop ([(with_nan, 3, 1)] ++ [(with_nan, 3, 1)]) init)
     = printed (loop [(with_nan, 3, 1)] init).
Proof.
  assert (H : In S754_nan (fst (fst (with_nan, 3, 1)))) by (left; reflexivity).
  exact (conj H (nan_rows_are_never_merged [(with_nan, 3, 1)] (with_nan, 3, 1) H)).
Defined.

Lemma empty_test_set_divides_by_zero_witness :
  model_files overlapping_world (Config.model_path Cifar 1) = Some tt
  /\ List.concat (DataLoader ([] : dataset image) Config.batch_size) = []
  /\ extract_probabilities forward softmax argmax sums_to_one Cifar 1
       (DataLoader [(0, 3)] Config.batch_size)
       (DataLoader ([] : dataset image) Config.batch_size) overlapping_world
     = Raised ZeroDivisionError (print (EvaluatingShadowModel 1) overlapping_world).
Proof.
  assert (H1 : model_files overlapping_world (Config.model_path Cifar 1) = Some tt)
    by (vm_compute; reflexivity).
  assert (H2 : List.concat (DataLoader ([] : dataset image) Config.batch_size) = [])
    by reflexivity.
  exact (conj H1 (conj H2
           (empty_test_set_divides_by_zero image weights forward softmax argmax
              sums_to_one rng Cifar 1 tt (DataLoader [(0, 3)] Config.batch_size)
              (DataLoader ([] : dataset image) Config.batch_size) overlapping_world
              H1 H2))).
Defined.

Lemma empty_train_set_cannot_be_stacked_witness :
  model_files overlapping_world (Config.model_path Cifar 1) = Some tt
  /\ List.concat (DataLoader [(9, 4)] Config.batch_size) <> []
  /\ exists w',
       extract_probabilities forward softmax argmax sums_to_one Cifar 1
         (DataLoader ([] : dataset image) Config.batch_size)
         (DataLoader [(9, 4)] Config.batch_size) overlapping_world
       = Raised (ValueError "need at least one array to concatenate") w'.
Proof.
  assert (H1 : model_files overlapping_world (Config.model_path Cifar 1) = Some tt)
    by (vm_compute; reflexivity).
  assert (H2 : List.concat (DataLoader [(9, 4)] Config.batch_size) <> [])
    by (vm_compute; discriminate).
  split; [exact H1 |]. split; [exact H2 |].
  eexists.
  exact (empty_train_set_cannot_be_stacked image weights forward softmax argmax
           sums_to_one rng Cifar 1 tt (DataLoader [(9, 4)] Config.batch_size)
           overlapping_world H1 H2).
Defined.

Lemma driver_loop_frame_witness :
  (forall i, In i [1] -> Config.combined_name <> Config.attack_data_name i)
  /\ find_file
       (output_dir
          (world_of (for_each [1]
                       (process_shadow_model forward softmax argmax sums_to_one Cifar)
                       overlapping_world)))
       Config.combined_name
     = find_file (output_dir overlapping_world) Config.combined_name.
Proof.
  assert (H : forall i, In i [1] -> Config.combined_name <> Config.attack_data_name i).
  { intros i [<- | []]. vm_compute. discriminate. }
  split; [exact H |].
  destruct (driver_loop_frame image weights forward softmax argmax sums_to_one rng
              Cifar [1] overlapping_world) as (_ & _ & _ & _ & Hfiles).
  exact (Hfiles Config.combined_name H).
Defined.

Lemma other_archives_untouched_witness :
  1 <> 2
  /\ find_file
       (output_dir
          (world_of (process_shadow_model forward softmax argmax sums_to_one Cifar 2
                       stale_world)))
       (Config.attack_data_name 1)
     = find_file (output_dir stale_world) (Config.attack_data_name 1).
Proof.
  assert (H : 1 <> 2) by discriminate.
  exact (conj H (other_archives_untouched image weights forward softmax argmax
                   sums_to_one rng Cifar 2 1 stale_world H)).
Defined.

Lemma saved_archive_is_selected_witness :
  data_files overlapping_world (Config.train_data_path 1) = Some [(0, 3); (1, 5)]
  /\ data_files overlapping_world (Config.test_data_path 1) = Some [(0, 3); (2, 7)]
  /\ model_files overlapping_world (Config.model_path Cifar 1) = Some tt
  /\ forallb (row_ok forward softmax sums_to_one tt) ([(0, 3); (1, 5)] ++ [(0, 3); (2, 7)])
     = true
  /\ exists w',
       process_shadow_model forward softmax argmax sums_to_one Cifar 1 overlapping_world
       = Done w'
       /\ find_file (shadow_files w') (Config.attack_data_name 1)
          = Some (attack_archive forward softmax tt [(0, 3); (1, 5)] [(0, 3); (2, 7)]).
Proof.
  assert (H1 : data_files overlapping_world (Config.train_data_path 1)
               = Some [(0, 3); (1, 5)]) by (vm_compute; reflexivity).
  assert (H2 : data_files overlapping_world (Config.test_data_path 1)
               = Some [(0, 3); (2, 7)]) by (vm_compute; reflexivity).
  assert (H3 : model_files overlapping_world (Config.model_path Cifar 1) = Some tt)
    by (vm_compute; reflexivity).
  assert (H4 : forallb (row_ok forward softmax sums_to_one tt)
                       ([(0, 3); (1, 5)] ++ [(0, 3); (2, 7)]) = true)
    by (vm_compute; reflexivity).
  exact (conj H1 (conj H2 (conj H3 (conj H4
           (saved_archive_is_selected image weights forward softmax argmax sums_to_one
              rng Cifar 1 tt [(0, 3); (1, 5)] [(0, 3); (2, 7)] overlapping_world
              H1 H2 H3 ltac:(discriminate) ltac:(discriminate) H4))))).
Defined.

Lemma driver_loop_keeps_archives_aligned_witness :
  archives_aligned (shadow_files archive_world)
  /\ archives_aligned
       (shadow_files
          (world_of (for_each shadow_ids
                       (process_shadow_model forward softmax argmax sums_to_one Cifar)
                       archive_world))).
Proof.
  assert (H : archives_aligned (shadow_files archive_world)) by (vm_compute; repeat split).
  exact (conj H (driver_loop_keeps_archives_aligned image weights forward softmax argmax
                   sums_to_one rng Cifar shadow_ids archive_world H)).
Defined.

Lemma full_run_saves_thirty_archives_witness :
  (forall i, 1 <= i <= 30 ->
     exists model train test,
       data_files ready_world (Config.train_data_path i) = Some train
       /\ data_files ready_world (Config.test_data_path i) = Some test
       /\ model_files ready_world (Config.model_path Cifar i) = Some model
       /\ train <> [] /\ test <> []
       /\ forallb (row_ok forward softmax sums_to_one model) (train ++ test) = true)
  /\ exists w',
       for_each shadow_ids (process_shadow_model forward softmax argmax sums_to_one Cifar)
         ready_world = Done w'
       /\ forall i, 1 <= i <= 30 ->
            exists model train test,
              data_files ready_world (Config.train_data_path i) = Some train
              /\ data_files ready_world (Config.test_data_path i) = Some test
              /\ model_files ready_world (Config.model_path Cifar i) = Some model
              /\ find_file (output_dir w') (Config.attack_data_name i)
                 = Some (attack_archive forward softmax model train test).
Proof.
  assert (H : forall i, 1 <= i <= 30 ->
            exists model train test,
              data_files ready_world (Config.train_data_path i) = Some train
              /\ data_files ready_world (Config.test_data_path i) = Some test
              /\ model_files ready_world (Config.model_path Cifar i) = Some model
              /\ train <> [] /\ test <> []
              /\ forallb (row_ok forward softmax sums_to_one model) (train ++ test) = true).
  { intros i _. exists tt, [(1, 5); (2, 7)], [(1, 5); (2, 7)].
    repeat split; try reflexivity; discriminate. }
  exact (conj H (full_run_saves_thirty_archives image weights forward softmax argmax
                   sums_to_one rng Cifar ready_world H)).
Defined.

Lemma nothing_selected_nothing_combined_witness :
  shadow_files empty_world = []
  /\ combine_attack_data RandomState split_with empty_world
     = Raised (ValueError "need at least one array to concatenate") empty_world.
Proof.
  assert (H : shadow_files empty_world = []) by reflexivity.
  exact (conj H (nothing_selected_nothing_combined image weights rng RandomState
                   split_with empty_world H)).
Defined.

Lemma foreign_archive_is_a_key_error_witness :
  shadow_files stale_world
  = [(Config.attack_data_name 1, AttackData [half_half] [3] [1])]
    ++ ("shadow_model_old_attack_data.npz"%string, CombinedData [] [] [] []) :: []
  /\ exists w',
       combine_attack_data RandomState split_with stale_world
       = Raised (KeyError "probabilities") w'
       /\ output_dir w' = output_dir stale_world.
Proof.
  assert (H1 : shadow_files stale_world
               = [(Config.attack_data_name 1, AttackData [half_half] [3] [1])]
                 ++ ("shadow_model_old_attack_data.npz"%string, CombinedData [] [] [] [])
                    :: []) by (vm_compute; reflexivity).
  assert (H2 : forall e, In e [(Config.attack_data_name 1, AttackData [half_half] [3] [1])] ->
                         exists P L M, snd e = AttackData P L M).
  { intros e [<- | []]. exists [half_half], [3], [1]. reflexivity. }
  split; [exact H1 |].
  destruct (foreign_archive_is_a_key_error image weights rng RandomState split_with
              stale_world _ _ _ _ _ _ _ H1 H2) as (w' & Hrun & Hdir & _).
  exists w'. split; assumption.
Defined.

Lemma combining_twice_changes_nothing_witness :
  exists w' w'',
    combine_attack_data RandomState split_with archive_world = Done w'
    /\ combine_attack_data RandomState split_with w' = Done w''
    /\ shadow_files w'' = shadow_files archive_world
    /\ find_file (output_dir w'') Config.combined_name
       = find_file (output_dir w') Config.combined_name.
Proof.
  destruct (combine_attack_data RandomState split_with archive_world) as [w' | e u] eqn:E.
  - destruct (combining_twice_changes_nothing image weights rng RandomState split_with
                archive_world w' E) as (w'' & H1 & H2 & H3).
    exists w', w''. repeat split; assumption.
  - vm_compute in E. discriminate E.
Defined.

Lemma run_with_nothing_to_process_witness :
  (forall i, 1 <= i <= 30 ->
     data_files empty_world (Config.train_data_path i) = None
     \/ data_files empty_world (Config.test_data_path i) = None
     \/ model_files empty_world (Config.model_path Cifar i) = None)
  /\ shadow_files empty_world = []
  /\ exists msgs,
       main forward softmax argmax sums_to_one RandomState split_with Cifar empty_world
       = Raised (ValueError "need at least one array to concatenate")
           (print_all msgs empty_world).
Proof.
  assert (H1 : forall i, 1 <= i <= 30 ->
             data_files empty_world (Config.train_data_path i) = None
             \/ data_files empty_world (Config.test_data_path i) = None
             \/ model_files empty_world (Config.model_path Cifar i) = None)
    by (intros i _; left; reflexivity).
  assert (H2 : shadow_files empty_world = []) by reflexivity.
  exact (conj H1 (conj H2
           (run_with_nothing_to_process image weights forward softmax argmax sums_to_one
              rng RandomState split_with Cifar empty_world H1 H2))).
Defined.

Lemma conflicts_pair_train_with_test_witness :
  exists w',
    process_shadow_model forward softmax argmax sums_to_one Cifar 1 overlapping_world
    = Done w'
    /\ In (ConflictFound half_half 1 0) (stdout w')
    /\ (In (ConflictFound half_half 1 0) (stdout overlapping_world)
        \/ (1 = 1 /\ 0 = 0
            /\ exists model train test x y,
                 data_files overlapping_world (Config.train_data_path 1) = Some train
                 /\ data_files overlapping_world (Config.test_data_path 1) = Some test
                 /\ model_files overlapping_world (Config.model_path Cifar 1) = Some model
                 /\ In x train /\ In y test
                 /\ half_half = prob_of forward softmax model y
                 /\ tuple_eq (prob_of forward softmax model x)
                             (prob_of forward softmax model y) = true)).
Proof.
  destruct (process_shadow_model forward softmax argmax sums_to_one Cifar 1
              overlapping_world) as [w' | e u] eqn:E.
  - assert (Hin : In (ConflictFound half_half 1 0) (stdout w')).
    { vm_compute in E. injection E as <-. do 3 right. left. reflexivity. }
    exists w'. split; [reflexivity |]. split; [exact Hin |].
    exact (conflicts_pair_train_with_test image weights forward softmax argmax
             sums_to_one rng Cifar 1 overlapping_world w' half_half 1 0 E Hin).
  - vm_compute in E. discriminate E.
Defined.

Lemma extraction_can_be_repeated_witness :
  data_files overlapping_world (Config.train_data_path 1) = Some [(0, 3); (1, 5)]
  /\ data_files overlapping_world (Config.test_data_path 1) = Some [(0, 3); (2, 7)]
  /\ model_files overlapping_world (Config.model_path Cifar 1) = Some tt
  /\ forallb (row_ok forward softmax sums_to_one tt) ([(0, 3); (1, 5)] ++ [(0, 3); (2, 7)])
     = true
  /\ exists w1 w2,
       process_shadow_model forward softmax argmax sums_to_one Cifar 1 overlapping_world
       = Done w1
       /\ process_shadow_model forward softmax argmax sums_to_one Cifar 1 w1 = Done w2
       /\ output_dir w2 = output_dir w1
       /\ find_file (output_dir w2) (Config.attack_data_name 1)
          = Some (attack_archive forward softmax tt [(0, 3); (1, 5)] [(0, 3); (2, 7)]).
Proof.
  assert (H1 : data_files overlapping_world (Config.train_data_path 1)
               = Some [(0, 3); (1, 5)]) by (vm_compute; reflexivity).
  assert (H2 : data_files overlapping_world (Config.test_data_path 1)
               = Some [(0, 3); (2, 7)]) by (vm_compute; reflexivity).
  assert (H3 : model_files overlapping_world (Config.model_path Cifar 1) = Some tt)
    by (vm_compute; reflexivity).
  assert (H4 : forallb (row_ok forward softmax sums_to_one tt)
                       ([(0, 3); (1, 5)] ++ [(0, 3); (2, 7)]) = true)
    by (vm_compute; reflexivity).
  exact (conj H1 (conj H2 (conj H3 (conj H4
           (extraction_can_be_repeated image weights forward softmax argmax sums_to_one
              rng Cifar 1 tt [(0, 3); (1, 5)] [(0, 3); (2, 7)] overlapping_world
              H1 H2 H3 ltac:(discriminate) ltac:(discriminate) H4))))).
Defined.
